(** * gdal2mbtiles: tile alignment, warp planning and the pipeline driver

    A shallow embedding of [gdal2mbtiles/gdal.py].

    Python numbers.  The geometry of gdal.py is written on Python floats.
    The embedding is written against the operations of that arithmetic
    (class [Arith]); its instance [b64] is IEEE-754 binary64 with
    round-to-nearest-even, built on the Standard Library's [SpecFloat]:
    this is what the interpreter runs.  What is proved for any [Arith]
    holds of [b64]; what depends on the rounding is proved on [b64].
    Python ints are [Z].

    Exceptions and loops.  A call returns [Ok v], [Raise e] or
    [Unfinished]; the last one only comes from the fuel of the unbounded
    [for resolution in count()] loop. *)

From Stdlib Require Import ZArith Lia.
From Stdlib Require Import Ascii String.
From Stdlib Require Import Floats.SpecFloat.
From stdpp Require Import base option list gmap strings pretty.

Local Open Scope Z_scope.

(** ** Outcomes of a call *)

(** The argument of [warp]'s [resampling] keyword: a GDAL enum value (an
    int), a name, or [None]. *)
Inductive resampling_arg :=
  | ResamplingEnum (code : Z)
  | ResamplingName (name : string).

(** Exceptions; the message texts are not modelled, the payloads of the
    process errors, of [OSError] and of [UnknownResamplingMethodError]
    are. *)
Inductive exn :=
  | ZeroDivisionError
  | OverflowError
  | ValueError
  | TypeError
  | RuntimeError
  | IndexError
  | IOError
  | OSError (errno : Z)
  | GdalError
  | UnalignedInputError
  | UnknownResamplingMethodError (value : resampling_arg)
  | CalledProcessError (returncode : Z) (cmd : list string)
                       (output : string)
  | CalledGdalError (returncode : Z) (cmd : list string)
                    (output : string) (error : string).

Inductive outcome (A : Type) :=
  | Ok (a : A)
  | Raise (e : exn)
  | Unfinished.
Arguments Ok {A} a.
Arguments Raise {A} e.
Arguments Unfinished {A}.

#[export] Instance outcome_ret : MRet outcome := fun A a => Ok a.
#[export] Instance outcome_bind : MBind outcome := fun A B f m =>
  match m with
  | Ok a => f a
  | Raise e => Raise e
  | Unfinished => Unfinished
  end.

#[export] Instance outcome_fmap : FMap outcome := fun A B f m =>
  match m with
  | Ok a => Ok (f a)
  | Raise e => Raise e
  | Unfinished => Unfinished
  end.

(** ** Arithmetic of Python floats *)

(** [int(x)] of a float: the value, or the error for an infinity
    (OverflowError) or a NaN (ValueError). *)
Inductive int_result :=
  | IntOk (n : Z)
  | IntOverflow
  | IntNaN.

Class Arith (F : Type) := {
  (** [float(n)] for an int [n]; [None] when [n] is too large *)
  a_of_Z : Z -> option F;
  (** [2 ** z] as the divisor of a float: an int for [0 <= z], the float
      power otherwise; [None] when the int is too large *)
  a_pow2 : Z -> option F;
  fadd : F -> F -> F;
  fsub : F -> F -> F;
  fmul : F -> F -> F;
  (** [x / y]; [None] on a zero divisor *)
  a_div : F -> F -> option F;
  (** [x % y], the result has the sign of [y]; [None] on a zero divisor *)
  a_mod : F -> F -> option F;
  fneg : F -> F;
  f_abs : F -> F;
  fltb : F -> F -> bool;
  fleb : F -> F -> bool;
  (** [int(x)]: truncation towards zero *)
  a_int : F -> int_result;
  (** [round(x)] of Python 2: halves away from zero, a float *)
  f_round : F -> F;
  (** [math.pi] *)
  f_pi : F;
  (** the literal [1.0e-06] *)
  f_1em6 : F
}.

(** The partial operations with the exception they raise. *)
Definition or_raise {A} (e : exn) (o : option A) : outcome A :=
  match o with Some a => Ok a | None => Raise e end.

Definition f_of_Z {F} `{Arith F} (n : Z) : outcome F :=
  or_raise OverflowError (a_of_Z n).
Definition f_pow2 {F} `{Arith F} (z : Z) : outcome F :=
  or_raise OverflowError (a_pow2 z).
Definition fdiv {F} `{Arith F} (x y : F) : outcome F :=
  or_raise ZeroDivisionError (a_div x y).
Definition fmod {F} `{Arith F} (x y : F) : outcome F :=
  or_raise ZeroDivisionError (a_mod x y).
Definition f_int {F} `{Arith F} (x : F) : outcome Z :=
  match a_int x with
  | IntOk n => Ok n
  | IntOverflow => Raise OverflowError
  | IntNaN => Raise ValueError
  end.

(** [max(a, b)] and [min(a, b)] keep the first argument unless the second
    is strictly better. *)
Definition f_max {F} `{Arith F} (a b : F) : F := if fltb a b then b else a.
Definition f_min {F} `{Arith F} (a b : F) : F := if fltb b a then b else a.

(** [x * n] and [x / n] with an int [n]. *)
Definition fmul_Z {F} `{Arith F} (x : F) (n : Z) : outcome F :=
  y ← f_of_Z n; Ok (fmul x y).
Definition fdiv_Z {F} `{Arith F} (x : F) (n : Z) : outcome F :=
  y ← f_of_Z n; fdiv x y.

(** *** IEEE-754 binary64 *)

Module B64.
Definition prec : Z := 53.
Definition emax : Z := 1024.

Definition normalize (m e : Z) : spec_float :=
  binary_normalize prec emax m e false.

Definition is_zero (x : spec_float) : bool :=
  match x with S754_zero _ => true | _ => false end.
Definition is_neg (x : spec_float) : bool :=
  SFltb x (S754_zero false).

(** [float(n)]: nearest double, an error when that is infinite *)
Definition of_Z (n : Z) : option spec_float :=
  match normalize n 0 with
  | S754_infinity _ => None
  | x => Some x
  end.

(** [2 ** z]: an int converted on use when [0 <= z]; [pow(2.0, z)]
    otherwise, which underflows to zero below the subnormals *)
Definition pow2 (z : Z) : option spec_float :=
  if 0 <=? z then of_Z (2 ^ z)
  else Some (SFldexp prec emax (normalize 1 0) z).

Definition div (x y : spec_float) : option spec_float :=
  if is_zero y then None else Some (SFdiv prec emax x y).

(** C's [fmod]: exact, with the sign of [x] *)
Definition c_fmod (x y : spec_float) : spec_float :=
  match x, y with
  | S754_nan, _ | _, S754_nan => S754_nan
  | S754_infinity _, _ => S754_nan
  | _, S754_zero _ => S754_nan
  | _, S754_infinity _ => x
  | S754_zero _, _ => x
  | S754_finite sx mx ex, S754_finite _ my ey =>
      let e := Z.min ex ey in
      let X := Zpos mx * 2 ^ (ex - e) in
      let Y := Zpos my * 2 ^ (ey - e) in
      let R := Z.rem X Y in
      if R =? 0 then S754_zero sx
      else binary_normalize prec emax (if sx then - R else R) e false
  end.

(** [float_rem] of CPython *)
Definition rem (x y : spec_float) : option spec_float :=
  if is_zero y then None
  else
    let m := c_fmod x y in
    if is_zero m then Some (S754_zero (is_neg y))
    else if Bool.eqb (is_neg y) (is_neg m) then Some m
    else Some (SFadd prec emax m y).

Definition trunc (x : spec_float) : int_result :=
  match x with
  | S754_zero _ => IntOk 0
  | S754_infinity _ => IntOverflow
  | S754_nan => IntNaN
  | S754_finite s m e =>
      let n := if 0 <=? e then Zpos m * 2 ^ e
               else Z.quot (Zpos m) (2 ^ (- e)) in
      IntOk (if s then - n else n)
  end.

Definition round (x : spec_float) : spec_float :=
  match x with
  | S754_finite s m e =>
      if 0 <=? e then x
      else
        let d := 2 ^ (- e) in
        let n := Zpos m / d in
        let r := Zpos m mod d in
        let n' := if d <=? 2 * r then n + 1 else n in
        if n' =? 0 then S754_zero s
        else binary_normalize prec emax (if s then - n' else n') 0 false
  | _ => x
  end.

Definition pi : spec_float := normalize 884279719003555 (-48).
Definition lit_1em6 : spec_float :=
  SFdiv prec emax (normalize 1 0) (normalize 1000000 0).
End B64.

#[export] Instance b64 : Arith spec_float := {|
  a_of_Z := B64.of_Z;
  a_pow2 := B64.pow2;
  fadd := SFadd B64.prec B64.emax;
  fsub := SFsub B64.prec B64.emax;
  fmul := SFmul B64.prec B64.emax;
  a_div := B64.div;
  a_mod := B64.rem;
  fneg := SFopp;
  f_abs := SFabs;
  fltb := SFltb;
  fleb := SFleb;
  a_int := B64.trunc;
  f_round := B64.round;
  f_pi := B64.pi;
  f_1em6 := B64.lit_1em6
|}.

(** Two floats are the same when they have the same representation. *)
#[export] Instance spec_float_eq_dec : EqDecision spec_float.
Proof. solve_decision. Defined.

(** ** Geometry value types (types.py) *)

Record XY (A : Type) := mkXY { xy_x : A; xy_y : A }.
Arguments mkXY {A} _ _.
Arguments xy_x {A} _.
Arguments xy_y {A} _.

Record Extents (A : Type) := mkExtents {
  lower_left : XY A;
  upper_right : XY A
}.
Arguments mkExtents {A} _ _.
Arguments lower_left {A} _.
Arguments upper_right {A} _.

(** Modelled from the spec: [Extents.__contains__] of types.py, which is
    not part of the sources at hand.  The lower-left corner is included,
    the upper-right corner is excluded. *)
Definition Extents_contains (e : Extents Z) (p : XY Z) : bool :=
  (xy_x (lower_left e) <=? xy_x p) && (xy_x p <? xy_x (upper_right e)) &&
  (xy_y (lower_left e) <=? xy_y p) && (xy_y p <? xy_y (upper_right e)).

(** ** The GDAL objects the wrappers sit on *)

(** What [osr.SpatialReference] answers. *)
Record SpatialReference (F : Type) := {
  IsProjected : Z;
  IsGeographic : Z;
  IsLocal : Z;
  GetAngularUnits : F;
  GetLinearUnits : F;
  GetSemiMajor : F;
  GetSemiMinor : F;
  GetAuthorityName : string -> option string;
  GetAuthorityCode : string -> option string
}.
Arguments IsProjected {F} _.
Arguments IsGeographic {F} _.
Arguments IsLocal {F} _.
Arguments GetAngularUnits {F} _.
Arguments GetLinearUnits {F} _.
Arguments GetSemiMajor {F} _.
Arguments GetSemiMinor {F} _.
Arguments GetAuthorityName {F} _ _.
Arguments GetAuthorityCode {F} _ _.

(** [CoordinateTransformation]: both references are kept in the object;
    [osr_TransformPoint] is osr's, [None] when it fails. *)
Record CoordinateTransformation (F : Type) := {
  src_ref : SpatialReference F;
  dst_ref : SpatialReference F;
  osr_TransformPoint : F -> F -> option (F * F * F)
}.
Arguments src_ref {F} _.
Arguments dst_ref {F} _.
Arguments osr_TransformPoint {F} _ _ _.

Definition TransformPoint {F} (self : CoordinateTransformation F) (x y : F)
  : outcome (F * F * F) :=
  or_raise RuntimeError (osr_TransformPoint self x y).

Section Projection.
Context {F : Type} `{Arith F}.

Definition GetMajorCircumference (self : SpatialReference F) : outcome F :=
  two ← f_of_Z 2;
  if IsProjected self =? 0 then
    fdiv (fmul two f_pi) (GetAngularUnits self)
  else
    fdiv (fmul (fmul (GetSemiMajor self) two) f_pi) (GetLinearUnits self).

Definition GetMinorCircumference (self : SpatialReference F) : outcome F :=
  two ← f_of_Z 2;
  if IsProjected self =? 0 then
    fdiv (fmul two f_pi) (GetAngularUnits self)
  else
    fdiv (fmul (fmul (GetSemiMinor self) two) f_pi) (GetLinearUnits self).

Definition GetWorldExtents (self : SpatialReference F)
  : outcome (Extents F) :=
  cmajor ← GetMajorCircumference self;
  major ← fdiv_Z cmajor 2;
  cminor ← GetMinorCircumference self;
  minor ← fdiv_Z cminor 2;
  minor ← (if IsProjected self =? 0 then fdiv_Z minor 2 else Ok minor);
  Ok (mkExtents (mkXY (fneg major) (fneg minor)) (mkXY major minor)).

Definition OffsetPoint (self : SpatialReference F) (x y : F)
    (reverse : bool) : outcome (XY F) :=
  cmajor ← GetMajorCircumference self;
  major_offset ← fdiv_Z cmajor 2;
  cminor ← GetMinorCircumference self;
  minor_offset ← fdiv_Z cminor 2;
  minor_offset ←
    (if IsProjected self =? 0 then
       cminor' ← GetMinorCircumference self; fdiv_Z cminor' 4
     else Ok minor_offset);
  let major_offset := if reverse then fneg major_offset else major_offset in
  let minor_offset := if reverse then fneg minor_offset else minor_offset in
  Ok (mkXY (fadd x major_offset) (fadd y minor_offset)).

Definition GetTileDimensions (self : SpatialReference F) (resolution : Z)
  : outcome (XY F) :=
  cmajor ← GetMajorCircumference self;
  p ← f_pow2 resolution;
  width ← fdiv cmajor p;
  cminor ← GetMinorCircumference self;
  p' ← f_pow2 resolution;
  height ← fdiv cminor p';
  if IsProjected self =? 0 then
    w2 ← fdiv_Z width 2;
    h2 ← fdiv_Z height 2;
    Ok (mkXY w2 h2)
  else
    Ok (mkXY width height).

Variable TILE_SIDE : Z.

Definition GetPixelDimensions (self : SpatialReference F) (resolution : Z)
  : outcome (XY F) :=
  d ← GetTileDimensions self resolution;
  w ← fdiv_Z (xy_x d) TILE_SIDE;
  h ← fdiv_Z (xy_y d) TILE_SIDE;
  Ok (mkXY w h).

Definition GetTilesCount (self : SpatialReference F) (extents : Extents F)
    (resolution : Z) : outcome (XY Z) :=
  let width := fsub (xy_x (upper_right extents)) (xy_x (lower_left extents)) in
  let height := fsub (xy_y (upper_right extents)) (xy_y (lower_left extents)) in
  d ← GetTileDimensions self resolution;
  qx ← fdiv width (xy_x d);
  nx ← f_int (f_round qx);
  qy ← fdiv height (xy_y d);
  ny ← f_int (f_round qy);
  Ok (mkXY nx ny).
End Projection.

(** ** Bands *)

Inductive np_dtype :=
  | np_int8 | np_uint8 | np_uint16 | np_uint32 | np_int16 | np_int32
  | np_float32 | np_float64.

Definition np_is_integer (t : np_dtype) : bool :=
  match t with np_float32 | np_float64 => false | _ => true end.

(** [numpy.iinfo(t).min] and [numpy.iinfo(t).max] *)
Definition iinfo_min (t : np_dtype) : Z :=
  match t with
  | np_int8 => -128 | np_int16 => -32768 | np_int32 => -2147483648
  | _ => 0
  end.
Definition iinfo_max (t : np_dtype) : Z :=
  match t with
  | np_int8 => 127 | np_uint8 => 255
  | np_int16 => 32767 | np_uint16 => 65535
  | np_int32 => 2147483647 | np_uint32 => 4294967295
  | _ => 0
  end.

(** Precision and exponent bound of a floating type. *)
Definition np_prec (t : np_dtype) : Z :=
  match t with np_float32 => 24 | _ => 53 end.
Definition np_emax (t : np_dtype) : Z :=
  match t with np_float32 => 128 | _ => 1024 end.

(** [numpy.finfo(t).max] *)
Definition finfo_max (t : np_dtype) : spec_float :=
  SFmax_float (np_prec t) (np_emax t).

(** A Python or NumPy scalar: an int, a float, or something else. *)
Inductive py_value :=
  | PyInt (n : Z)
  | PyFloat (v : spec_float)
  | PyOther (repr : string).

(** [gdalconst.GDT_*] *)
Definition GDT_Byte : Z := 1.
Definition GDT_UInt16 : Z := 2.
Definition GDT_Int16 : Z := 3.
Definition GDT_UInt32 : Z := 4.
Definition GDT_Int32 : Z := 5.
Definition GDT_Float32 : Z := 6.
Definition GDT_Float64 : Z := 7.

(** What [gdal.Band] answers: the data type, the PIXELTYPE item of the
    IMAGE_STRUCTURE metadata, and the no-data value (as the scalar that
    [NumPyDataType(result)] builds from it). *)
Record Band := {
  DataType : Z;
  PIXELTYPE : option string;
  gdal_NoDataValue : option py_value
}.

Definition NumPyDataType (self : Band) : outcome np_dtype :=
  let datatype := DataType self in
  if datatype =? GDT_Byte then
    match PIXELTYPE self with
    | Some pixeltype =>
        if String.eqb pixeltype "SIGNEDBYTE" then Ok np_int8 else Ok np_uint8
    | None => Ok np_uint8
    end
  else if datatype =? GDT_UInt16 then Ok np_uint16
  else if datatype =? GDT_UInt32 then Ok np_uint32
  else if datatype =? GDT_Int16 then Ok np_int16
  else if datatype =? GDT_Int32 then Ok np_int32
  else if datatype =? GDT_Float32 then Ok np_float32
  else if datatype =? GDT_Float64 then Ok np_float64
  else Raise ValueError.

Definition GetNoDataValue (self : Band) : outcome (option py_value) :=
  match gdal_NoDataValue self with
  | None => Ok None
  | Some result => _ ← NumPyDataType self; Ok (Some result)
  end.

(** The value of a scalar as a double, for [==] against a NumPy float. *)
Definition as_double (value : py_value) : outcome spec_float :=
  match value with
  | PyInt n => or_raise OverflowError (B64.of_Z n)
  | PyFloat v => Ok v
  | PyOther _ => Raise TypeError
  end.

(** [datatype(v)] for a floating [datatype]: the nearest value of the
    type. *)
Definition np_cast (t : np_dtype) (v : spec_float) : spec_float :=
  match v with
  | S754_finite s m e =>
      binary_normalize (np_prec t) (np_emax t)
        (if s then Zneg m else Zpos m) e s
  | _ => v
  end.

(** [numpy.nextafter(x, datatype(numpy.inf))] *)
Definition nextafter_inf (t : np_dtype) (x : spec_float) : spec_float :=
  SFsucc (np_prec t) (np_emax t) x.

Definition IncrementValue (self : Band) (value : py_value)
  : outcome py_value :=
  datatype ← NumPyDataType self;
  if np_is_integer datatype then
    match value with
    | PyInt n =>
        let minint := iinfo_min datatype in
        let maxint := iinfo_max datatype in
        if negb ((minint <=? n) && (n <=? maxint)) then Raise ValueError
        else if n =? maxint then Ok (PyInt maxint)
        else Ok (PyInt (n + 1))
    | _ => Raise TypeError
    end
  else
    match value with
    | PyOther _ => Raise TypeError
    | _ =>
        v ← as_double value;
        if SFeqb v (finfo_max datatype) then Ok (PyFloat (S754_infinity false))
        else Ok (PyFloat (nextafter_inf datatype (np_cast datatype v)))
    end.

(** ** Datasets *)

(** What [gdal.Dataset] answers once the file is open. *)
Record Dataset (F : Type) := {
  RasterXSize : Z;
  RasterYSize : Z;
  GetGeoTransform : F * F * F * F * F * F;
  GetSpatialReference : SpatialReference F;
  bands : list Band
}.
Arguments RasterXSize {F} _.
Arguments RasterYSize {F} _.
Arguments GetGeoTransform {F} _.
Arguments GetSpatialReference {F} _.
Arguments bands {F} _.

Definition RasterCount {F} (self : Dataset F) : Z :=
  Z.of_nat (length (bands self)).

Section Raster.
Context {F : Type} `{Arith F}.

(** [constants.TILE_SIDE]; constants.py is not part of the sources at
    hand. *)
Variable TILE_SIDE : Z.

(** The spatial reference the results are expressed in. *)
Definition target_ref (self : Dataset F)
    (transform : option (CoordinateTransformation F)) : SpatialReference F :=
  match transform with
  | None => GetSpatialReference self
  | Some t => dst_ref t
  end.

(** The first half of [GetNativeResolution]: the pixel size in the
    destination projection. *)
Definition destination_pixel_size (self : Dataset F)
    (transform : option (CoordinateTransformation F)) : outcome F :=
  let '(_, width, _, _, _, height) := GetGeoTransform self in
  let src_pixel_size := f_min (f_abs width) (f_abs height) in
  match transform with
  | None => Ok src_pixel_size
  | Some t =>
      zero ← f_of_Z 0;
      '(px, _, _) ← TransformPoint t src_pixel_size zero;
      Ok (f_abs px)
  end.

(** The test that ends the scan at [resolution]. *)
Definition pixels_fine_enough (dst_ref : SpatialReference F)
    (dst_pixel_size : F) (resolution : Z) : outcome bool :=
  let error := fmul dst_pixel_size f_1em6 in
  d ← GetPixelDimensions TILE_SIDE dst_ref resolution;
  let res_pixel_size := f_max (xy_x d) (xy_y d) in
  Ok (fleb (fsub res_pixel_size dst_pixel_size) error).

Definition maximum_reached (maximum : option Z) (resolution : Z) : bool :=
  match maximum with
  | Some m => m <=? resolution
  | None => false
  end.

(** [for resolution in count(): ...], from [resolution] on. *)
Fixpoint scan_resolutions (fuel : nat) (dst_ref : SpatialReference F)
    (dst_pixel_size : F) (maximum : option Z) (resolution : Z)
  : outcome Z :=
  match fuel with
  | O => Unfinished
  | S fuel' =>
      if maximum_reached maximum resolution then Ok resolution
      else
        fine ← pixels_fine_enough dst_ref dst_pixel_size resolution;
        if fine : bool then Ok resolution
        else scan_resolutions fuel' dst_ref dst_pixel_size maximum
               (resolution + 1)
  end.

Definition GetNativeResolution (fuel : nat) (self : Dataset F)
    (transform : option (CoordinateTransformation F))
    (maximum : option Z) : outcome Z :=
  dst_pixel_size ← destination_pixel_size self transform;
  scan_resolutions fuel (target_ref self transform) dst_pixel_size
    maximum 0.

Definition PixelCoordinates (self : Dataset F) (x y : Z)
    (transform : option (CoordinateTransformation F)) : outcome (XY F) :=
  if negb ((0 <=? x) && (x <=? RasterXSize self)) then Raise ValueError
  else if negb ((0 <=? y) && (y <=? RasterYSize self)) then Raise ValueError
  else
    let '(g0, g1, g2, g3, g4, g5) := GetGeoTransform self in
    g1x ← fmul_Z g1 x;
    g2y ← fmul_Z g2 y;
    g4x ← fmul_Z g4 x;
    g5y ← fmul_Z g5 y;
    let coords := mkXY (fadd (fadd g0 g1x) g2y) (fadd (fadd g3 g4x) g5y) in
    match transform with
    | None => Ok coords
    | Some t =>
        '(px, py, _) ← TransformPoint t (xy_x coords) (xy_y coords);
        Ok (mkXY px py)
    end.

(** [min] and [max] of a 4-tuple, scanning left to right. *)
Definition min4 (a b c d : F) : F := f_min (f_min (f_min a b) c) d.
Definition max4 (a b c d : F) : F := f_max (f_max (f_max a b) c) d.

Definition GetExtents (self : Dataset F)
    (transform : option (CoordinateTransformation F))
  : outcome (Extents F) :=
  let x_size := RasterXSize self in
  let y_size := RasterYSize self in
  ul ← PixelCoordinates self 0 0 transform;
  ur ← PixelCoordinates self x_size 0 transform;
  ll ← PixelCoordinates self 0 y_size transform;
  lr ← PixelCoordinates self x_size y_size transform;
  Ok (mkExtents
        (mkXY (min4 (xy_x ul) (xy_x ur) (xy_x ll) (xy_x lr))
              (min4 (xy_y ul) (xy_y ur) (xy_y ll) (xy_y lr)))
        (mkXY (max4 (xy_x ul) (xy_x ur) (xy_x ll) (xy_x lr))
              (max4 (xy_y ul) (xy_y ur) (xy_y ll) (xy_y lr)))).

(** The body of [GetTiledExtents] from the projected [extents] on: the
    snapping to the grid of tiles of dimensions [tile] and the clamping
    to the world. *)
Definition snap_to_tiles (spatial_ref : SpatialReference F)
    (tile : XY F) (extents : Extents F) : outcome (Extents F) :=
  let tile_width := xy_x tile in
  let tile_height := xy_y tile in
  lb ← OffsetPoint spatial_ref (xy_x (lower_left extents))
         (xy_y (lower_left extents)) false;
  rt ← OffsetPoint spatial_ref (xy_x (upper_right extents))
         (xy_y (upper_right extents)) false;
  let left := xy_x lb in
  let bottom := xy_y lb in
  let right := xy_x rt in
  let top := xy_y rt in
  m ← fmod left tile_width;
  let left := fsub left m in
  m ← fmod (fneg right) tile_width;
  let right := fadd right m in
  m ← fmod bottom tile_height;
  let bottom := fsub bottom m in
  m ← fmod (fneg top) tile_height;
  let top := fadd top m in
  lb ← OffsetPoint spatial_ref left bottom true;
  rt ← OffsetPoint spatial_ref right top true;
  world_extents ← GetWorldExtents spatial_ref;
  let left := f_max (xy_x lb) (xy_x (lower_left world_extents)) in
  let bottom := f_max (xy_y lb) (xy_y (lower_left world_extents)) in
  let right := f_min (xy_x rt) (xy_x (upper_right world_extents)) in
  let top := f_min (xy_y rt) (xy_y (upper_right world_extents)) in
  Ok (mkExtents (mkXY left bottom) (mkXY right top)).

Definition GetTiledExtents (fuel : nat) (self : Dataset F)
    (transform : option (CoordinateTransformation F))
    (resolution : option Z) : outcome (Extents F) :=
  resolution ←
    match resolution with
    | None => GetNativeResolution fuel self transform None
    | Some r => Ok r
    end;
  let spatial_ref := target_ref self transform in
  tile ← GetTileDimensions spatial_ref resolution;
  extents ← GetExtents self transform;
  snap_to_tiles spatial_ref tile extents.

(** [Extents.almost_equal(other, places)], of types.py, which is not
    part of the sources at hand. *)
Variable almost_equal : Extents F -> Extents F -> Z -> bool.

Definition GetTmsExtents (fuel : nat) (self : Dataset F)
    (resolution : option Z)
    (transform : option (CoordinateTransformation F))
  : outcome (Extents Z) :=
  resolution ←
    match resolution with
    | None => GetNativeResolution fuel self None None
    | Some r => Ok r
    end;
  let spatial_ref := target_ref self transform in
  d ← GetTileDimensions spatial_ref resolution;
  let tile_width := xy_x d in
  let tile_height := xy_y d in
  extents ← GetTiledExtents fuel self transform None;
  raw ← GetExtents self transform;
  if negb (almost_equal extents raw 2) then Raise UnalignedInputError
  else
    extents ← GetTiledExtents fuel self transform (Some resolution);
    lb ← OffsetPoint spatial_ref (xy_x (lower_left extents))
           (xy_y (lower_left extents)) false;
    rt ← OffsetPoint spatial_ref (xy_x (upper_right extents))
           (xy_y (upper_right extents)) false;
    ql ← fdiv (xy_x lb) tile_width;
    il ← f_int ql;
    qb ← fdiv (xy_y lb) tile_height;
    ib ← f_int qb;
    qr ← fdiv (xy_x rt) tile_width;
    ir ← f_int qr;
    qt ← fdiv (xy_y rt) tile_height;
    it ← f_int qt;
    Ok (mkExtents (mkXY il ib) (mkXY ir it)).

Definition GetWorldTmsExtents (fuel : nat) (self : Dataset F)
    (resolution : option Z)
    (transform : option (CoordinateTransformation F))
  : outcome (Extents Z) :=
  resolution ←
    match resolution with
    | None => GetNativeResolution fuel self None None
    | Some r => Ok r
    end;
  let spatial_ref := target_ref self transform in
  world ← GetWorldExtents spatial_ref;
  world_tiles ← GetTilesCount spatial_ref world resolution;
  Ok (mkExtents (mkXY 0 0) world_tiles).
End Raster.

(** ** The border tiles: a generator *)

(** [xrange(a, b)] *)
Definition xrange (a b : Z) : list Z := seqZ a (b - a).

(** The generator object that [GetWorldTmsBorders] returns.  It is
    consumed as it is iterated: [candidates] are the indices of the two
    nested [xrange] loops that have not been visited yet. *)
Record border_generator := {
  candidates : list (XY Z);
  data_extents : Extents Z
}.

Fixpoint next_border (data : Extents Z) (cands : list (XY Z))
  : option (XY Z * list (XY Z)) :=
  match cands with
  | [] => None
  | p :: rest =>
      if negb (Extents_contains data p) then Some (p, rest)
      else next_border data rest
  end.

(** [next(g)]: the next border tile and the generator afterwards; [None]
    is StopIteration. *)
Definition gen_next (g : border_generator)
  : option (XY Z) * border_generator :=
  match next_border (data_extents g) (candidates g) with
  | Some (p, rest) =>
      (Some p, {| candidates := rest; data_extents := data_extents g |})
  | None => (None, {| candidates := []; data_extents := data_extents g |})
  end.

Fixpoint gen_collect (fuel : nat) (g : border_generator)
  : list (XY Z) * border_generator :=
  match fuel with
  | O => ([], g)
  | S fuel' =>
      match gen_next g with
      | (Some p, g') =>
          let '(l, g'') := gen_collect fuel' g' in (p :: l, g'')
      | (None, g') => ([], g')
      end
  end.

(** [list(g)]: everything the generator still yields, and the generator
    afterwards. *)
Definition py_list (g : border_generator)
  : list (XY Z) * border_generator :=
  gen_collect (S (length (candidates g))) g.

Section Borders.
Context {F : Type} `{Arith F}.
Variable TILE_SIDE : Z.
Variable almost_equal : Extents F -> Extents F -> Z -> bool.

Definition GetWorldTmsBorders (fuel : nat) (self : Dataset F)
    (resolution : option Z)
    (transform : option (CoordinateTransformation F))
  : outcome border_generator :=
  world_extents ←
    GetWorldTmsExtents TILE_SIDE fuel self resolution transform;
  data_extents ←
    GetTmsExtents TILE_SIDE almost_equal fuel self resolution transform;
  Ok {| candidates :=
          x ← xrange (xy_x (lower_left world_extents))
                     (xy_x (upper_right world_extents));
          y ← xrange (xy_y (lower_left world_extents))
                     (xy_y (upper_right world_extents));
          [mkXY x y];
        data_extents := data_extents |}.
End Borders.

(** ** Python strings *)

Module Str.
Local Open Scope char_scope.

Definition newline : ascii := "010".
Definition cr : ascii := "013".
Definition tab : ascii := "009".

(** [s.rstrip('\n')] *)
Fixpoint rstrip_newlines (s : string) : string :=
  match s with
  | EmptyString => EmptyString
  | String c s' =>
      match rstrip_newlines s' with
      | EmptyString =>
          if Ascii.eqb c newline then EmptyString
          else String c EmptyString
      | t => String c t
      end
  end.

Definition lower_char (c : ascii) : ascii :=
  let n := N_of_ascii c in
  if ((65 <=? n) && (n <=? 90))%N then ascii_of_N (n + 32) else c.
Definition upper_char (c : ascii) : ascii :=
  let n := N_of_ascii c in
  if ((97 <=? n) && (n <=? 122))%N then ascii_of_N (n - 32) else c.

(** [s.lower()] and [s.upper()] *)
Fixpoint lower (s : string) : string :=
  match s with
  | EmptyString => EmptyString
  | String c s' => String (lower_char c) (lower s')
  end.
Fixpoint upper (s : string) : string :=
  match s with
  | EmptyString => EmptyString
  | String c s' => String (upper_char c) (upper s')
  end.

(** [sep.join(l)] *)
Fixpoint join (sep : string) (l : list string) : string :=
  match l with
  | [] => EmptyString
  | [a] => a
  | a :: rest => a +:+ sep +:+ join sep rest
  end.

(** [s.splitlines()]; [cur] is the line being read, reversed. *)
Fixpoint splitlines_from (cur : list ascii) (s : string) : list string :=
  let emit := string_of_list_ascii (rev cur) in
  match s with
  | EmptyString => match cur with [] => [] | _ => [emit] end
  | String c s' =>
      if Ascii.eqb c newline then emit :: splitlines_from [] s'
      else if Ascii.eqb c cr then
        match s' with
        | String c' s'' =>
            if Ascii.eqb c' newline then emit :: splitlines_from [] s''
            else emit :: splitlines_from [] s'
        | EmptyString => [emit]
        end
      else splitlines_from (c :: cur) s'
  end.
Definition splitlines (s : string) : list string := splitlines_from [] s.

(** [s.split(sep)] for a one-character separator *)
Fixpoint split_on_from (sep : ascii) (cur : list ascii) (s : string)
  : list string :=
  match s with
  | EmptyString => [string_of_list_ascii (rev cur)]
  | String c s' =>
      if Ascii.eqb c sep
      then string_of_list_ascii (rev cur) :: split_on_from sep [] s'
      else split_on_from sep (c :: cur) s'
  end.
Definition split_on (sep : ascii) (s : string) : list string :=
  split_on_from sep [] s.

Definition is_whitespace (c : ascii) : bool :=
  let n := N_of_ascii c in
  ((n =? 32) || ((9 <=? n) && (n <=? 13)))%N.

(** [s.split()]: the maximal runs of non-blank characters *)
Fixpoint words_from (cur : list ascii) (s : string) : list string :=
  let flush (rest : list string) :=
    match cur with
    | [] => rest
    | _ => string_of_list_ascii (rev cur) :: rest
    end in
  match s with
  | EmptyString => flush []
  | String c s' =>
      if is_whitespace c then flush (words_from [] s')
      else words_from (c :: cur) s'
  end.
Definition words (s : string) : list string := words_from [] s.

Fixpoint lstrip_chars (p : ascii -> bool) (s : string) : string :=
  match s with
  | EmptyString => EmptyString
  | String c s' => if p c then lstrip_chars p s' else s
  end.
Fixpoint rstrip_chars (p : ascii -> bool) (s : string) : string :=
  match s with
  | EmptyString => EmptyString
  | String c s' =>
      match rstrip_chars p s' with
      | EmptyString => if p c then EmptyString else String c EmptyString
      | t => String c t
      end
  end.
(** [s.strip(chars)] *)
Definition strip (p : ascii -> bool) (s : string) : string :=
  rstrip_chars p (lstrip_chars p s).

(** [s.endswith(c)] for a one-character suffix *)
Fixpoint endswith_char (c : ascii) (s : string) : bool :=
  match s with
  | EmptyString => false
  | String a EmptyString => Ascii.eqb a c
  | String _ s' => endswith_char c s'
  end.
End Str.

(** [str(n)] for an int *)
Definition str_of_int (n : Z) : string := pretty n.
(** [str(o)] for an optional string: [None] prints as its name *)
Definition str_of_optional (o : option string) : string :=
  match o with Some s => s | None => "None" end.

(** ** The outside world: processes, files, temporary files *)

(** A [NamedTemporaryFile]. *)
Record tempfile := {
  tf_name : string;
  tf_content : string;
  tf_closed : bool
}.

Record VRT := { content : string }.

(** [gdalconst.GRA_*] *)
Definition GRA_NearestNeighbour : Z := 0.
Definition GRA_Bilinear : Z := 1.
Definition GRA_Cubic : Z := 2.
Definition GRA_CubicSpline : Z := 3.
Definition GRA_Lanczos : Z := 4.

Definition RESAMPLING_METHODS : gmap Z string :=
  <[GRA_NearestNeighbour := "near"]>
  (<[GRA_Bilinear := "bilinear"]>
  (<[GRA_Cubic := "cubic"]>
  (<[GRA_CubicSpline := "cubicspline"]>
  (<[GRA_Lanczos := "lanczos"]> ∅)))).

(** [RESAMPLING_METHODS.values()] *)
Definition RESAMPLING_METHODS_values : list string :=
  (map_to_list RESAMPLING_METHODS).*2.

(** Truth value of a band's no-data entry, as [any] sees it. *)
Definition py_truthy (v : option py_value) : bool :=
  match v with
  | None => false
  | Some (PyInt n) => negb (n =? 0)
  | Some (PyFloat (S754_zero _)) => false
  | Some (PyFloat _) => true
  | Some (PyOther _) => true
  end.

Definition ENOENT : Z := 2.

Section World.
Context {F : Type} `{Arith F}.

(** The file system and the GDAL installation. *)
Variable W : Type.
(** [Popen(args, stdout=PIPE, stderr=PIPE).communicate()] with the
    return code: (returncode, stdoutdata, stderrdata). *)
Variable Popen_communicate : list string -> W -> (Z * string * string) * W.
(** [Dataset(inputfile)] *)
Variable open_dataset : string -> W -> outcome (Dataset F).
(** [SpatialReference.FromEPSG(code)] *)
Variable FromEPSG : Z -> outcome (SpatialReference F).
(** osr's transformation between two references *)
Variable osr_transform :
  SpatialReference F -> SpatialReference F -> F -> F -> option (F * F * F).
Variable os_rename : string -> string -> W -> outcome unit * W.
Variable os_remove : string -> W -> outcome unit * W.
Variable dirname : string -> string.
(** name of the n-th temporary file, from dir, prefix and suffix *)
Variable temp_name : nat -> option string -> string -> string -> string.
(** ['{!r}'.format(x)] for a float and [str(v)] for a NumPy float *)
Variable float_repr : F -> string.
Variable float_str : spec_float -> string.

(** constants.py is not part of the sources at hand. *)
Variable TILE_SIDE : Z.
Variable EPSG_WEB_MERCATOR : Z.
Variable GDALTRANSLATE : string.
Variable GDALWARP : string.

(** *** Calls that act on the world *)

Definition wio (A : Type) : Type := W -> outcome A * W.

Definition w_ret {A} (a : A) : wio A := fun w => (Ok a, w).
Definition w_bind {A B} (m : wio A) (k : A -> wio B) : wio B :=
  fun w =>
    match m w with
    | (Ok a, w') => k a w'
    | (Raise e, w') => (Raise e, w')
    | (Unfinished, w') => (Unfinished, w')
    end.
Definition w_lift {A} (r : outcome A) : wio A := fun w => (r, w).
Definition w_raise {A} (e : exn) : wio A := fun w => (Raise e, w).

Definition check_output_gdal (popenargs : list string) : wio string :=
  fun w =>
    let '((returncode, stdoutdata, stderrdata), w') :=
      Popen_communicate popenargs w in
    if negb (returncode =? 0) then
      let cmd := popenargs in
      (Raise (CalledGdalError returncode cmd stdoutdata
                (Str.rstrip_newlines stderrdata)), w')
    else (Ok stdoutdata, w').

(** [subprocess.check_output] *)
Definition check_output (popenargs : list string) : wio string :=
  fun w =>
    let '((returncode, stdoutdata, _), w') :=
      Popen_communicate popenargs w in
    if negb (returncode =? 0) then
      (Raise (CalledProcessError returncode popenargs stdoutdata), w')
    else (Ok stdoutdata, w').

Definition Dataset_open (inputfile : string) : wio (Dataset F) :=
  fun w => (open_dataset inputfile w, w).

(** *** extract_color_band *)

Definition stdout_quirk : string :=
  "ERROR 4: `/dev/stdout' not recognised as a supported file format.".

Definition extract_color_band (inputfile : string) (band : Z) : wio VRT :=
  w_bind (Dataset_open inputfile) (fun dataset =>
  if negb ((1 <=? band) && (band <=? RasterCount dataset))
  then w_raise ValueError
  else
    let command :=
      [GDALTRANSLATE; "-q"; "-of"; "VRT"; "-b"; str_of_int band;
       inputfile; "/dev/stdout"] in
    fun w =>
      match check_output_gdal command w with
      | (Ok out, w') => (Ok {| content := out |}, w')
      | (Raise (CalledGdalError returncode cmd output error), w') =>
          if String.eqb error stdout_quirk
          then (Ok {| content := output |}, w')
          else (Raise (CalledGdalError returncode cmd output error), w')
      | (Raise e, w') => (Raise e, w')
      | (Unfinished, w') => (Unfinished, w')
      end).

(** *** warp *)

Definition GetEPSGString (self : SpatialReference F) : option string :=
  if IsLocal self =? 1 then None
  else
    let cstype := if IsGeographic self =? 1 then "GEOGCS" else "PROJCS" in
    Some (str_of_optional (GetAuthorityName self cstype) +:+ ":" +:+
          str_of_optional (GetAuthorityCode self cstype)).

(** The [if resampling is not None] block: the arguments to append. *)
Definition resampling_arguments (resampling : option resampling_arg)
  : outcome (list string) :=
  match resampling with
  | None => Ok []
  | Some (ResamplingEnum code) =>
      match RESAMPLING_METHODS !! code with
      | Some name => Ok ["-r"; name]
      | None => Raise (UnknownResamplingMethodError (ResamplingEnum code))
      end
  | Some (ResamplingName name) =>
      if bool_decide (name ∈ RESAMPLING_METHODS_values)
      then Ok ["-r"; name]
      else Raise (UnknownResamplingMethodError (ResamplingName name))
  end.

(** [str(v)] for a band's no-data entry *)
Definition py_str (v : option py_value) : string :=
  match v with
  | None => "None"
  | Some (PyInt n) => str_of_int n
  | Some (PyFloat x) => float_str x
  | Some (PyOther r) => r
  end.

(** The [# Propagate No Data Value] block: the arguments to append. *)
Definition nodata_arguments (dataset : Dataset F)
  : outcome (list string) :=
  nodata_values ← mapM GetNoDataValue (bands dataset);
  if existsb py_truthy nodata_values then
    let nodata_values := (fun v => Str.lower (py_str v)) <$> nodata_values in
    Ok ["-dstnodata"; Str.join " " nodata_values]
  else Ok [].

(** The command line that [warp] builds for the open [dataset]. *)
Definition warp_command (fuel : nat) (dataset : Dataset F)
    (inputfile : string) (spatial_ref : option (SpatialReference F))
    (cmd : string) (resampling : option resampling_arg)
    (maximum_resolution : option Z) : outcome (list string) :=
  let warp_cmd := [cmd; "-q"; "-of"; "VRT"] in
  spatial_ref ←
    match spatial_ref with
    | None => FromEPSG EPSG_WEB_MERCATOR
    | Some r => Ok r
    end;
  let warp_cmd :=
    warp_cmd ++ ["-t_srs"; str_of_optional (GetEPSGString spatial_ref)] in
  r_args ← resampling_arguments resampling;
  let warp_cmd := warp_cmd ++ r_args in
  let src_spatial_ref := GetSpatialReference dataset in
  let transform :=
    {| src_ref := src_spatial_ref;
       dst_ref := spatial_ref;
       osr_TransformPoint := osr_transform src_spatial_ref spatial_ref |} in
  resolution ← GetNativeResolution TILE_SIDE fuel dataset (Some transform)
                 maximum_resolution;
  extents ← GetTiledExtents TILE_SIDE fuel dataset (Some transform)
              (Some resolution);
  let warp_cmd :=
    warp_cmd ++ ["-te"] ++
    (float_repr <$> [xy_x (lower_left extents); xy_y (lower_left extents);
                     xy_x (upper_right extents); xy_y (upper_right extents)])
  in
  num_tiles ← GetTilesCount spatial_ref extents resolution;
  let warp_cmd :=
    warp_cmd ++ ["-ts"; str_of_int (xy_x num_tiles * TILE_SIDE);
                 str_of_int (xy_y num_tiles * TILE_SIDE)] in
  n_args ← nodata_arguments dataset;
  let warp_cmd := warp_cmd ++ n_args in
  Ok (warp_cmd ++ [inputfile; "/dev/stdout"]).

Definition warp (fuel : nat) (inputfile : string)
    (spatial_ref : option (SpatialReference F)) (cmd : string)
    (resampling : option resampling_arg)
    (maximum_resolution : option Z) : wio VRT :=
  w_bind (Dataset_open inputfile) (fun dataset =>
  w_bind (w_lift (warp_command fuel dataset inputfile spatial_ref cmd
                    resampling maximum_resolution)) (fun warp_cmd =>
  w_bind (check_output_gdal warp_cmd) (fun out =>
  w_ret {| content := out |}))).

(** *** resampling_methods: what the engine advertises *)

Definition strip_chars (c : ascii) : bool :=
  Ascii.eqb c " " || Ascii.eqb c Str.tab || Ascii.eqb c ".".

(** [m.strip(' \\t.').split()[0]] *)
Definition method_name (m : string) : outcome string :=
  match Str.words (Str.strip strip_chars m) with
  | [] => Raise IndexError
  | w :: _ => Ok w
  end.

(** The [for line in output.splitlines()] loop; [result] starts as
    [None] and becomes a list at the header line. *)
Fixpoint scan_help (lines : list string) (result : option (list string))
  : outcome (option (list string)) :=
  match lines with
  | [] => Ok result
  | line :: rest =>
      match result with
      | None =>
          if String.eqb line "Available resampling methods:"
          then scan_help rest (Some [])
          else scan_help rest None
      | Some acc =>
          names ← mapM method_name (Str.split_on "," line);
          let acc := acc ++ names in
          if Str.endswith_char "." line then Ok (Some acc)
          else scan_help rest (Some acc)
      end
  end.

(** [resampling_methods(cmd)], on a cold cache. *)
Definition resampling_methods (cmd : string)
  : wio (option (list string)) :=
  fun w =>
    let '(r, w') := check_output [cmd; "--help"] w in
    let output :=
      match r with
      | Raise (CalledProcessError returncode _ output) =>
          if returncode =? 1 then Ok output else r
      | _ => r
      end in
    (out ← output; scan_help (Str.splitlines out) None, w').

(** *** Temporary files and the pipeline driver *)

Record state := {
  world : W;
  tempfiles : list tempfile
}.

Definition io (A : Type) : Type := state -> outcome A * state.

Definition io_ret {A} (a : A) : io A := fun s => (Ok a, s).
Definition io_bind {A B} (m : io A) (k : A -> io B) : io B :=
  fun s =>
    match m s with
    | (Ok a, s') => k a s'
    | (Raise e, s') => (Raise e, s')
    | (Unfinished, s') => (Unfinished, s')
    end.

(** A call on the world leaves the temporary files alone. *)
Definition in_world {A} (op : wio A) : io A :=
  fun s =>
    let '(r, w) := op (world s) in
    (r, {| world := w; tempfiles := tempfiles s |}).

(** [try: body finally: final].  A body that is still running has not
    reached its [finally]. *)
Definition try_finally {A} (body : io A) (final : io unit) : io A :=
  fun s =>
    match body s with
    | (Unfinished, s') => (Unfinished, s')
    | (r, s') =>
        match final s' with
        | (Ok _, s'') => (r, s'')
        | (Raise e, s'') => (Raise e, s'')
        | (Unfinished, s'') => (Unfinished, s'')
        end
    end.

(** [NamedTemporaryFile(suffix, prefix, dir)] followed by a write of
    [text]: the handle is the position in the store. *)
Definition NamedTemporaryFile (suffix prefix : string)
    (dir : option string) (text : string) : io nat :=
  fun s =>
    let h := length (tempfiles s) in
    (Ok h,
     {| world := world s;
        tempfiles := tempfiles s ++
          [{| tf_name := temp_name h dir prefix suffix;
              tf_content := text;
              tf_closed := false |}] |}).

Definition closed (f : tempfile) : tempfile :=
  {| tf_name := tf_name f; tf_content := tf_content f; tf_closed := true |}.

(** [f.close()] *)
Definition close (h : nat) : io unit :=
  fun s =>
    (Ok tt,
     {| world := world s; tempfiles := alter closed h (tempfiles s) |}).

(** [f.name] *)
Definition name_of (h : nat) (s : state) : string :=
  match tempfiles s !! h with
  | Some f => tf_name f
  | None => EmptyString
  end.

Definition get_tempfile (self : VRT) (suffix prefix : string)
    (dir : option string) : io nat :=
  NamedTemporaryFile suffix prefix dir (content self).

(** The command line that [render] builds. *)
Definition render_command (cmd : string) (working_memory : Z)
    (compress : option string) (inputfile_name tmpfile_name : string)
  : list string :=
  let warp_cmd :=
    [cmd; "-q"; "-of"; "GTiff"; "-multi"; "-overwrite";
     "-co"; "BIGTIFF=IF_NEEDED"; "-wo"; "NUM_THREADS=ALL_CPUS"] in
  let warp_cmd :=
    warp_cmd ++ ["-wm"; str_of_int working_memory;
                 "--config"; "GDAL_CACHEMAX"; str_of_int working_memory] in
  let compress := Str.upper (str_of_optional compress) in
  let warp_cmd :=
    if negb (String.eqb compress EmptyString)
       && negb (String.eqb compress "NONE")
    then
      warp_cmd ++ ["-co"; "COMPRESS=" +:+ compress] ++
      (if String.eqb compress "LZW" || String.eqb compress "DEFLATE"
       then ["-co"; "PREDICTOR=2"] else [])
    else warp_cmd in
  warp_cmd ++ [inputfile_name; tmpfile_name].

Definition render (self : VRT) (outputfile : string) (cmd : string)
    (working_memory : Z) (compress : option string)
    (tempdir : option string) : io unit :=
  io_bind (NamedTemporaryFile ".tif" "gdalrender"
             (Some (dirname outputfile)) EmptyString) (fun tmpfile =>
  fun s0 =>
  let tmpfile_name := name_of tmpfile s0 in
  try_finally
    (io_bind (get_tempfile self ".vrt" "tmp" tempdir) (fun inputfile =>
     try_finally
       (fun s1 =>
        let warp_cmd :=
          render_command cmd working_memory compress
            (name_of inputfile s1) tmpfile_name in
        io_bind (in_world (check_output_gdal warp_cmd)) (fun _ =>
        in_world (os_rename tmpfile_name outputfile)) s1)
       (close inputfile)))
    (fun s =>
       match in_world (os_remove tmpfile_name) s with
       | (Raise (OSError errno), s') =>
           if negb (errno =? ENOENT) then (Raise (OSError errno), s')
           else (Ok tt, s')
       | r => r
       end) s0).

(** A step takes the name of a file and produces a VRT; it acts on the
    world. *)
Definition step : Type := string -> wio VRT.

(** The [for i, f in enumerate(functions)] loop from step [f] on.  The
    list [tmpfiles] is returned on every path, as the [finally] clause
    reads it on every path. *)
Fixpoint pipeline_loop (f : step) (rest : list step) (i : Z)
    (previous : string) (tmpfiles : list nat) (s : state)
  : (list nat * outcome VRT) * state :=
  match in_world (f previous) s with
  | (Ok vrt, s1) =>
      match get_tempfile vrt ".vrt" ("gdal" +:+ str_of_int i) None s1 with
      | (Ok current, s2) =>
          let tmpfiles := tmpfiles ++ [current] in
          let previous := name_of current s2 in
          match rest with
          | [] => ((tmpfiles, Ok vrt), s2)
          | g :: rest' =>
              pipeline_loop g rest' (i + 1) previous tmpfiles s2
          end
      | (Raise e, s2) => ((tmpfiles, Raise e), s2)
      | (Unfinished, s2) => ((tmpfiles, Unfinished), s2)
      end
  | (Raise e, s1) => ((tmpfiles, Raise e), s1)
  | (Unfinished, s1) => ((tmpfiles, Unfinished), s1)
  end.

(** [for f in tmpfiles: f.close()] *)
Fixpoint close_all (tmpfiles : list nat) : io unit :=
  match tmpfiles with
  | [] => io_ret tt
  | f :: rest => io_bind (close f) (fun _ => close_all rest)
  end.

Definition pipeline (inputfile outputfile : string)
    (functions : list step) (working_memory : Z)
    (compress tempdir : option string) : io unit :=
  fun s =>
    match functions with
    | [] => (Raise ValueError, s)
    | f :: rest =>
        let '((tmpfiles, r), s1) := pipeline_loop f rest 0 inputfile [] s in
        let '(r', s2) :=
          match r with
          | Ok vrt =>
              render vrt outputfile GDALWARP working_memory compress
                tempdir s1
          | Raise e => (Raise e, s1)
          | Unfinished => (Unfinished, s1)
          end in
        match r' with
        | Unfinished => (Unfinished, s2)
        | _ =>
            match close_all tmpfiles s2 with
            | (Ok _, s3) => (r', s3)
            | (Raise e, s3) => (Raise e, s3)
            | (Unfinished, s3) => (Unfinished, s3)
            end
        end
    end.

(** *** preprocess *)

Definition preprocess (fuel : nat) (inputfile outputfile : string)
    (band : option Z) (spatial_ref : option (SpatialReference F))
    (resampling : option resampling_arg) (compress : option string)
  : io unit :=
  let functions : list step :=
    match band with
    | Some b => [fun f => extract_color_band f b]
    | None => []
    end ++
    [fun f => warp fuel f spatial_ref GDALWARP resampling None] in
  pipeline inputfile outputfile functions 512 compress None.
End World.
Arguments world {W} _.
Arguments tempfiles {W} _.

(** *** Vocabulary for the temporary files *)



(** ** Vocabulary for the exceptions *)

(** The exceptions of the arithmetic, of osr and of the argument checks
    of the geometry. *)
Definition geometry_exn (e : exn) : bool :=
  match e with
  | ZeroDivisionError | OverflowError | ValueError | RuntimeError => true
  | _ => false
  end.

(** [r] raises nothing but exceptions of the class [P]. *)
Definition raises_only {A} (P : exn -> bool) (r : outcome A) : Prop :=
  forall e, r = Raise e -> P e = true.

(** ** Vocabulary for the floating types *)


(** ** Concrete inputs *)

Module Examples.
Local Open Scope string_scope.

Definition TILE_SIDE : Z := 256.

(** The double nearest to the int [n]. *)
Definition dbl (n : Z) : spec_float := B64.normalize n 0.

(** The value of a call that returns, [d] otherwise. *)
Definition value {A} (d : A) (r : outcome A) : A :=
  match r with Ok a => a | _ => d end.

(** EPSG:3857, Web Mercator: projected, metres, a sphere of radius
    6378137. *)
Definition web_mercator : SpatialReference spec_float := {|
  IsProjected := 1; IsGeographic := 0; IsLocal := 0;
  GetAngularUnits := dbl 1;
  GetLinearUnits := dbl 1;
  GetSemiMajor := dbl 6378137;
  GetSemiMinor := dbl 6378137;
  GetAuthorityName := fun _ => Some "EPSG";
  GetAuthorityCode := fun _ => Some "3857"
|}.

Definition byte_band (nodata : option py_value) : Band :=
  {| DataType := GDT_Byte; PIXELTYPE := None; gdal_NoDataValue := nodata |}.

(** A 4096 x 1024 raster of 1000 m pixels whose upper-left corner is at
    (3070332, 11279758), with the given bands. *)
Definition mercator_raster (bs : list Band) : Dataset spec_float := {|
  RasterXSize := 4096; RasterYSize := 1024;
  GetGeoTransform :=
    (dbl 3070332, dbl 1000, dbl 0, dbl 11279758, dbl 0, dbl (-1000));
  GetSpatialReference := web_mercator;
  bands := bs
|}.

(** A 256 x 256 raster of 1000 m pixels that starts 50000 km east of
    the origin, beyond the eastern edge of the Web Mercator world
    (20037508.34 m). *)
Definition far_east_raster : Dataset spec_float := {|
  RasterXSize := 256; RasterYSize := 256;
  GetGeoTransform :=
    (dbl 50000000, dbl 1000, dbl 0, dbl 0, dbl 0, dbl (-1000));
  GetSpatialReference := web_mercator;
  bands := [byte_band None]
|}.

(** The upper-left quadrant of the Web Mercator world as a 256 x 256
    raster: one tile of resolution 1. *)
Definition quadrant_raster : Dataset spec_float :=
  let world :=
    value (mkExtents (mkXY S754_nan S754_nan) (mkXY S754_nan S754_nan))
      (GetWorldExtents web_mercator) in
  let pixel :=
    value (mkXY S754_nan S754_nan)
      (GetPixelDimensions TILE_SIDE web_mercator 1) in
  {| RasterXSize := 256; RasterYSize := 256;
     GetGeoTransform :=
       (xy_x (lower_left world), xy_x pixel, dbl 0,
        xy_y (upper_right world), dbl 0, fneg (xy_y pixel));
     GetSpatialReference := web_mercator;
     bands := [byte_band None] |}.

(** Modelled from the spec: [Extents.almost_equal] of types.py, which is
    not part of the sources at hand, as agreement of the four
    coordinates within half a unit of the last of [places] decimals. *)
Definition close_to (places : Z) (a b : spec_float) : bool :=
  fleb (f_abs (fsub a b))
       (value S754_nan (fdiv (dbl 1) (dbl (2 * 10 ^ places)))).
Definition almost_equal (a b : Extents spec_float) (places : Z) : bool :=
  close_to places (xy_x (lower_left a)) (xy_x (lower_left b)) &&
  close_to places (xy_y (lower_left a)) (xy_y (lower_left b)) &&
  close_to places (xy_x (upper_right a)) (xy_x (upper_right b)) &&
  close_to places (xy_y (upper_right a)) (xy_y (upper_right b)).

(** An engine that succeeds and prints its own command line, except
    that [--help] prints a help text and exits with 1, as gdalwarp
    does. *)
Definition nl : string := String Str.newline EmptyString.
Definition help_text : string :=
  "Usage: gdalwarp [--help-general] srcfile* dstfile" +:+ nl +:+
  nl +:+
  "Available resampling methods:" +:+ nl +:+
  "    near (default), bilinear, cubic, cubicspline, lanczos, average, mode."
  +:+ nl.
Definition echo_engine (args : list string) (w : unit)
  : (Z * string * string) * unit :=
  match args with
  | [_; "--help"] => ((1, help_text, EmptyString), w)
  | _ => ((0, Str.join " " args, EmptyString), w)
  end.

(** An engine that fails with the given code and streams. *)
Definition failing_engine (code : Z) (out err : string)
    (args : list string) (w : unit) : (Z * string * string) * unit :=
  ((code, out, err), w).

(** A stand-in for the [repr] and the [str] of a float: sign, mantissa
    and binary exponent. *)
Definition float_text (x : spec_float) : string :=
  match x with
  | S754_zero s => if s then "-0.0" else "0.0"
  | S754_infinity s => if s then "-inf" else "inf"
  | S754_nan => "nan"
  | S754_finite s m e =>
      (if s then "-" else "") +:+ pretty (Zpos m) +:+ "p" +:+ pretty e
  end.

(** A world in which every file opens as [dataset], EPSG codes resolve
    to Web Mercator and the transformation between references is the
    identity. *)
Definition open_as (dataset : Dataset spec_float) (inputfile : string)
    (w : unit) : outcome (Dataset spec_float) := Ok dataset.
Definition FromEPSG (code : Z) : outcome (SpatialReference spec_float) :=
  Ok web_mercator.
Definition identity_transform (src dst : SpatialReference spec_float)
    (x y : spec_float) : option (spec_float * spec_float * spec_float) :=
  Some (x, y, dbl 0).

Definition temp_name (n : nat) (dir : option string)
    (prefix suffix : string) : string :=
  str_of_optional dir +:+ "/" +:+ prefix +:+ pretty n +:+ suffix.

(** A step that writes a fixed VRT, and a step that fails. *)
Definition good_step : string -> unit -> outcome VRT * unit :=
  fun previous w => (Ok {| content := "<VRTDataset/>" |}, w).
Definition bad_step : string -> unit -> outcome VRT * unit :=
  fun previous w => (Raise GdalError, w).
End Examples.

(** ** More of the wrappers *)

(** [Band.MinimumValue] and [Band.MaximumValue].  Every type that
    [NumPyDataType] returns is an integer or a floating type: the
    TypeError of the last branch has no type to be raised on. *)
Definition MinimumValue (self : Band) : outcome py_value :=
  datatype ← NumPyDataType self;
  if np_is_integer datatype then Ok (PyInt (iinfo_min datatype))
  else Ok (PyFloat (S754_infinity true)).

Definition MaximumValue (self : Band) : outcome py_value :=
  datatype ← NumPyDataType self;
  if np_is_integer datatype then Ok (PyInt (iinfo_max datatype))
  else Ok (PyFloat (S754_infinity false)).

(** [int(s)] for a string in base 10: an optional sign and decimal
    digits, surrounded by optional whitespace; a ValueError otherwise. *)
Definition digit_of (c : ascii) : option Z :=
  let n := N_of_ascii c in
  if ((48 <=? n) && (n <=? 57))%N then Some (Z.of_N n - 48) else None.

Fixpoint parse_digits (acc : Z) (s : string) : option Z :=
  match s with
  | EmptyString => Some acc
  | String c s' =>
      match digit_of c with
      | Some d => parse_digits (10 * acc + d) s'
      | None => None
      end
  end.

Definition py_int (s : string) : outcome Z :=
  let s := Str.strip Str.is_whitespace s in
  let '(negative, digits) :=
    match s with
    | String "-" t => (true, t)
    | String "+" t => (false, t)
    | _ => (false, s)
    end in
  match digits with
  | EmptyString => Raise ValueError
  | _ =>
      match parse_digits 0 digits with
      | Some n => Ok (if negative : bool then - n else n)
      | None => Raise ValueError
      end
  end.

(** [SpatialReference.GetEPSGCode]; [None] is Python's. *)
Definition GetEPSGCode {F} (self : SpatialReference F) : outcome (option Z) :=
  match GetEPSGString self with
  | None => Ok None
  | Some epsg_string =>
      if String.eqb epsg_string EmptyString then Ok None
      else
        match Str.split_on ":" epsg_string with
        | _ :: code :: _ => n ← py_int code; Ok (Some n)
        | _ => Raise IndexError
        end
  end.

(** ** More vocabulary for the exceptions *)

(** The exceptions of the arithmetic and of osr alone. *)
Definition conversion_exn (e : exn) : bool :=
  match e with
  | OverflowError | RuntimeError => true
  | _ => false
  end.

(** ** Vocabulary for strings *)

(** No character of [s] satisfies [p]. *)
Fixpoint free_of (p : ascii -> bool) (s : string) : bool :=
  match s with
  | EmptyString => true
  | String c s' => negb (p c) && free_of p s'
  end.

Definition is_digit (c : ascii) : bool :=
  match digit_of c with Some _ => true | None => false end.

(** ** More concrete inputs *)

Module Cases.
Local Open Scope string_scope.

(** A world that keeps the log of what has been done to it, latest
    first. *)
Definition log : Type := list string.

(** An engine that fails with the given code, or succeeds with code 0,
    printing nothing but a line on its error stream. *)
Definition engine (code : Z) (args : list string) (w : log)
  : (Z * string * string) * log :=
  ((code, "", "boom" +:+ Examples.nl), "engine" :: w).

Definition rename (src dst : string) (w : log) : outcome unit * log :=
  (Ok tt, "rename" :: w).

(** [os.remove] on a file that is not there, and on one that may not be
    removed. *)
Definition EACCES : Z := 13.
Definition remove_missing (name : string) (w : log) : outcome unit * log :=
  (Raise (OSError ENOENT), "remove" :: w).
Definition remove_denied (name : string) (w : log) : outcome unit * log :=
  (Raise (OSError EACCES), "remove" :: w).

Definition directory (path : string) : string := ".".

(** A raster whose pixels have no extent. *)
Definition flat_raster : Dataset spec_float := {|
  RasterXSize := 256; RasterYSize := 256;
  GetGeoTransform :=
    (Examples.dbl 0, Examples.dbl 0, Examples.dbl 0,
     Examples.dbl 0, Examples.dbl 0, Examples.dbl 0);
  GetSpatialReference := Examples.web_mercator;
  bands := [Examples.byte_band None]
|}.

(** EPSG:4326, WGS 84: geographic, in degrees. *)
Definition wgs84 : SpatialReference spec_float := {|
  IsProjected := 0; IsGeographic := 1; IsLocal := 0;
  GetAngularUnits := B64.normalize 5030569068109113 (-58);
  GetLinearUnits := Examples.dbl 1;
  GetSemiMajor := Examples.dbl 6378137;
  GetSemiMinor := B64.normalize 6825510824613840 (-30);
  GetAuthorityName := fun _ => Some "EPSG";
  GetAuthorityCode := fun _ => Some "4326"
|}.

(** A stand-in for osr's transformation from degrees to Web Mercator
    metres: 111319.49079327357 m to the degree in both directions, which
    is right along the equator. *)
Definition to_mercator : CoordinateTransformation spec_float := {|
  src_ref := wgs84;
  dst_ref := Examples.web_mercator;
  osr_TransformPoint := fun x y =>
    let k := B64.normalize 7649817157831729 (-36) in
    Some (fmul x k, fmul y k, Examples.dbl 0)
|}.

(** A raster in degrees whose pixels are 1/64 of a degree wide and
    1/128 of a degree high. *)
Definition degrees_raster : Dataset spec_float := {|
  RasterXSize := 512; RasterYSize := 256;
  GetGeoTransform :=
    (Examples.dbl 0, B64.normalize 1 (-6), Examples.dbl 0,
     Examples.dbl 0, Examples.dbl 0, B64.normalize (-1) (-7));
  GetSpatialReference := wgs84;
  bands := [Examples.byte_band None]
|}.

(** The tile (0, 0) of resolution 4 of the Web Mercator world as a
    256 x 256 raster: its lower-left corner is the lower-left corner of
    the world. *)
Definition corner_tile : Dataset spec_float :=
  let nan_point := mkXY S754_nan S754_nan in
  let world :=
    Examples.value (mkExtents nan_point nan_point)
      (GetWorldExtents Examples.web_mercator) in
  let tile :=
    Examples.value nan_point (GetTileDimensions Examples.web_mercator 4) in
  let pixel :=
    Examples.value nan_point
      (GetPixelDimensions Examples.TILE_SIDE Examples.web_mercator 4) in
  {| RasterXSize := 256; RasterYSize := 256;
     GetGeoTransform :=
       (xy_x (lower_left world), xy_x pixel, Examples.dbl 0,
        fadd (xy_y (lower_left world)) (xy_y tile), Examples.dbl 0,
        fneg (xy_y pixel));
     GetSpatialReference := Examples.web_mercator;
     bands := [Examples.byte_band None] |}.

(** A raster that lies on the tiled extents of
    [Examples.mercator_raster]: 6912 x 2048 pixels of resolution 8 from
    the upper-left corner of that box, which is what [warp] asks
    gdalwarp for. *)
Definition warped_raster : Dataset spec_float :=
  let nan_point := mkXY S754_nan S754_nan in
  let tiled :=
    Examples.value (mkExtents nan_point nan_point)
      (GetTiledExtents Examples.TILE_SIDE 9 (Examples.mercator_raster [])
         None None) in
  let pixel :=
    Examples.value nan_point
      (GetPixelDimensions Examples.TILE_SIDE Examples.web_mercator 8) in
  {| RasterXSize := 6912; RasterYSize := 2048;
     GetGeoTransform :=
       (xy_x (lower_left tiled), xy_x pixel, Examples.dbl 0,
        xy_y (upper_right tiled), Examples.dbl 0, fneg (xy_y pixel));
     GetSpatialReference := Examples.web_mercator;
     bands := [] |}.


Definition a_vrt : VRT := {| content := "<VRTDataset/>" |}.
Definition fresh : state log := {| world := []; tempfiles := [] |}.
End Cases.

(** * Properties *)

(** ** The outcome monad *)

Lemma bind_Ok {A B} (m : outcome A) (k : A -> outcome B) (b : B) :
  (m ≫= k) = Ok b <-> exists a, m = Ok a /\ k a = Ok b.
Proof.
  destruct m as [a| |]; cbn; split.
  - intros Hk. exists a. split; [reflexivity | assumption].
  - intros (a' & Ha & Hk). congruence.
  - discriminate.
  - intros (a' & Ha & _). discriminate.
  - discriminate.
  - intros (a' & Ha & _). discriminate.
Qed.

Lemma bind_Raise {A B} (m : outcome A) (k : A -> outcome B) (e : exn) :
  (m ≫= k) = Raise e <->
  m = Raise e \/ exists a, m = Ok a /\ k a = Raise e.
Proof.
  destruct m as [a| |]; cbn; split.
  - intros Hk. right. exists a. split; [reflexivity | assumption].
  - intros [Hm | (a' & Ha & Hk)]; congruence.
  - intros [= ->]. left. reflexivity.
  - intros [[= ->] | (a' & Ha & _)]; [reflexivity | discriminate].
  - discriminate.
  - intros [Hm | (a' & Ha & _)]; discriminate.
Qed.

(** ** The native resolution *)

Section NativeResolution.
Context {F : Type} `{Arith F}.
Variable TILE_SIDE : Z.
Variables (dst_ref : SpatialReference F) (dst : F) (maximum : option Z).

Let fine := pixels_fine_enough TILE_SIDE dst_ref dst.

Lemma scan_resolutions_Ok (fuel : nat) :
  forall r z,
    scan_resolutions TILE_SIDE fuel dst_ref dst maximum r = Ok z <->
    r <= z < r + Z.of_nat fuel /\
    (forall k, r <= k < z ->
       maximum_reached maximum k = false /\ fine k = Ok false) /\
    (maximum_reached maximum z = true \/ fine z = Ok true).
Proof.
  induction fuel as [|fuel IH]; intros r z.
  - cbn. split; [discriminate | lia].
  - cbn [scan_resolutions].
    destruct (maximum_reached maximum r) eqn:Hmax.
    + split.
      * intros [= <-]. repeat split; try lia. now left.
      * intros (Hr & Hk & _).
        destruct (Z.eq_dec z r) as [->|Hne]; [reflexivity|].
        destruct (Hk r) as [Hc _]; [lia | congruence].
    + fold fine. destruct (fine r) as [[|]| |] eqn:Hfine; cbn.
      * split.
        -- intros [= <-]. repeat split; try lia. now right.
        -- intros (Hr & Hk & _).
           destruct (Z.eq_dec z r) as [->|Hne]; [reflexivity|].
           destruct (Hk r) as [_ Hc]; [lia | congruence].
      * rewrite IH. split.
        -- intros (Hr & Hk & Hz). repeat split; try lia; try assumption.
           all: destruct (Z.eq_dec k r) as [->|Hne];
             [assumption | apply Hk; lia].
        -- intros (Hr & Hk & Hz).
           assert (z <> r) as Hne.
           { intros ->. destruct Hz; congruence. }
           repeat split; try lia; try assumption.
           all: apply Hk; lia.
      * split; [discriminate|].
        intros (Hr & Hk & Hz).
        destruct (Z.eq_dec z r) as [->|Hne].
        -- destruct Hz; congruence.
        -- destruct (Hk r) as [_ Hc]; [lia | congruence].
      * split; [discriminate|].
        intros (Hr & Hk & Hz).
        destruct (Z.eq_dec z r) as [->|Hne].
        -- destruct Hz; congruence.
        -- destruct (Hk r) as [_ Hc]; [lia | congruence].
Qed.
End NativeResolution.

Lemma pixels_fine_enough_Ok {F : Type} `{Arith F} (TILE_SIDE : Z)
    (dst_ref : SpatialReference F) (dst : F) (z : Z) (b : bool) :
  pixels_fine_enough TILE_SIDE dst_ref dst z = Ok b <->
  exists d, GetPixelDimensions TILE_SIDE dst_ref z = Ok d /\
            b = fleb (fsub (f_max (xy_x d) (xy_y d)) dst) (fmul dst f_1em6).
Proof.
  unfold pixels_fine_enough. rewrite bind_Ok.
  split; intros (d & Hd & Hb); exists d; split; try assumption; congruence.
Qed.

(** C1.  [GetNativeResolution] returns the smallest resolution [z >= 0]
    at which the scan stops: the first one that reaches the maximum, when
    there is one, or at which the larger pixel dimension of the tile grid
    exceeds the destination pixel size by at most that size times 1e-6.
    When a maximum [m >= 0] is given and no smaller resolution passes the
    test, [m] itself is returned.  The tile grid is that of the
    dataset's own reference, or of the destination of the transformation
    when there is one.  The destination pixel size is the smaller of the
    absolute width and the absolute height of a pixel in the geotransform
    or, with a transformation, the absolute first coordinate of what
    that size transforms to; the call raises when the transformation
    fails. *)
Theorem GetNativeResolution_smallest {F : Type} `{Arith F} (TILE_SIDE : Z)
    (self : Dataset F) (transform : option (CoordinateTransformation F))
    (maximum : option Z) :
  let fine dst := pixels_fine_enough TILE_SIDE (target_ref self transform) dst in
  (forall z,
     (exists fuel,
        GetNativeResolution TILE_SIDE fuel self transform maximum = Ok z) <->
     exists dst,
       destination_pixel_size self transform = Ok dst /\
       0 <= z /\
       (forall k, 0 <= k < z ->
          maximum_reached maximum k = false /\ fine dst k = Ok false) /\
       (maximum_reached maximum z = true \/ fine dst z = Ok true)) /\
  (forall m dst,
     maximum = Some m -> 0 <= m ->
     destination_pixel_size self transform = Ok dst ->
     (forall k, 0 <= k < m -> fine dst k = Ok false) ->
     exists fuel,
       GetNativeResolution TILE_SIDE fuel self transform maximum = Ok m) /\
  (forall dst z b,
     fine dst z = Ok b <->
     exists d,
       GetPixelDimensions TILE_SIDE (target_ref self transform) z = Ok d /\
       b = fleb (fsub (f_max (xy_x d) (xy_y d)) dst) (fmul dst f_1em6)) /\
  target_ref self transform
  = match transform with
    | None => GetSpatialReference self
    | Some t => dst_ref t
    end /\
  (forall g0 width g2 g3 g4 height,
     GetGeoTransform self = (g0, width, g2, g3, g4, height) ->
     let src_pixel_size :=
       if fltb (f_abs height) (f_abs width) then f_abs height
       else f_abs width in
     destination_pixel_size self transform
     = match transform with
       | None => Ok src_pixel_size
       | Some t =>
           match a_of_Z 0 with
           | None => Raise OverflowError
           | Some zero =>
               match osr_TransformPoint t src_pixel_size zero with
               | Some (px, _, _) => Ok (f_abs px)
               | None => Raise RuntimeError
               end
           end
       end).
Proof.
  intros fine.
  assert (Hchar : forall z,
     (exists fuel,
        GetNativeResolution TILE_SIDE fuel self transform maximum = Ok z) <->
     exists dst,
       destination_pixel_size self transform = Ok dst /\
       0 <= z /\
       (forall k, 0 <= k < z ->
          maximum_reached maximum k = false /\ fine dst k = Ok false) /\
       (maximum_reached maximum z = true \/ fine dst z = Ok true)).
  { intros z. unfold GetNativeResolution. split.
    - intros (fuel & Hrun). apply bind_Ok in Hrun as (dst & Hdst & Hscan).
      apply scan_resolutions_Ok in Hscan as (Hr & Hk & Hz).
      exists dst. repeat split; try assumption; try lia.
      all: apply Hk; lia.
    - intros (dst & Hdst & Hz0 & Hk & Hz).
      exists (S (Z.to_nat z)). apply bind_Ok. exists dst. split; [assumption|].
      apply scan_resolutions_Ok. repeat split; try lia; try assumption.
      all: apply Hk; lia. }
  split; [exact Hchar|]. split; [|split; [|split]].
  - intros m dst Hmax Hm Hdst Hk. apply Hchar. exists dst.
    repeat split; try assumption.
    + subst maximum. cbn. apply Z.leb_gt. lia.
    + apply Hk. assumption.
    + left. subst maximum. cbn. apply Z.leb_le. lia.
  - intros dst z b. apply pixels_fine_enough_Ok.
  - reflexivity.
  - intros g0 width g2 g3 g4 height Hgeo src_pixel_size.
    unfold destination_pixel_size. rewrite Hgeo.
    destruct transform as [t|]; [|reflexivity].
    unfold f_of_Z, TransformPoint, f_min. fold src_pixel_size.
    destruct (a_of_Z 0) as [zero|]; [|reflexivity]. cbn [or_raise mbind outcome_bind].
    destruct (osr_TransformPoint t src_pixel_size zero) as [[[px py] pz]|];
      reflexivity.
Qed.

Lemma GetNativeResolution_smallest_witness :
  (exists dst,
     destination_pixel_size Cases.degrees_raster (Some Cases.to_mercator)
     = Ok dst /\
     0 <= 8 /\
     (forall k, 0 <= k < 8 ->
        maximum_reached None k = false /\
        pixels_fine_enough Examples.TILE_SIDE
          (target_ref Cases.degrees_raster (Some Cases.to_mercator)) dst k
        = Ok false) /\
     (maximum_reached None 8 = true \/
      pixels_fine_enough Examples.TILE_SIDE
        (target_ref Cases.degrees_raster (Some Cases.to_mercator)) dst 8
      = Ok true)) /\
  target_ref Cases.degrees_raster (Some Cases.to_mercator)
  = Examples.web_mercator /\
  destination_pixel_size Cases.degrees_raster (Some Cases.to_mercator)
  = Ok (S754_finite false 7649817157831729 (-43)).
Proof.
  pose proof (GetNativeResolution_smallest Examples.TILE_SIDE
                Cases.degrees_raster (Some Cases.to_mercator) None)
    as (Hscan & _ & _ & Href & Hsize).
  split; [|split].
  - apply (proj1 (Hscan 8)). exists 9%nat. vm_compute. reflexivity.
  - exact Href.
  - exact (Hsize _ _ _ _ _ _ eq_refl).
Defined.

(** ** The rounding of SpecFloat *)

(** Splits the comparisons of a goal on floats into their cases. *)
Ltac compare_cases :=
  repeat match goal with
    | H : context [Z.compare ?a ?b] |- _ =>
        destruct (Z.compare_spec a b)
    | H : context [Pos.compare_cont Eq ?a ?b] |- _ =>
        change (Pos.compare_cont Eq a b) with (Pos.compare a b) in H;
        destruct (Pos.compare_spec a b)
    | |- context [Z.compare ?a ?b] =>
        destruct (Z.compare_spec a b)
    | |- context [Pos.compare_cont Eq ?a ?b] =>
        change (Pos.compare_cont Eq a b) with (Pos.compare a b);
        destruct (Pos.compare_spec a b)
    end.

Lemma iter_pos_nat {A : Type} (f : A -> A) (n : positive) (x : A) :
  SpecFloat.iter_pos f n x = Nat.iter (Pos.to_nat n) f x.
Proof.
  revert x. induction n as [n IH|n IH|]; intros x; cbn [SpecFloat.iter_pos].
  - rewrite !IH, Pos2Nat.inj_xI, <- Nat.iter_add, <- Nat.iter_succ_r.
    f_equal. lia.
  - rewrite !IH, Pos2Nat.inj_xO, <- Nat.iter_add. f_equal. lia.
  - reflexivity.
Qed.

Lemma digits2_pos_log2 (m : positive) :
  Z.pos (digits2_pos m) = Z.log2 (Z.pos m) + 1.
Proof.
  assert (digits2_pos m = Pos.size m) as ->
    by (induction m as [m IH|m IH|]; cbn; congruence).
  destruct m as [m|m|]; cbn; lia.
Qed.

Lemma digits2_pos_spec (m : positive) (d : Z) :
  Z.pos (digits2_pos m) = d <-> 2 ^ (d - 1) <= Z.pos m < 2 ^ d.
Proof.
  rewrite digits2_pos_log2. split.
  - intros <-. pose proof (Z.log2_spec (Z.pos m) ltac:(lia)) as Hs.
    replace (Z.log2 (Z.pos m) + 1 - 1) with (Z.log2 (Z.pos m)) by lia.
    exact Hs.
  - intros Hd.
    assert (0 <= d - 1) as Hd0.
    { destruct (Z.le_gt_cases 0 (d - 1)) as [|Hneg]; [assumption|].
      exfalso. assert (d <= 0) as Hd1 by lia.
      destruct (Z.eq_dec d 0) as [->|Hne].
      - cbn in Hd. lia.
      - rewrite (Z.pow_neg_r 2 d) in Hd by lia. lia. }
    rewrite (Z.log2_unique (Z.pos m) (d - 1) Hd0); [lia|].
    replace (Z.succ (d - 1)) with d by lia. exact Hd.
Qed.



(** Shifts that drop zeros only are exact. *)
Lemma shr_iter_exact (n : nat) (q : positive) :
  Nat.iter n shr_1
    {| shr_m := Z.pos q * 2 ^ Z.of_nat n; shr_r := false; shr_s := false |}
  = {| shr_m := Z.pos q; shr_r := false; shr_s := false |}.
Proof.
  induction n as [|n IH].
  - cbn. f_equal. lia.
  - rewrite Nat.iter_succ_r.
    assert (0 < Z.pos q * 2 ^ Z.of_nat n) as Hpos by lia.
    destruct (Z.pos q * 2 ^ Z.of_nat n) as [|p|p] eqn:Hp; try lia.
    replace (Z.pos q * 2 ^ Z.of_nat (S n)) with (Z.pos p~0).
    + cbn [shr_1 orb]. exact IH.
    + rewrite Nat2Z.inj_succ, Z.pow_succ_r by lia. lia.
Qed.


Section Formats.
Variables prec emax : Z.
Hypothesis Hprec : 1 < prec.
Hypothesis Hemax : 2 <= emax.

#[local] Abbreviation emin := (SpecFloat.emin prec emax).
#[local] Abbreviation fexp := (SpecFloat.fexp prec emax).


(** A mantissa is canonical at [e] when it has at most [prec] digits,
    and exactly [prec] of them above the smallest exponent. *)
Lemma canonical_mantissa_spec (m : positive) (e : Z) :
  canonical_mantissa prec emax m e = true <->
  Z.pos m < 2 ^ prec /\ emin <= e /\
  (emin < e -> 2 ^ (prec - 1) <= Z.pos m).
Proof.
  unfold canonical_mantissa, SpecFloat.fexp. rewrite Z.eqb_eq.
  pose proof (proj1 (digits2_pos_spec m _) eq_refl) as Hd.
  set (d := Z.pos (digits2_pos m)) in *.
  assert (1 <= d) as Hd1 by (subst d; lia).
  split.
  - intros Hc. split; [|split]; [|lia|].
    + apply Z.lt_le_trans with (2 ^ d); [lia|].
      apply Z.pow_le_mono_r; lia.
    + intros He. assert (d = prec) as <- by lia. lia.
  - intros (Hm & He & Hn).
    assert (d <= prec) as Hdp.
    { destruct (Z.le_gt_cases d prec) as [|Hgt]; [assumption|]. exfalso.
      assert (2 ^ prec <= 2 ^ (d - 1)) by (apply Z.pow_le_mono_r; lia). lia. }
    destruct (Z.eq_dec e emin) as [->|Hne]; [lia|].
    assert (prec <= d) as Hpd.
    { destruct (Z.le_gt_cases prec d) as [|Hgt]; [assumption|]. exfalso.
      assert (2 ^ d <= 2 ^ (prec - 1)) by (apply Z.pow_le_mono_r; lia).
      specialize (Hn ltac:(lia)). lia. }
    lia.
Qed.

Lemma shr_exact (q : positive) (e j : Z) (M : positive) :
  0 <= j -> Z.pos M = Z.pos q * 2 ^ j ->
  shr {| shr_m := Z.pos M; shr_r := false; shr_s := false |} (e - j) j
  = ({| shr_m := Z.pos q; shr_r := false; shr_s := false |}, e).
Proof.
  intros Hj HM. destruct j as [|p|p]; [| |lia].
  - cbn [shr]. f_equal; [|lia]. f_equal. rewrite HM. cbn. lia.
  - cbn [shr]. f_equal; [|lia]. rewrite iter_pos_nat, HM.
    rewrite <- (positive_nat_Z p) at 1. apply shr_iter_exact.
Qed.

Lemma Zdigits2_shift (q M : positive) (j : Z) :
  0 <= j -> Z.pos M = Z.pos q * 2 ^ j ->
  Z.pos (digits2_pos M) = Z.pos (digits2_pos q) + j.
Proof.
  intros Hj HM. rewrite !digits2_pos_log2, HM, Z.log2_mul_pow2 by lia. lia.
Qed.

(** Rounding a canonical mantissa that is followed by [j] zeros. *)
Lemma binary_round_aux_canonical (s : bool) (q M : positive) (e j : Z) :
  0 <= j -> Z.pos M = Z.pos q * 2 ^ j ->
  canonical_mantissa prec emax q e = true ->
  binary_round_aux prec emax s (Z.pos M) (e - j) loc_Exact
  = if e <=? emax - prec then S754_finite s q e else S754_infinity s.
Proof.
  intros Hj HM Hc. unfold binary_round_aux, shr_fexp.
  cbn [Zdigits2 shr_record_of_loc].
  rewrite (Zdigits2_shift q M j Hj HM).
  unfold canonical_mantissa in Hc. apply Z.eqb_eq in Hc.
  replace (Z.pos (digits2_pos q) + j + (e - j))
    with (Z.pos (digits2_pos q) + e) by lia.
  rewrite Hc. replace (e - (e - j)) with j by lia.
  rewrite (shr_exact q e j M Hj HM).
  cbn [shr_m loc_of_shr_record round_nearest_even Zdigits2 shr_record_of_loc].
  rewrite Hc, Z.sub_diag. cbn [shr shr_m]. reflexivity.
Qed.

Lemma binary_round_canonical (s : bool) (q M : positive) (e j : Z) :
  0 <= j -> Z.pos M = Z.pos q * 2 ^ j ->
  canonical_mantissa prec emax q e = true ->
  binary_round prec emax s M (e - j)
  = if e <=? emax - prec then S754_finite s q e else S754_infinity s.
Proof.
  intros Hj HM Hc. unfold binary_round.
  rewrite (Zdigits2_shift q M j Hj HM).
  replace (Z.pos (digits2_pos q) + j + (e - j))
    with (Z.pos (digits2_pos q) + e) by lia.
  pose proof Hc as Hc'. unfold canonical_mantissa in Hc'.
  apply Z.eqb_eq in Hc'. rewrite Hc'. unfold shl_align.
  replace (e - (e - j)) with j by lia.
  destruct j as [|p|p]; [| |lia];
    now apply binary_round_aux_canonical.
Qed.

























End Formats.

(** ** Bands *)







(** [nextafter] on two familiar doubles: one, and the largest one. *)
Example nextafter_one :
  nextafter_inf np_float64 (Examples.dbl 1)
  = S754_finite false 4503599627370497 (-52).
Proof. vm_compute. reflexivity. Qed.

Example nextafter_max :
  nextafter_inf np_float32 (finfo_max np_float32) = S754_infinity false.
Proof. vm_compute. reflexivity. Qed.

(** ** The process wrapper and the band extraction *)

Lemma rstrip_newlines_no_newline (s : string) :
  Str.endswith_char Str.newline (Str.rstrip_newlines s) = false.
Proof.
  induction s as [|c s IH]; [reflexivity|].
  cbn [Str.rstrip_newlines].
  destruct (Str.rstrip_newlines s) as [|c' t] eqn:Hs.
  - destruct (Ascii.eqb c Str.newline) eqn:Hc; [reflexivity|].
    cbn. exact Hc.
  - cbn [Str.endswith_char]. exact IH.
Qed.

Lemma rstrip_newlines_suffix (s : string) :
  exists n : nat,
    s = (Str.rstrip_newlines s +:+
         string_of_list_ascii (repeat Str.newline n))%string.
Proof.
  induction s as [|c s (n & IH)].
  - exists 0%nat. reflexivity.
  - cbn [Str.rstrip_newlines].
    destruct (Str.rstrip_newlines s) as [|c' t] eqn:Hs.
    + destruct (Ascii.eqb_spec c Str.newline) as [->|Hc].
      * exists (S n). cbn in *. now rewrite IH at 1.
      * exists n. cbn in *. now rewrite IH at 1.
    + exists n. cbn in *. now rewrite IH at 1.
Qed.

Section Process.
Context {F : Type} `{Arith F}.
Variable W : Type.
Variable Popen_communicate : list string -> W -> (Z * string * string) * W.
Variable open_dataset : string -> W -> outcome (Dataset F).
Variable GDALTRANSLATE : string.

(** C8.  When the engine exits with a non-zero code,
    [check_output_gdal] raises CalledGdalError with that code, the
    command, the standard output, and the error stream without its
    trailing newlines.  [extract_color_band] turns the failure whose
    error text is the /dev/stdout message into the VRT made of the
    standard output, and raises every other failure as it is. *)
Theorem engine_failure_handling :
  (forall args w returncode out err w',
     Popen_communicate args w = ((returncode, out, err), w') ->
     returncode <> 0 ->
     check_output_gdal W Popen_communicate args w
     = (Raise (CalledGdalError returncode args out
                 (Str.rstrip_newlines err)), w')) /\
  (forall err,
     Str.endswith_char Str.newline (Str.rstrip_newlines err) = false /\
     exists n : nat,
       err = (Str.rstrip_newlines err +:+
              string_of_list_ascii (repeat Str.newline n))%string) /\
  (forall inputfile band dataset w returncode out err w',
     open_dataset inputfile w = Ok dataset ->
     1 <= band <= RasterCount dataset ->
     let command :=
       [GDALTRANSLATE; "-q"; "-of"; "VRT"; "-b"; str_of_int band;
        inputfile; "/dev/stdout"]%string in
     Popen_communicate command w = ((returncode, out, err), w') ->
     returncode <> 0 ->
     (Str.rstrip_newlines err = stdout_quirk ->
      extract_color_band W Popen_communicate open_dataset GDALTRANSLATE
        inputfile band w
      = (Ok {| content := out |}, w')) /\
     (Str.rstrip_newlines err <> stdout_quirk ->
      extract_color_band W Popen_communicate open_dataset GDALTRANSLATE
        inputfile band w
      = (Raise (CalledGdalError returncode command out
                  (Str.rstrip_newlines err)), w'))).
Proof.
  assert (Hfail : forall args w returncode out err w',
     Popen_communicate args w = ((returncode, out, err), w') ->
     returncode <> 0 ->
     check_output_gdal W Popen_communicate args w
     = (Raise (CalledGdalError returncode args out
                 (Str.rstrip_newlines err)), w')).
  { intros args w returncode out err w' Hrun Hcode.
    unfold check_output_gdal. rewrite Hrun.
    destruct (Z.eqb_spec returncode 0) as [->|_]; [congruence|].
    reflexivity. }
  split; [exact Hfail|]. split.
  - intros err. split.
    + apply rstrip_newlines_no_newline.
    + apply rstrip_newlines_suffix.
  - intros inputfile band dataset w returncode out err w' Hopen Hband
      command Hrun Hcode.
    unfold extract_color_band, w_bind, Dataset_open. rewrite Hopen.
    replace ((1 <=? band) && (band <=? RasterCount dataset)) with true
      by (symmetry; apply andb_true_iff; split; apply Z.leb_le; lia).
    cbn [negb]. fold command. rewrite (Hfail _ _ _ _ _ _ Hrun Hcode).
    split; intros Hquirk.
    + rewrite Hquirk. rewrite String.eqb_refl. reflexivity.
    + destruct (String.eqb_spec (Str.rstrip_newlines err) stdout_quirk)
        as [Heq|_]; [contradiction|reflexivity].
Qed.
End Process.

Lemma engine_failure_handling_witness :
  check_output_gdal unit
    (Examples.failing_engine 1 "" ("boom" +:+ Examples.nl))
    ["gdalwarp"%string] tt
  = (Raise (CalledGdalError 1 ["gdalwarp"%string] "" "boom"), tt).
Proof.
  apply (proj1 (engine_failure_handling (F := spec_float) unit
                  (Examples.failing_engine 1 "" ("boom" +:+ Examples.nl))
                  (fun _ _ => Ok Examples.quadrant_raster) "gdal_translate")
           ["gdalwarp"%string] tt 1 ""%string ("boom" +:+ Examples.nl)%string
           tt).
  - reflexivity.
  - lia.
Defined.

(** ** The pipeline driver *)

Section Pipeline.
Variable W : Type.
Variable Popen_communicate : list string -> W -> (Z * string * string) * W.
Variable os_rename : string -> string -> W -> outcome unit * W.
Variable os_remove : string -> W -> outcome unit * W.
Variable dirname : string -> string.
Variable temp_name : nat -> option string -> string -> string -> string.
Variable GDALWARP : string.









End Pipeline.


(** ** Which exceptions the geometry raises *)

Lemma raises_only_Ok {A} (P : exn -> bool) (a : A) : raises_only P (Ok a).
Proof. intros e. discriminate. Qed.

Lemma raises_only_Raise {A} (P : exn -> bool) (e : exn) :
  P e = true -> raises_only P (@Raise A e).
Proof. intros HP e' [= <-]. exact HP. Qed.

Lemma raises_only_bind {A B} (P : exn -> bool) (m : outcome A)
    (k : A -> outcome B) :
  raises_only P m -> (forall a, raises_only P (k a)) ->
  raises_only P (m ≫= k).
Proof.
  intros Hm Hk e He. apply bind_Raise in He as [He | (a & _ & He)].
  - exact (Hm e He).
  - exact (Hk a e He).
Qed.

Lemma raises_only_or_raise {A} (P : exn -> bool) (e : exn) (o : option A) :
  P e = true -> raises_only P (or_raise e o).
Proof.
  intros HP. destruct o; [apply raises_only_Ok | now apply raises_only_Raise].
Qed.

Create HintDb geometry.

(** Splits a goal [raises_only geometry_exn _] along the binds, the
    matches and the tests of the function at hand. *)
Ltac geometry_step :=
  repeat first
    [ solve [auto with geometry]
    | apply raises_only_Ok
    | apply raises_only_Raise; reflexivity
    | apply raises_only_or_raise; reflexivity
    | apply raises_only_bind; [|intros]
    | match goal with
      | |- raises_only _ (if ?c then _ else _) => destruct c
      | |- raises_only _ (match ?x with _ => _ end) => destruct x
      end ].

Section GeometryRaises.
Context {F : Type} `{Arith F}.
Variable TILE_SIDE : Z.

Lemma f_of_Z_raises n : raises_only geometry_exn (f_of_Z n).
Proof. unfold f_of_Z. geometry_step. Qed.

Lemma fdiv_raises x y : raises_only geometry_exn (fdiv x y).
Proof. unfold fdiv. geometry_step. Qed.

Lemma fmod_raises x y : raises_only geometry_exn (fmod x y).
Proof. unfold fmod. geometry_step. Qed.

Lemma f_pow2_raises z : raises_only geometry_exn (f_pow2 z).
Proof. unfold f_pow2. geometry_step. Qed.

Lemma f_int_raises x : raises_only geometry_exn (f_int x).
Proof. unfold f_int. geometry_step. Qed.

Lemma fdiv_Z_raises x n : raises_only geometry_exn (fdiv_Z x n).
Proof.
  unfold fdiv_Z. apply raises_only_bind; [apply f_of_Z_raises|].
  intros. apply fdiv_raises.
Qed.

Lemma fmul_Z_raises x n : raises_only geometry_exn (fmul_Z x n).
Proof.
  unfold fmul_Z. apply raises_only_bind; [apply f_of_Z_raises|].
  intros. apply raises_only_Ok.
Qed.

Lemma TransformPoint_raises (t : CoordinateTransformation F) x y :
  raises_only geometry_exn (TransformPoint t x y).
Proof. unfold TransformPoint. geometry_step. Qed.

#[local] Hint Resolve f_of_Z_raises fdiv_raises fmod_raises f_pow2_raises f_int_raises
  fdiv_Z_raises fmul_Z_raises TransformPoint_raises : geometry.

Lemma GetMajorCircumference_raises sr :
  raises_only geometry_exn (GetMajorCircumference sr).
Proof. unfold GetMajorCircumference. geometry_step. Qed.

Lemma GetMinorCircumference_raises sr :
  raises_only geometry_exn (GetMinorCircumference sr).
Proof. unfold GetMinorCircumference. geometry_step. Qed.

#[local] Hint Resolve GetMajorCircumference_raises GetMinorCircumference_raises
  : geometry.

Lemma GetWorldExtents_raises sr :
  raises_only geometry_exn (GetWorldExtents sr).
Proof. unfold GetWorldExtents. geometry_step. Qed.

Lemma OffsetPoint_raises sr x y reverse :
  raises_only geometry_exn (OffsetPoint sr x y reverse).
Proof. unfold OffsetPoint. geometry_step. Qed.

Lemma GetTileDimensions_raises sr z :
  raises_only geometry_exn (GetTileDimensions sr z).
Proof. unfold GetTileDimensions. geometry_step. Qed.

#[local] Hint Resolve GetWorldExtents_raises OffsetPoint_raises
  GetTileDimensions_raises : geometry.

Lemma GetPixelDimensions_raises sr z :
  raises_only geometry_exn (GetPixelDimensions TILE_SIDE sr z).
Proof. unfold GetPixelDimensions. geometry_step. Qed.

Lemma GetTilesCount_raises sr e z :
  raises_only geometry_exn (GetTilesCount sr e z).
Proof. unfold GetTilesCount. geometry_step. Qed.

#[local] Hint Resolve GetPixelDimensions_raises GetTilesCount_raises : geometry.

Lemma scan_resolutions_raises fuel sr dst maximum :
  forall r,
    raises_only geometry_exn
      (scan_resolutions TILE_SIDE fuel sr dst maximum r).
Proof.
  induction fuel as [|fuel IH]; intros r; cbn [scan_resolutions].
  - intros e. discriminate.
  - destruct (maximum_reached maximum r); [apply raises_only_Ok|].
    apply raises_only_bind.
    + unfold pixels_fine_enough. geometry_step.
    + intros [|]; [apply raises_only_Ok | apply IH].
Qed.

Lemma GetNativeResolution_raises fuel ds transform maximum :
  raises_only geometry_exn
    (GetNativeResolution TILE_SIDE fuel ds transform maximum).
Proof.
  unfold GetNativeResolution. apply raises_only_bind.
  - unfold destination_pixel_size.
    destruct (GetGeoTransform ds) as [[[[[g0 g1] g2] g3] g4] g5].
    destruct transform as [t|]; [|apply raises_only_Ok].
    apply raises_only_bind; [apply f_of_Z_raises|]. intros zero.
    apply raises_only_bind; [apply TransformPoint_raises|].
    intros [[px py] pz]. apply raises_only_Ok.
  - intros dst. apply scan_resolutions_raises.
Qed.

Lemma PixelCoordinates_raises ds x y transform :
  raises_only geometry_exn (PixelCoordinates ds x y transform).
Proof.
  unfold PixelCoordinates.
  destruct (negb _); [apply raises_only_Raise; reflexivity|].
  destruct (negb _); [apply raises_only_Raise; reflexivity|].
  destruct (GetGeoTransform ds) as [[[[[g0 g1] g2] g3] g4] g5].
  do 4 (apply raises_only_bind; [apply fmul_Z_raises|]; intros ?).
  destruct transform as [t|]; [|apply raises_only_Ok].
  apply raises_only_bind; [apply TransformPoint_raises|].
  intros [[px py] pz]. apply raises_only_Ok.
Qed.

#[local] Hint Resolve GetNativeResolution_raises PixelCoordinates_raises : geometry.

Lemma GetExtents_raises ds transform :
  raises_only geometry_exn (GetExtents ds transform).
Proof. unfold GetExtents. geometry_step. Qed.

Lemma snap_to_tiles_raises sr tile e :
  raises_only geometry_exn (snap_to_tiles sr tile e).
Proof. unfold snap_to_tiles. geometry_step. Qed.

#[local] Hint Resolve GetExtents_raises snap_to_tiles_raises : geometry.

Lemma GetTiledExtents_raises fuel ds transform resolution :
  raises_only geometry_exn
    (GetTiledExtents TILE_SIDE fuel ds transform resolution).
Proof. unfold GetTiledExtents. geometry_step. Qed.
End GeometryRaises.

#[export] Hint Resolve f_of_Z_raises fdiv_raises fmod_raises f_pow2_raises
  f_int_raises fdiv_Z_raises fmul_Z_raises TransformPoint_raises
  GetMajorCircumference_raises GetMinorCircumference_raises
  GetWorldExtents_raises OffsetPoint_raises GetTileDimensions_raises
  GetPixelDimensions_raises GetTilesCount_raises GetNativeResolution_raises
  PixelCoordinates_raises GetExtents_raises snap_to_tiles_raises
  GetTiledExtents_raises : geometry.

(** ** GetTmsExtents *)

Lemma GetNativeResolution_nonneg {F : Type} `{Arith F} (TILE_SIDE : Z)
    (fuel : nat) (ds : Dataset F)
    (transform : option (CoordinateTransformation F)) (maximum : option Z)
    (z : Z) :
  GetNativeResolution TILE_SIDE fuel ds transform maximum = Ok z -> 0 <= z.
Proof.
  unfold GetNativeResolution. intros Hrun.
  apply bind_Ok in Hrun as (dst & _ & Hscan).
  apply scan_resolutions_Ok in Hscan. lia.
Qed.

Section TmsExtents.
Context {F : Type} `{Arith F}.
Variable TILE_SIDE : Z.
Variable almost_equal : Extents F -> Extents F -> Z -> bool.
Variables (fuel : nat) (ds : Dataset F) (resolution : option Z).
Variable transform : option (CoordinateTransformation F).

Let sr := target_ref ds transform.
Let resolved : outcome Z :=
  match resolution with
  | None => GetNativeResolution TILE_SIDE fuel ds None None
  | Some r => Ok r
  end.

Lemma GetTmsExtents_Raise_Unaligned :
  GetTmsExtents TILE_SIDE almost_equal fuel ds resolution transform
  = Raise UnalignedInputError <->
  exists r tile tiled raw,
    resolved = Ok r /\
    GetTileDimensions sr r = Ok tile /\
    GetTiledExtents TILE_SIDE fuel ds transform None = Ok tiled /\
    GetExtents ds transform = Ok raw /\
    almost_equal tiled raw 2 = false.
Proof.
  unfold GetTmsExtents. fold sr. fold resolved. split.
  - intros Hrun.
    apply bind_Raise in Hrun as [Hc | (r & Hr & Hrun)].
    { assert (raises_only geometry_exn resolved) as Hg
        by (subst resolved; destruct resolution;
            [apply raises_only_Ok | apply GetNativeResolution_raises]).
      apply Hg in Hc. discriminate. }
    apply bind_Raise in Hrun as [Hc | (tile & Htile & Hrun)].
    { apply GetTileDimensions_raises in Hc. discriminate. }
    apply bind_Raise in Hrun as [Hc | (tiled & Htiled & Hrun)].
    { apply GetTiledExtents_raises in Hc. discriminate. }
    apply bind_Raise in Hrun as [Hc | (raw & Hraw & Hrun)].
    { apply GetExtents_raises in Hc. discriminate. }
    exists r, tile, tiled, raw. repeat split; try assumption.
    destruct (almost_equal tiled raw 2); [|reflexivity]. exfalso.
    cbn [negb] in Hrun. revert Hrun.
    assert (forall {A} (m : outcome A),
              raises_only geometry_exn m -> m <> Raise UnalignedInputError)
      as Hno.
    { intros A m Hm Hc. apply Hm in Hc. discriminate. }
    apply Hno.
    apply raises_only_bind; [apply GetTiledExtents_raises|]. intros snapped.
    apply raises_only_bind; [apply OffsetPoint_raises|]. intros lb.
    apply raises_only_bind; [apply OffsetPoint_raises|]. intros rt.
    do 4 (apply raises_only_bind; [apply fdiv_raises|]; intros ?;
          apply raises_only_bind; [apply f_int_raises|]; intros ?).
    apply raises_only_Ok.
  - intros (r & tile & tiled & raw & Hr & Htile & Htiled & Hraw & Hne).
    rewrite Hr. cbn [mbind outcome_bind]. rewrite Htile.
    cbn [mbind outcome_bind]. rewrite Htiled. cbn [mbind outcome_bind].
    rewrite Hraw. cbn [mbind outcome_bind]. rewrite Hne. reflexivity.
Qed.

Lemma GetTmsExtents_Ok (E : Extents Z) :
  GetTmsExtents TILE_SIDE almost_equal fuel ds resolution transform = Ok E ->
  exists r tile tiled raw snapped lb rt,
    resolved = Ok r /\
    GetTileDimensions sr r = Ok tile /\
    GetTiledExtents TILE_SIDE fuel ds transform None = Ok tiled /\
    GetExtents ds transform = Ok raw /\
    almost_equal tiled raw 2 = true /\
    GetTiledExtents TILE_SIDE fuel ds transform (Some r) = Ok snapped /\
    OffsetPoint sr (xy_x (lower_left snapped)) (xy_y (lower_left snapped))
      false = Ok lb /\
    OffsetPoint sr (xy_x (upper_right snapped)) (xy_y (upper_right snapped))
      false = Ok rt /\
    (fdiv (xy_x lb) (xy_x tile) ≫= f_int) = Ok (xy_x (lower_left E)) /\
    (fdiv (xy_y lb) (xy_y tile) ≫= f_int) = Ok (xy_y (lower_left E)) /\
    (fdiv (xy_x rt) (xy_x tile) ≫= f_int) = Ok (xy_x (upper_right E)) /\
    (fdiv (xy_y rt) (xy_y tile) ≫= f_int) = Ok (xy_y (upper_right E)).
Proof.
  unfold GetTmsExtents. fold sr. fold resolved. intros Hrun.
  apply bind_Ok in Hrun as (r & Hr & Hrun).
  apply bind_Ok in Hrun as (tile & Htile & Hrun).
  apply bind_Ok in Hrun as (tiled & Htiled & Hrun).
  apply bind_Ok in Hrun as (raw & Hraw & Hrun).
  destruct (almost_equal tiled raw 2) eqn:Heq; [|discriminate].
  cbn [negb] in Hrun.
  apply bind_Ok in Hrun as (snapped & Hsnapped & Hrun).
  apply bind_Ok in Hrun as (lb & Hlb & Hrun).
  apply bind_Ok in Hrun as (rt & Hrt & Hrun).
  apply bind_Ok in Hrun as (ql & Hql & Hrun).
  apply bind_Ok in Hrun as (il & Hil & Hrun).
  apply bind_Ok in Hrun as (qb & Hqb & Hrun).
  apply bind_Ok in Hrun as (ib & Hib & Hrun).
  apply bind_Ok in Hrun as (qr & Hqr & Hrun).
  apply bind_Ok in Hrun as (ir & Hir & Hrun).
  apply bind_Ok in Hrun as (qt & Hqt & Hrun).
  apply bind_Ok in Hrun as (it & Hit & Hrun).
  injection Hrun as <-. cbn [lower_left upper_right xy_x xy_y].
  exists r, tile, tiled, raw, snapped, lb, rt.
  repeat split; try assumption.
  all: apply bind_Ok; eexists; split; eassumption.
Qed.
End TmsExtents.

(** C3, at an input on which the code misses it.  The raster is the
    tile (0, 0) of resolution 4 of the Web Mercator world: 256 x 256
    pixels of 9783.93962050256 m from the lower-left corner of the world,
    (-20037508.342789244, -20037508.342789244), to
    (-17532819.79994059, -17532819.79994059).  Its native resolution is
    4 and its tiled extents are its extents, bit for bit, so that every
    [almost_equal] that takes a box for equal to itself lets it pass.
    Shifted by the offset, the upper edges come to
    5378777689100432 * 2^-31 where a tile measures
    5378777689100435 * 2^-31: the quotient is 0.9999999999999994 and
    [int] truncates it to 0.  The range that [GetTmsExtents] returns is
    from (0, 0) to (0, 0): it is empty, and the tile that the raster
    covers is not in it, while [GetTilesCount] counts one tile each
    way. *)
Theorem GetTmsExtents_truncates_an_aligned_edge
    (almost_equal : Extents spec_float -> Extents spec_float -> Z -> bool) :
  let low := S754_finite true 5378777689100435 (-28) in
  let high := S754_finite true 4706430477962881 (-28) in
  let box := mkExtents (mkXY low low) (mkXY high high) in
  let E := mkExtents (mkXY 0 0) (mkXY 0 0) in
  almost_equal box box 2 = true ->
  GetExtents Cases.corner_tile None = Ok box /\
  GetNativeResolution Examples.TILE_SIDE 5 Cases.corner_tile None None
  = Ok 4 /\
  GetTiledExtents Examples.TILE_SIDE 5 Cases.corner_tile None None
  = Ok box /\
  GetTmsExtents Examples.TILE_SIDE almost_equal 5 Cases.corner_tile None
    None = Ok E /\
  Extents_contains E (mkXY 0 0) = false /\
  (forall p, Extents_contains E p = false) /\
  GetTilesCount Examples.web_mercator box 4 = Ok (mkXY 1 1) /\
  exists rt tile q,
    OffsetPoint Examples.web_mercator high high false = Ok rt /\
    GetTileDimensions Examples.web_mercator 4 = Ok tile /\
    xy_x rt = S754_finite false 5378777689100432 (-31) /\
    xy_x tile = S754_finite false 5378777689100435 (-31) /\
    fdiv (xy_x rt) (xy_x tile) = Ok q /\
    q = S754_finite false 9007199254740987 (-53) /\
    f_int q = Ok 0.
Proof.
  intros low high box E Hsame.
  split; [vm_compute; reflexivity|].
  split; [vm_compute; reflexivity|].
  split; [vm_compute; reflexivity|].
  split.
  { unfold GetTmsExtents.
    replace (GetNativeResolution Examples.TILE_SIDE 5 Cases.corner_tile None
               None) with (Ok (A := Z) 4) by (vm_compute; reflexivity).
    cbn [mbind outcome_bind].
    replace (GetTileDimensions (target_ref Cases.corner_tile None) 4)
      with (Ok (mkXY (S754_finite false 5378777689100435 (-31))
                     (S754_finite false 5378777689100435 (-31))))
      by (vm_compute; reflexivity).
    cbn [mbind outcome_bind].
    replace (GetTiledExtents Examples.TILE_SIDE 5 Cases.corner_tile None
               None) with (Ok box) by (vm_compute; reflexivity).
    cbn [mbind outcome_bind].
    replace (GetExtents Cases.corner_tile None) with (Ok box)
      by (vm_compute; reflexivity).
    cbn [mbind outcome_bind]. rewrite Hsame. cbn [negb].
    vm_compute. reflexivity. }
  split; [reflexivity|].
  split.
  { intros [x y]. unfold Extents_contains, E. cbn [lower_left upper_right xy_x xy_y].
    destruct (Z.leb_spec 0 x), (Z.ltb_spec x 0); try reflexivity; lia. }
  split; [vm_compute; reflexivity|].
  do 3 eexists.
  split; [vm_compute; reflexivity|].
  split; [vm_compute; reflexivity|].
  split; [reflexivity|]. split; [reflexivity|].
  split; [vm_compute; reflexivity|].
  split; [reflexivity|]. vm_compute. reflexivity.
Qed.

Lemma GetTmsExtents_truncates_an_aligned_edge_witness :
  GetTmsExtents Examples.TILE_SIDE Examples.almost_equal 5 Cases.corner_tile
    None None
  = Ok (mkExtents (mkXY 0 0) (mkXY 0 0)) /\
  GetTilesCount Examples.web_mercator
    (Examples.value
       (mkExtents (mkXY S754_nan S754_nan) (mkXY S754_nan S754_nan))
       (GetExtents Cases.corner_tile None)) 4
  = Ok (mkXY 1 1).
Proof.
  destruct (GetTmsExtents_truncates_an_aligned_edge Examples.almost_equal
              ltac:(vm_compute; reflexivity))
    as (_ & _ & _ & Htms & _ & _ & Hcount & _).
  split; [exact Htms | exact Hcount].
Defined.

(** ** Idempotence of the tiled extents *)

(** C9, at inputs on which the code misses it.  The raster is 4096 x
    1024 pixels of 1000 m in Web Mercator, with its upper-left corner at
    (3070332, 11279758); its native resolution is 8, where a tile is
    156543.03392804097 m wide.  [GetTiledExtents] returns the box from
    (2974317.644632779, 10175297.205322664) to
    (7200979.560689885, 11427641.476746991).  On that box the same
    snapping moves the right and the upper edge one tile out, to
    (7357522.594617926, 11584184.510675032): shifted by the offset an
    edge is a double just above a multiple of the tile dimension, so
    that [-right % tile_width] adds almost a whole tile.  The same
    happens to the raster of 6912 x 2048 pixels of resolution 8 whose
    extents are that box, and [GetTmsExtents] refuses it as unaligned.
    At resolution 2, where a tile is 10018754.171394622 m wide,
    [GetTiledExtents] returns the box from (0, 10018754.17139462) to
    (10018754.17139462, 20037508.342789244), and on that box the
    snapping returns a lower edge of 0.0. *)
Theorem GetTiledExtents_not_idempotent_on_doubles :
  (exists tile e1 e2,
     GetNativeResolution Examples.TILE_SIDE 9 (Examples.mercator_raster [])
       None None = Ok 8 /\
     GetTileDimensions Examples.web_mercator 8 = Ok tile /\
     GetTiledExtents Examples.TILE_SIDE 9 (Examples.mercator_raster []) None
       None = Ok e1 /\
     snap_to_tiles Examples.web_mercator tile e1 = Ok e2 /\
     xy_x tile = S754_finite false 5378777689100435 (-35) /\
     lower_left e2 = lower_left e1 /\
     upper_right e1
     = mkXY (S754_finite false 7731992928081876 (-30))
            (S754_finite false 6135168301630184 (-29)) /\
     upper_right e2
     = mkXY (S754_finite false 7900079730866264 (-30))
            (S754_finite false 6219211703022378 (-29)) /\
     fsub (xy_x (upper_right e2)) (xy_x (upper_right e1))
     = S754_finite false 5378777689100416 (-35) /\
     e2 <> e1 /\
     GetExtents Cases.warped_raster None = Ok e1 /\
     GetNativeResolution Examples.TILE_SIDE 9 Cases.warped_raster None None
     = Ok 8 /\
     GetTiledExtents Examples.TILE_SIDE 9 Cases.warped_raster None None
     = Ok e2 /\
     GetTmsExtents Examples.TILE_SIDE Examples.almost_equal 9
       Cases.warped_raster None None = Raise UnalignedInputError) /\
  (exists tile e1 e2,
     GetTileDimensions Examples.web_mercator 2 = Ok tile /\
     GetTiledExtents Examples.TILE_SIDE 0 (Examples.mercator_raster []) None
       (Some 2) = Ok e1 /\
     snap_to_tiles Examples.web_mercator tile e1 = Ok e2 /\
     xy_y (lower_left e1) = S754_finite false 5378777689100434 (-29) /\
     xy_y (lower_left e2) = S754_zero false /\
     e2 <> e1).
Proof.
  split.
  - do 3 eexists.
    split; [vm_compute; reflexivity|].
    split; [vm_compute; reflexivity|].
    split; [vm_compute; reflexivity|].
    split; [vm_compute; reflexivity|].
    split; [reflexivity|]. split; [reflexivity|].
    split; [reflexivity|]. split; [reflexivity|].
    split; [vm_compute; reflexivity|].
    split; [discriminate|].
    split; [vm_compute; reflexivity|].
    split; [vm_compute; reflexivity|].
    split; vm_compute; reflexivity.
  - do 3 eexists.
    split; [vm_compute; reflexivity|].
    split; [vm_compute; reflexivity|].
    split; [vm_compute; reflexivity|].
    split; [reflexivity|]. split; [reflexivity|]. discriminate.
Qed.

(** ** The tiled extents and the world *)

(** C2, at an input on which the code misses it.  The raster lies wholly
    east of the Web Mercator world.  [GetTiledExtents] clamps its left
    edge from below and its right edge from above only: the box it
    returns runs from x = 49937227.82304506 to the world's eastern edge
    x = 20037508.342789244, so it starts east of the world and its left
    edge is east of its right edge. *)
Theorem GetTiledExtents_outside_the_world :
  exists e world,
    GetTiledExtents Examples.TILE_SIDE 9 Examples.far_east_raster None None
    = Ok e /\
    GetWorldExtents Examples.web_mercator = Ok world /\
    xy_x (lower_left e) = S754_finite false 6702461261027494 (-27) /\
    xy_x (upper_right e) = S754_finite false 5378777689100435 (-28) /\
    xy_x (upper_right world) = S754_finite false 5378777689100435 (-28) /\
    fltb (xy_x (upper_right world)) (xy_x (lower_left e)) = true /\
    fltb (xy_x (upper_right e)) (xy_x (lower_left e)) = true.
Proof.
  do 2 eexists.
  split; [vm_compute; reflexivity|].
  split; [vm_compute; reflexivity|].
  split; [reflexivity|]. split; [reflexivity|]. split; [reflexivity|].
  split; vm_compute; reflexivity.
Qed.

(** ** The border tiles *)

Lemma gen_collect_filter (data : Extents Z) (cands : list (XY Z)) :
  forall fuel : nat,
    (length cands < fuel)%nat ->
    gen_collect fuel {| candidates := cands; data_extents := data |}
    = (filter (fun p => Extents_contains data p = false) cands,
       {| candidates := []; data_extents := data |}).
Proof.
  induction cands as [|p rest IH]; intros fuel Hfuel;
    destruct fuel as [|fuel]; cbn [length] in Hfuel; try lia.
  - reflexivity.
  - cbn [gen_collect]. unfold gen_next.
    cbn [candidates data_extents next_border].
    destruct (Extents_contains data p) eqn:Hp; cbn [negb].
    + rewrite filter_cons_False by congruence.
      specialize (IH (S fuel) ltac:(lia)).
      cbn [gen_collect] in IH. unfold gen_next in IH.
      cbn [candidates data_extents] in IH. exact IH.
    + rewrite filter_cons_True by assumption.
      rewrite (IH fuel) by lia. reflexivity.
Qed.

Lemma py_list_filter (g : border_generator) :
  py_list g
  = (filter (fun p => Extents_contains (data_extents g) p = false)
       (candidates g),
     {| candidates := []; data_extents := data_extents g |}).
Proof.
  unfold py_list. destruct g as [cands data]. cbn [candidates data_extents].
  apply gen_collect_filter. lia.
Qed.

Lemma elem_of_tile_range (w h : Z) (p : XY Z) :
  p ∈ (x ← xrange 0 w; y ← xrange 0 h; [mkXY x y]) <->
  0 <= xy_x p < w /\ 0 <= xy_y p < h.
Proof.
  rewrite list_elem_of_bind. unfold xrange. split.
  - intros (x & Hp & Hx). apply list_elem_of_bind in Hp as (y & Hp & Hy).
    apply list_elem_of_singleton in Hp as ->. cbn.
    apply elem_of_seqZ in Hx, Hy. lia.
  - intros (Hx & Hy). exists (xy_x p). split.
    + apply list_elem_of_bind. exists (xy_y p). split.
      * destruct p. apply list_elem_of_singleton. reflexivity.
      * apply elem_of_seqZ. lia.
    + apply elem_of_seqZ. lia.
Qed.

Lemma NoDup_tile_range (w h : Z) :
  NoDup (x ← xrange 0 w; y ← xrange 0 h; [mkXY x y]).
Proof.
  unfold xrange. apply NoDup_bind.
  - intros x1 x2 p _ _ Hp1 Hp2.
    apply list_elem_of_bind in Hp1 as (y1 & Hp1 & _).
    apply list_elem_of_bind in Hp2 as (y2 & Hp2 & _).
    apply list_elem_of_singleton in Hp1, Hp2. congruence.
  - intros x _. apply NoDup_bind.
    + intros y1 y2 p _ _ Hp1 Hp2.
      apply list_elem_of_singleton in Hp1, Hp2. congruence.
    + intros y _. apply NoDup_singleton.
    + apply NoDup_seqZ.
  - apply NoDup_seqZ.
Qed.

(** Amended C6.  The generator that [GetWorldTmsBorders] returns yields,
    once each, the tile indices of the world's range, which starts at
    (0, 0), that are not in the range of [GetTmsExtents]; it yields
    finitely many, and it is consumed by the iteration: once it has been
    run to its end it yields nothing more. *)
Theorem GetWorldTmsBorders_yields_the_borders_once (F : Type) (A : Arith F)
    (TILE_SIDE : Z) (almost_equal : Extents F -> Extents F -> Z -> bool)
    (fuel : nat) (ds : Dataset F) (resolution : option Z)
    (transform : option (CoordinateTransformation F))
    (g : border_generator) :
  GetWorldTmsBorders TILE_SIDE almost_equal fuel ds resolution transform
  = Ok g ->
  exists world data,
    GetWorldTmsExtents TILE_SIDE fuel ds resolution transform = Ok world /\
    GetTmsExtents TILE_SIDE almost_equal fuel ds resolution transform
    = Ok data /\
    lower_left world = mkXY 0 0 /\
    (forall p,
       p ∈ fst (py_list g) <->
       0 <= xy_x p < xy_x (upper_right world) /\
       0 <= xy_y p < xy_y (upper_right world) /\
       Extents_contains data p = false) /\
    NoDup (fst (py_list g)) /\
    fst (py_list (snd (py_list g))) = [].
Proof.
  unfold GetWorldTmsBorders. intros Hrun.
  apply bind_Ok in Hrun as (world & Hworld & Hrun).
  apply bind_Ok in Hrun as (data & Hdata & Hrun).
  injection Hrun as <-.
  exists world, data. split; [exact Hworld|]. split; [exact Hdata|].
  assert (lower_left world = mkXY 0 0) as Hll.
  { unfold GetWorldTmsExtents in Hworld.
    apply bind_Ok in Hworld as (r & _ & Hworld).
    apply bind_Ok in Hworld as (we & _ & Hworld).
    apply bind_Ok in Hworld as (tiles & _ & Hworld).
    injection Hworld as <-. reflexivity. }
  split; [exact Hll|].
  rewrite !py_list_filter. cbn [fst snd candidates data_extents].
  rewrite Hll. cbn [xy_x xy_y].
  split; [|split].
  - intros p. rewrite list_elem_of_filter, elem_of_tile_range. tauto.
  - apply NoDup_filter, NoDup_tile_range.
  - reflexivity.
Qed.

Lemma GetWorldTmsBorders_yields_the_borders_once_witness :
  let g :=
    Examples.value {| candidates := []; data_extents :=
                        mkExtents (mkXY 0 0) (mkXY 0 0) |}
      (GetWorldTmsBorders Examples.TILE_SIDE Examples.almost_equal 3
         Examples.quadrant_raster (Some 1) None) in
  exists world data,
    GetWorldTmsExtents Examples.TILE_SIDE 3 Examples.quadrant_raster
      (Some 1) None = Ok world /\
    GetTmsExtents Examples.TILE_SIDE Examples.almost_equal 3
      Examples.quadrant_raster (Some 1) None = Ok data /\
    lower_left world = mkXY 0 0 /\
    (forall p,
       p ∈ fst (py_list g) <->
       0 <= xy_x p < xy_x (upper_right world) /\
       0 <= xy_y p < xy_y (upper_right world) /\
       Extents_contains data p = false) /\
    NoDup (fst (py_list g)) /\
    fst (py_list (snd (py_list g))) = [].
Proof.
  intros g.
  apply (GetWorldTmsBorders_yields_the_borders_once spec_float b64
           Examples.TILE_SIDE Examples.almost_equal 3
           Examples.quadrant_raster (Some 1) None g).
  vm_compute. reflexivity.
Defined.

(** C6 as it is stated fails: the sequence is not restartable.  The
    raster is the upper-left tile of the four tiles of resolution 1; a
    first pass over the generator yields the other three, a second pass
    over the same generator yields nothing. *)
Lemma GetWorldTmsBorders_is_not_restartable :
  exists g,
    GetWorldTmsBorders Examples.TILE_SIDE Examples.almost_equal 3
      Examples.quadrant_raster (Some 1) None = Ok g /\
    fst (py_list g) = [mkXY 0 0; mkXY 1 0; mkXY 1 1] /\
    fst (py_list (snd (py_list g))) = [] /\
    fst (py_list (snd (py_list g))) <> fst (py_list g).
Proof.
  eexists. split; [vm_compute; reflexivity|].
  split; [vm_compute; reflexivity|].
  split; [vm_compute; reflexivity|]. vm_compute. discriminate.
Qed.

(** ** warp: the no-data values *)

(** What the no-data block appends, from the values of the bands. *)
Lemma nodata_arguments_Ok {F : Type} (float_str : spec_float -> string)
    (dataset : Dataset F) (values : list (option py_value)) :
  mapM GetNoDataValue (bands dataset) = Ok values ->
  nodata_arguments float_str dataset
  = Ok (if existsb py_truthy values
        then ["-dstnodata"%string;
              Str.join " " ((fun v => Str.lower (py_str float_str v))
                              <$> values)]
        else []).
Proof.
  intros Hvalues. unfold nodata_arguments. rewrite Hvalues.
  cbn [mbind outcome_bind]. now destruct (existsb py_truthy values).
Qed.

(** C5, at an input on which the code misses it.  The one band of the
    raster declares the no-data value 0.  [any] takes the 0 for false:
    the block appends nothing and the command of [warp] carries no
    [-dstnodata].  With the no-data value 255 it does. *)
Theorem warp_drops_a_zero_nodata_value :
  let world_of bands :=
    warp (F := spec_float) unit Examples.echo_engine
      (Examples.open_as (Examples.mercator_raster bands))
      Examples.FromEPSG Examples.identity_transform Examples.float_text
      Examples.float_text Examples.TILE_SIDE 3857 9 "in.tif" None "gdalwarp"
      None None tt in
  (forall float_str,
     nodata_arguments float_str
       (Examples.mercator_raster [Examples.byte_band (Some (PyInt 0))])
     = Ok []) /\
  fst (world_of [Examples.byte_band (Some (PyInt 0))])
  = Ok {| content :=
            "gdalwarp -q -of VRT -t_srs EPSG:3857 -te 6387298505806768p-31 5462821090492630p-29 7731992928081876p-30 6135168301630184p-29 -ts 6912 2048 in.tif /dev/stdout" |} /\
  fst (world_of [Examples.byte_band (Some (PyInt 255))])
  = Ok {| content :=
            "gdalwarp -q -of VRT -t_srs EPSG:3857 -te 6387298505806768p-31 5462821090492630p-29 7731992928081876p-30 6135168301630184p-29 -ts 6912 2048 -dstnodata 255 in.tif /dev/stdout" |}.
Proof.
  intros world_of. split; [|split].
  - intros float_str. reflexivity.
  - vm_compute. reflexivity.
  - vm_compute. reflexivity.
Qed.

(** ** warp: the resampling method *)

Lemma RESAMPLING_METHODS_lookup (code : Z) :
  RESAMPLING_METHODS !! code
  = if code =? 0 then Some "near"%string
    else if code =? 1 then Some "bilinear"%string
    else if code =? 2 then Some "cubic"%string
    else if code =? 3 then Some "cubicspline"%string
    else if code =? 4 then Some "lanczos"%string
    else None.
Proof.
  unfold RESAMPLING_METHODS, GRA_NearestNeighbour, GRA_Bilinear, GRA_Cubic,
    GRA_CubicSpline, GRA_Lanczos.
  repeat
    (match goal with
     | |- context [?c =? ?k] =>
         destruct (Z.eqb_spec c k) as [->|?];
           [rewrite ?lookup_insert_eq, ?lookup_insert_ne by lia;
            try reflexivity
           |rewrite lookup_insert_ne by congruence]
     end).
  apply lookup_empty.
Qed.

Lemma RESAMPLING_METHODS_names (name : string) :
  name ∈ RESAMPLING_METHODS_values <->
  name ∈ ["near"; "bilinear"; "cubic"; "cubicspline"; "lanczos"]%string.
Proof.
  replace RESAMPLING_METHODS_values
    with ["cubicspline"; "lanczos"; "cubic"; "bilinear"; "near"]%string
    by (vm_compute; reflexivity).
  rewrite !elem_of_cons, !elem_of_nil. tauto.
Qed.

(** The resampling values that [warp] accepts. *)
Lemma resampling_arguments_spec (value : resampling_arg) :
  match value with
  | ResamplingEnum code =>
      (0 <= code <= 4 ->
       exists name, RESAMPLING_METHODS !! code = Some name /\
                    resampling_arguments (Some value) = Ok ["-r"%string; name])
      /\
      (~ 0 <= code <= 4 ->
       resampling_arguments (Some value)
       = Raise (UnknownResamplingMethodError value))
  | ResamplingName name =>
      (name ∈ ["near"; "bilinear"; "cubic"; "cubicspline"; "lanczos"]%string
       -> resampling_arguments (Some value) = Ok ["-r"%string; name]) /\
      (name ∉ ["near"; "bilinear"; "cubic"; "cubicspline"; "lanczos"]%string
       -> resampling_arguments (Some value)
          = Raise (UnknownResamplingMethodError value))
  end.
Proof.
  destruct value as [code|name]; cbn [resampling_arguments].
  - rewrite RESAMPLING_METHODS_lookup. split; intros Hcode.
    + assert (code = 0 \/ code = 1 \/ code = 2 \/ code = 3 \/ code = 4)
        as [->|[->|[->|[->| ->]]]] by lia; eexists; split; reflexivity.
    + repeat
        (match goal with
         | |- context [?c =? ?k] => destruct (Z.eqb_spec c k); [lia|]
         end).
      reflexivity.
  - split; intros Hname.
    + rewrite bool_decide_eq_true_2 by (now apply RESAMPLING_METHODS_names).
      reflexivity.
    + rewrite bool_decide_eq_false_2; [reflexivity|].
      now rewrite RESAMPLING_METHODS_names.
Qed.

Lemma mapM_GetNoDataValue_raises (bs : list Band) :
  raises_only geometry_exn (mapM GetNoDataValue bs).
Proof.
  induction bs as [|b bs IH]; cbn [mapM].
  - apply raises_only_Ok.
  - apply raises_only_bind.
    + unfold GetNoDataValue. destruct (gdal_NoDataValue b).
      * apply raises_only_bind; [|intros; apply raises_only_Ok].
        unfold NumPyDataType.
        repeat (match goal with
                | |- raises_only _ (if ?c then _ else _) => destruct c
                | |- raises_only _ (match ?x with _ => _ end) => destruct x
                end);
          first [apply raises_only_Ok | apply raises_only_Raise; reflexivity].
      * apply raises_only_Ok.
    + intros v. apply raises_only_bind; [exact IH|].
      intros vs. apply raises_only_Ok.
Qed.

Lemma nodata_arguments_raises {F : Type} (float_str : spec_float -> string)
    (dataset : Dataset F) :
  raises_only geometry_exn (nodata_arguments float_str dataset).
Proof.
  unfold nodata_arguments.
  apply raises_only_bind; [apply mapM_GetNoDataValue_raises|].
  intros vs. destruct (existsb py_truthy vs); apply raises_only_Ok.
Qed.

Section WarpResampling.
Context {F : Type} `{Arith F}.
Variable W : Type.
Variable Popen_communicate : list string -> W -> (Z * string * string) * W.
Variable open_dataset : string -> W -> outcome (Dataset F).
Variable FromEPSG : Z -> outcome (SpatialReference F).
Variable osr_transform :
  SpatialReference F -> SpatialReference F -> F -> F -> option (F * F * F).
Variable float_repr : F -> string.
Variable float_str : spec_float -> string.
Variables (TILE_SIDE EPSG_WEB_MERCATOR : Z).
Variables (fuel : nat) (inputfile : string).
Variable spatial_ref : option (SpatialReference F).
Variables (cmd : string) (maximum_resolution : option Z).

Let command (dataset : Dataset F) (resampling : option resampling_arg) :=
  warp_command FromEPSG osr_transform float_repr float_str TILE_SIDE
    EPSG_WEB_MERCATOR fuel dataset inputfile spatial_ref cmd resampling
    maximum_resolution.
Let run (resampling : option resampling_arg) :=
  warp W Popen_communicate open_dataset FromEPSG osr_transform float_repr
    float_str TILE_SIDE EPSG_WEB_MERCATOR fuel inputfile spatial_ref cmd
    resampling maximum_resolution.

(** [warp] builds its command and hands it to the engine. *)
Lemma warp_runs_its_command (dataset : Dataset F)
    (resampling : option resampling_arg) (w : W) :
  open_dataset inputfile w = Ok dataset ->
  run resampling w
  = match command dataset resampling with
    | Ok warp_cmd =>
        match check_output_gdal W Popen_communicate warp_cmd w with
        | (Ok out, w') => (Ok {| content := out |}, w')
        | (Raise e, w') => (Raise e, w')
        | (Unfinished, w') => (Unfinished, w')
        end
    | Raise e => (Raise e, w)
    | Unfinished => (Unfinished, w)
    end.
Proof.
  intros Hopen. unfold run, warp, w_bind, Dataset_open, w_lift, w_ret.
  rewrite Hopen. fold (command dataset resampling).
  destruct (command dataset resampling) as [warp_cmd| |]; reflexivity.
Qed.

Lemma check_output_gdal_raises (args : list string) (w : W) (e : exn) :
  fst (check_output_gdal W Popen_communicate args w) = Raise e ->
  exists returncode output error,
    e = CalledGdalError returncode args output error.
Proof.
  unfold check_output_gdal.
  destruct (Popen_communicate args w) as [[[returncode out] err] w'].
  destruct (negb (returncode =? 0)); cbn [fst]; [|discriminate].
  intros [= <-]. eauto.
Qed.

(** Amended C7.  Once the file is open and the spatial reference is
    there, [warp] with a resampling value raises
    UnknownResamplingMethodError exactly when the value is neither one of
    the enum values 0 to 4 of [RESAMPLING_METHODS] nor one of its five
    names; the error carries the value.  An enum value is replaced by its
    name of [RESAMPLING_METHODS] in the command that goes to the
    engine. *)
Theorem warp_resampling_validation (value : resampling_arg)
    (dataset : Dataset F) (sr : SpatialReference F) (w : W) :
  open_dataset inputfile w = Ok dataset ->
  match spatial_ref with
  | None => FromEPSG EPSG_WEB_MERCATOR
  | Some r => Ok r
  end = Ok sr ->
  let recognized :=
    match value with
    | ResamplingEnum code => 0 <= code <= 4
    | ResamplingName name =>
        name ∈ ["near"; "bilinear"; "cubic"; "cubicspline"; "lanczos"]%string
    end in
  ((exists v, fst (run (Some value) w)
              = Raise (UnknownResamplingMethodError v)) <->
   ~ recognized) /\
  (~ recognized ->
   run (Some value) w = (Raise (UnknownResamplingMethodError value), w)) /\
  (forall code warp_cmd,
     value = ResamplingEnum code ->
     command dataset (Some value) = Ok warp_cmd ->
     exists name pre post,
       RESAMPLING_METHODS !! code = Some name /\
       warp_cmd = pre ++ ["-r"%string; name] ++ post /\
       fst (run (Some value) w)
       = (fun out => {| content := out |})
           <$> fst (check_output_gdal W Popen_communicate warp_cmd w)).
Proof.
  intros Hopen Hsr recognized.
  assert (Hbad : ~ recognized ->
            command dataset (Some value)
            = Raise (UnknownResamplingMethodError value)).
  { intros Hnot. unfold command, warp_command. rewrite Hsr.
    cbn [mbind outcome_bind].
    pose proof (resampling_arguments_spec value) as Hspec.
    destruct value as [code|name]; destruct Hspec as [_ Hraise];
      rewrite (Hraise Hnot); reflexivity. }
  assert (Hgood : recognized ->
            exists name,
              resampling_arguments (Some value) = Ok ["-r"%string; name] /\
              forall code, value = ResamplingEnum code ->
                           RESAMPLING_METHODS !! code = Some name).
  { intros Hrec. pose proof (resampling_arguments_spec value) as Hspec.
    destruct value as [code|name]; destruct Hspec as [Hok _].
    - destruct (Hok Hrec) as (name & Hlook & Hargs).
      exists name. split; [exact Hargs|]. intros code' [= <-]. exact Hlook.
    - exists name. split; [exact (Hok Hrec)|]. intros code' [=]. }
  assert (Hdec : recognized \/ ~ recognized).
  { subst recognized. destruct value as [code|name].
    - lia.
    - destruct (decide (name ∈ ["near"; "bilinear"; "cubic"; "cubicspline";
                                 "lanczos"]%string)); [left|right]; assumption. }
  assert (Hno : recognized ->
            forall v, fst (run (Some value) w)
                      <> Raise (UnknownResamplingMethodError v)).
  { intros Hrec v Hrun. rewrite (warp_runs_its_command _ _ _ Hopen) in Hrun.
    destruct (command dataset (Some value)) as [warp_cmd|e|] eqn:Hcmd.
    - destruct (check_output_gdal W Popen_communicate warp_cmd w)
        as [[out|e|] w'] eqn:Hcall; cbn [fst] in Hrun; try discriminate.
      assert (fst (check_output_gdal W Popen_communicate warp_cmd w)
              = Raise e) as Hfst by (rewrite Hcall; reflexivity).
      apply check_output_gdal_raises in Hfst as (rc & o & err & ->).
      discriminate.
    - cbn [fst] in Hrun. injection Hrun as ->.
      assert (raises_only geometry_exn (command dataset (Some value)))
        as Hgeo.
      { unfold command, warp_command. rewrite Hsr. cbn [mbind outcome_bind].
        destruct (Hgood Hrec) as (name & -> & _). cbn [mbind outcome_bind].
        apply raises_only_bind; [apply GetNativeResolution_raises|].
        intros resolution.
        apply raises_only_bind; [apply GetTiledExtents_raises|].
        intros extents.
        apply raises_only_bind; [apply GetTilesCount_raises|].
        intros num_tiles.
        apply raises_only_bind; [apply nodata_arguments_raises|].
        intros n_args. apply raises_only_Ok. }
      apply Hgeo in Hcmd. discriminate.
    - discriminate. }
  split; [|split].
  - split.
    + intros (v & Hrun) Hrec. exact (Hno Hrec v Hrun).
    + intros Hnot. exists value.
      rewrite (warp_runs_its_command _ _ _ Hopen), (Hbad Hnot). reflexivity.
  - intros Hnot.
    rewrite (warp_runs_its_command _ _ _ Hopen), (Hbad Hnot). reflexivity.
  - intros code warp_cmd Hvalue Hcmd.
    destruct Hdec as [Hrec|Hnot]; [|rewrite (Hbad Hnot) in Hcmd; discriminate].
    destruct (Hgood Hrec) as (name & Hargs & Hlook).
    pose proof Hcmd as Hbuilt. unfold command, warp_command in Hbuilt.
    rewrite Hsr in Hbuilt. cbn [mbind outcome_bind] in Hbuilt.
    rewrite Hargs in Hbuilt. cbn [mbind outcome_bind] in Hbuilt.
    apply bind_Ok in Hbuilt as (resolution & _ & Hbuilt).
    apply bind_Ok in Hbuilt as (extents & _ & Hbuilt).
    apply bind_Ok in Hbuilt as (num_tiles & _ & Hbuilt).
    apply bind_Ok in Hbuilt as (n_args & _ & Hbuilt).
    injection Hbuilt as <-.
    exists name,
      [cmd; "-q"; "-of"; "VRT"; "-t_srs";
       str_of_optional (GetEPSGString sr)]%string.
    eexists. split; [exact (Hlook code Hvalue)|]. split.
    + cbn [app fmap list_fmap]. reflexivity.
    + rewrite (warp_runs_its_command _ _ _ Hopen), Hcmd.
      destruct (check_output_gdal W Popen_communicate _ w)
        as [[out|e|] w']; reflexivity.
Qed.
End WarpResampling.

Lemma warp_resampling_validation_witness :
  warp (F := spec_float) unit Examples.echo_engine
    (Examples.open_as (Examples.mercator_raster []))
    Examples.FromEPSG Examples.identity_transform Examples.float_text
    Examples.float_text Examples.TILE_SIDE 3857 9 "in.tif" None "gdalwarp"
    (Some (ResamplingEnum 7)) None tt
  = (Raise (UnknownResamplingMethodError (ResamplingEnum 7)), tt).
Proof.
  apply (proj1 (proj2 (warp_resampling_validation unit Examples.echo_engine
                         (Examples.open_as (Examples.mercator_raster []))
                         Examples.FromEPSG Examples.identity_transform
                         Examples.float_text Examples.float_text
                         Examples.TILE_SIDE 3857 9 "in.tif" None "gdalwarp"
                         None (ResamplingEnum 7)
                         (Examples.mercator_raster [])
                         Examples.web_mercator tt eq_refl eq_refl))).
  cbn. lia.
Defined.

(** C7 as it is stated fails: the names that the engine advertises play
    no part.  The help text of the engine lists [average] among its
    resampling methods, [resampling_methods] reads it there, and [warp]
    raises UnknownResamplingMethodError on it. *)
Lemma warp_rejects_an_advertised_method :
  fst (resampling_methods unit Examples.echo_engine "gdalwarp" tt)
  = Ok (Some ["near"; "bilinear"; "cubic"; "cubicspline"; "lanczos";
              "average"; "mode"]%string) /\
  fst (warp (F := spec_float) unit Examples.echo_engine
         (Examples.open_as (Examples.mercator_raster []))
         Examples.FromEPSG Examples.identity_transform Examples.float_text
         Examples.float_text Examples.TILE_SIDE 3857 9 "in.tif" None
         "gdalwarp" (Some (ResamplingName "average")) None tt)
  = Raise (UnknownResamplingMethodError (ResamplingName "average")).
Proof. split; vm_compute; reflexivity. Qed.

(** * Further properties *)

(** ** Pixel coordinates and extents *)

(** X1.  [PixelCoordinates] raises ValueError exactly when the pixel
    lies outside the raster, whose far edges [RasterXSize] and
    [RasterYSize] are themselves accepted; no other step of it raises a
    ValueError. *)
Theorem PixelCoordinates_ValueError {F : Type} `{Arith F} (self : Dataset F)
    (x y : Z) (transform : option (CoordinateTransformation F)) :
  PixelCoordinates self x y transform = Raise ValueError <->
  ~ (0 <= x <= RasterXSize self /\ 0 <= y <= RasterYSize self).
Proof.
  unfold PixelCoordinates.
  destruct (Z.leb_spec 0 x), (Z.leb_spec x (RasterXSize self));
    cbn [andb negb]; try (split; [lia | reflexivity]).
  destruct (Z.leb_spec 0 y), (Z.leb_spec y (RasterYSize self));
    cbn [andb negb]; try (split; [lia | reflexivity]).
  split; [|lia]. intros Hrun. exfalso. revert Hrun.
  assert (forall {A} (m : outcome A),
            raises_only conversion_exn m -> m <> Raise ValueError) as Hno.
  { intros A m Hm Hc. apply Hm in Hc. discriminate. }
  apply Hno.
  destruct (GetGeoTransform self) as [[[[[g0 g1] g2] g3] g4] g5].
  assert (forall (g : F) (n : Z), raises_only conversion_exn (fmul_Z g n))
    as Hmul.
  { intros g n. unfold fmul_Z, f_of_Z.
    apply raises_only_bind; [now apply raises_only_or_raise|].
    intros. apply raises_only_Ok. }
  do 4 (apply raises_only_bind; [apply Hmul|]; intros ?).
  destruct transform as [t|]; [|apply raises_only_Ok].
  apply raises_only_bind.
  - unfold TransformPoint. now apply raises_only_or_raise.
  - intros [[px py] pz]. apply raises_only_Ok.
Qed.

(** [min] and [max] return one of their arguments, in any arithmetic. *)
Lemma min4_among {F : Type} `{Arith F} (a b c d : F) :
  min4 a b c d = a \/ min4 a b c d = b \/
  min4 a b c d = c \/ min4 a b c d = d.
Proof.
  unfold min4, f_min.
  destruct (fltb b a), (fltb c _), (fltb d _); tauto.
Qed.

Lemma max4_among {F : Type} `{Arith F} (a b c d : F) :
  max4 a b c d = a \/ max4 a b c d = b \/
  max4 a b c d = c \/ max4 a b c d = d.
Proof.
  unfold max4, f_max.
  destruct (fltb a b), (fltb _ c), (fltb _ d); tauto.
Qed.

(** ** The order of the doubles *)

Lemma SFltb_SFleb (a b : spec_float) : SFltb a b = true -> SFleb a b = true.
Proof. unfold SFltb, SFleb. destruct (SFcompare a b) as [[| |]|]; congruence. Qed.

Lemma SFleb_refl (a : spec_float) : a <> S754_nan -> SFleb a a = true.
Proof.
  intros Ha. unfold SFleb. destruct a as [s|[|]| |[|] m e]; try reflexivity;
    try congruence; cbn [SFcompare];
    rewrite Z.compare_refl, Pos.compare_cont_refl; reflexivity.
Qed.

Lemma SFleb_total (a b : spec_float) :
  a <> S754_nan -> b <> S754_nan -> SFltb b a = false -> SFleb a b = true.
Proof.
  intros Ha Hb. unfold SFltb, SFleb.
  destruct a as [sa|[|]| |[|] ma ea]; try congruence;
    destruct b as [sb|[|]| |[|] mb eb]; try congruence;
    cbn [SFcompare]; try reflexivity; try discriminate;
    intros Hlt; compare_cases; cbn in *;
    try reflexivity; try discriminate; try lia.
Qed.

Lemma SFleb_trans (a b c : spec_float) :
  SFleb a b = true -> SFleb b c = true -> SFleb a c = true.
Proof.
  unfold SFleb.
  destruct a as [sa|[|]| |[|] ma ea];
    destruct b as [sb|[|]| |[|] mb eb]; cbn [SFcompare];
    try discriminate;
    destruct c as [sc|[|]| |[|] mc ec]; cbn [SFcompare];
    try discriminate; try reflexivity;
    intros Hab Hbc; compare_cases; cbn in *;
    try reflexivity; try discriminate; try lia.
Qed.

Lemma b64_min_le (a b : spec_float) :
  a <> S754_nan -> b <> S754_nan ->
  f_min a b <> S754_nan /\ fleb (f_min a b) a = true /\ fleb (f_min a b) b = true.
Proof.
  intros Ha Hb. unfold f_min. cbn [fltb fleb b64].
  destruct (SFltb b a) eqn:Hlt.
  - split; [assumption|]. split; [now apply SFltb_SFleb | now apply SFleb_refl].
  - split; [assumption|]. split; [now apply SFleb_refl | now apply SFleb_total].
Qed.

Lemma b64_max_ge (a b : spec_float) :
  a <> S754_nan -> b <> S754_nan ->
  f_max a b <> S754_nan /\ fleb a (f_max a b) = true /\ fleb b (f_max a b) = true.
Proof.
  intros Ha Hb. unfold f_max. cbn [fltb fleb b64].
  destruct (SFltb a b) eqn:Hlt.
  - split; [assumption|]. split; [now apply SFltb_SFleb | now apply SFleb_refl].
  - split; [assumption|]. split; [now apply SFleb_refl | now apply SFleb_total].
Qed.

Lemma b64_min4_le (a b c d : spec_float) :
  a <> S754_nan -> b <> S754_nan -> c <> S754_nan -> d <> S754_nan ->
  fleb (min4 a b c d) a = true /\ fleb (min4 a b c d) b = true /\
  fleb (min4 a b c d) c = true /\ fleb (min4 a b c d) d = true.
Proof.
  intros Ha Hb Hc Hd. unfold min4.
  destruct (b64_min_le a b Ha Hb) as (Hab & H1 & H2).
  destruct (b64_min_le (f_min a b) c Hab Hc) as (Habc & H3 & H4).
  destruct (b64_min_le (f_min (f_min a b) c) d Habc Hd) as (_ & H5 & H6).
  cbn [fleb b64] in *.
  repeat split; eauto using SFleb_trans.
Qed.

Lemma b64_max4_ge (a b c d : spec_float) :
  a <> S754_nan -> b <> S754_nan -> c <> S754_nan -> d <> S754_nan ->
  fleb a (max4 a b c d) = true /\ fleb b (max4 a b c d) = true /\
  fleb c (max4 a b c d) = true /\ fleb d (max4 a b c d) = true.
Proof.
  intros Ha Hb Hc Hd. unfold max4.
  destruct (b64_max_ge a b Ha Hb) as (Hab & H1 & H2).
  destruct (b64_max_ge (f_max a b) c Hab Hc) as (Habc & H3 & H4).
  destruct (b64_max_ge (f_max (f_max a b) c) d Habc Hd) as (_ & H5 & H6).
  cbn [fleb b64] in *.
  repeat split; eauto using SFleb_trans.
Qed.
(** X2.  On doubles, when no coordinate of the four corners of the
    raster is a NaN, the box of [GetExtents] encloses the four corners,
    with or without a transformation, and it is the smallest such box:
    each of its four edges passes through a corner. *)
Theorem GetExtents_encloses_corners (self : Dataset spec_float)
    (transform : option (CoordinateTransformation spec_float))
    (e : Extents spec_float) :
  GetExtents self transform = Ok e ->
  (forall x y p,
     x = 0 \/ x = RasterXSize self -> y = 0 \/ y = RasterYSize self ->
     PixelCoordinates self x y transform = Ok p ->
     xy_x p <> S754_nan /\ xy_y p <> S754_nan) ->
  let corner (p : XY spec_float) :=
    exists x y,
      (x = 0 \/ x = RasterXSize self) /\ (y = 0 \/ y = RasterYSize self) /\
      PixelCoordinates self x y transform = Ok p in
  (forall x y,
     x = 0 \/ x = RasterXSize self -> y = 0 \/ y = RasterYSize self ->
     exists p,
       PixelCoordinates self x y transform = Ok p /\
       fleb (xy_x (lower_left e)) (xy_x p) = true /\
       fleb (xy_x p) (xy_x (upper_right e)) = true /\
       fleb (xy_y (lower_left e)) (xy_y p) = true /\
       fleb (xy_y p) (xy_y (upper_right e)) = true) /\
  (exists p, corner p /\ xy_x p = xy_x (lower_left e)) /\
  (exists p, corner p /\ xy_y p = xy_y (lower_left e)) /\
  (exists p, corner p /\ xy_x p = xy_x (upper_right e)) /\
  (exists p, corner p /\ xy_y p = xy_y (upper_right e)).
Proof.
  intros Hrun Hnan corner. unfold GetExtents in Hrun.
  apply bind_Ok in Hrun as (ul & Hul & Hrun).
  apply bind_Ok in Hrun as (ur & Hur & Hrun).
  apply bind_Ok in Hrun as (ll & Hll & Hrun).
  apply bind_Ok in Hrun as (lr & Hlr & Hrun).
  injection Hrun as <-. cbn [lower_left upper_right xy_x xy_y].
  destruct (Hnan _ _ _ (or_introl eq_refl) (or_introl eq_refl) Hul)
    as [Nulx Nuly].
  destruct (Hnan _ _ _ (or_intror eq_refl) (or_introl eq_refl) Hur)
    as [Nurx Nury].
  destruct (Hnan _ _ _ (or_introl eq_refl) (or_intror eq_refl) Hll)
    as [Nllx Nlly].
  destruct (Hnan _ _ _ (or_intror eq_refl) (or_intror eq_refl) Hlr)
    as [Nlrx Nlry].
  pose proof (b64_min4_le _ _ _ _ Nulx Nurx Nllx Nlrx) as (? & ? & ? & ?).
  pose proof (b64_min4_le _ _ _ _ Nuly Nury Nlly Nlry) as (? & ? & ? & ?).
  pose proof (b64_max4_ge _ _ _ _ Nulx Nurx Nllx Nlrx) as (? & ? & ? & ?).
  pose proof (b64_max4_ge _ _ _ _ Nuly Nury Nlly Nlry) as (? & ? & ? & ?).
  assert (corner ul) as Cul by (exists 0, 0; auto).
  assert (corner ur) as Cur by (exists (RasterXSize self), 0; auto).
  assert (corner ll) as Cll by (exists 0, (RasterYSize self); auto).
  assert (corner lr) as Clr
    by (exists (RasterXSize self), (RasterYSize self); auto).
  split; [|split; [|split; [|split]]].
  - intros x y [-> | ->] [-> | ->];
      [exists ul | exists ll | exists ur | exists lr];
      (split; [assumption|]); auto.
  - destruct (min4_among (xy_x ul) (xy_x ur) (xy_x ll) (xy_x lr))
      as [E|[E|[E|E]]]; rewrite E; eauto.
  - destruct (min4_among (xy_y ul) (xy_y ur) (xy_y ll) (xy_y lr))
      as [E|[E|[E|E]]]; rewrite E; eauto.
  - destruct (max4_among (xy_x ul) (xy_x ur) (xy_x ll) (xy_x lr))
      as [E|[E|[E|E]]]; rewrite E; eauto.
  - destruct (max4_among (xy_y ul) (xy_y ur) (xy_y ll) (xy_y lr))
      as [E|[E|[E|E]]]; rewrite E; eauto.
Qed.

Lemma GetExtents_encloses_corners_witness :
  let e :=
    Examples.value
      (mkExtents (mkXY S754_nan S754_nan) (mkXY S754_nan S754_nan))
      (GetExtents (Examples.mercator_raster []) None) in
  exists p,
    PixelCoordinates (Examples.mercator_raster []) 4096 0 None = Ok p /\
    fleb (xy_x (lower_left e)) (xy_x p) = true /\
    fleb (xy_x p) (xy_x (upper_right e)) = true /\
    fleb (xy_y (lower_left e)) (xy_y p) = true /\
    fleb (xy_y p) (xy_y (upper_right e)) = true.
Proof.
  intros e.
  apply (proj1 (GetExtents_encloses_corners (Examples.mercator_raster [])
                  None e ltac:(vm_compute; reflexivity)
                  ltac:(intros x y p [-> | ->] [-> | ->]; vm_compute;
                        intros [= <-]; split; discriminate)) 4096 0).
  - right. reflexivity.
  - left. reflexivity.
Defined.

(** ** The clamp of the tiled extents *)

Lemma b64_fltb_irrefl (x : spec_float) : fltb x x = false.
Proof.
  cbn. unfold SFltb.
  destruct x as [s|s| |s m e]; cbn; try reflexivity.
  - now destruct s.
  - destruct s; rewrite Z.compare_refl, Pos.compare_cont_refl; reflexivity.
Qed.

Lemma f_max_not_below {F : Type} `{Arith F} (a b : F) :
  (forall x : F, fltb x x = false) -> fltb (f_max a b) b = false.
Proof.
  intros Hirr. unfold f_max. destruct (fltb a b) eqn:Hab; [apply Hirr|exact Hab].
Qed.

Lemma f_min_not_above {F : Type} `{Arith F} (a b : F) :
  (forall x : F, fltb x x = false) -> fltb b (f_min a b) = false.
Proof.
  intros Hirr. unfold f_min. destruct (fltb b a) eqn:Hba; [apply Hirr|exact Hba].
Qed.

(** X3.  In an arithmetic whose [<] is irreflexive, as on doubles and on
    rationals, [GetTiledExtents] never returns a left or bottom edge
    below the lower-left corner of the world, nor a right or top edge
    above its upper-right corner. *)
Theorem GetTiledExtents_clamped {F : Type} `{Arith F} (TILE_SIDE : Z)
    (fuel : nat) (self : Dataset F)
    (transform : option (CoordinateTransformation F))
    (resolution : option Z) (e world : Extents F) :
  (forall x : F, fltb x x = false) ->
  GetTiledExtents TILE_SIDE fuel self transform resolution = Ok e ->
  GetWorldExtents (target_ref self transform) = Ok world ->
  fltb (xy_x (lower_left e)) (xy_x (lower_left world)) = false /\
  fltb (xy_y (lower_left e)) (xy_y (lower_left world)) = false /\
  fltb (xy_x (upper_right world)) (xy_x (upper_right e)) = false /\
  fltb (xy_y (upper_right world)) (xy_y (upper_right e)) = false.
Proof.
  intros Hirr Hrun Hworld. unfold GetTiledExtents in Hrun.
  apply bind_Ok in Hrun as (r & _ & Hrun).
  apply bind_Ok in Hrun as (tile & _ & Hrun).
  apply bind_Ok in Hrun as (extents & _ & Hrun).
  unfold snap_to_tiles in Hrun.
  do 8 (apply bind_Ok in Hrun as (? & _ & Hrun)).
  rewrite Hworld in Hrun. cbn [mbind outcome_bind] in Hrun.
  injection Hrun as <-. cbn [lower_left upper_right xy_x xy_y].
  split; [|split; [|split]];
    first [now apply f_max_not_below | now apply f_min_not_above].
Qed.

Lemma GetTiledExtents_clamped_witness :
  let e :=
    Examples.value (mkExtents (mkXY S754_nan S754_nan) (mkXY S754_nan S754_nan))
      (GetTiledExtents Examples.TILE_SIDE 9 Examples.far_east_raster None
         None) in
  let world :=
    Examples.value (mkExtents (mkXY S754_nan S754_nan) (mkXY S754_nan S754_nan))
      (GetWorldExtents Examples.web_mercator) in
  fltb (xy_x (lower_left e)) (xy_x (lower_left world)) = false /\
  fltb (xy_y (lower_left e)) (xy_y (lower_left world)) = false /\
  fltb (xy_x (upper_right world)) (xy_x (upper_right e)) = false /\
  fltb (xy_y (upper_right world)) (xy_y (upper_right e)) = false.
Proof.
  intros e world.
  apply (GetTiledExtents_clamped Examples.TILE_SIDE 9
           Examples.far_east_raster None None e world b64_fltb_irrefl).
  - vm_compute. reflexivity.
  - vm_compute. reflexivity.
Defined.
(** ** The pyramid of a Web Mercator world, on doubles *)

(** A call on a projected reference depends on the two circumferences
    only. *)
Lemma same_circumferences (sr sr' : SpatialReference spec_float)
    (C Cm : spec_float) :
  IsProjected sr <> 0 -> IsProjected sr' <> 0 ->
  GetMajorCircumference sr = Ok C -> GetMajorCircumference sr' = Ok C ->
  GetMinorCircumference sr = Ok Cm -> GetMinorCircumference sr' = Ok Cm ->
  GetWorldExtents sr = GetWorldExtents sr' /\
  (forall r, GetTileDimensions sr r = GetTileDimensions sr' r) /\
  (forall e r, GetTilesCount sr e r = GetTilesCount sr' e r) /\
  (forall side r, GetPixelDimensions side sr r = GetPixelDimensions side sr' r).
Proof.
  intros Hp Hp' HC HC' HCm HCm'.
  apply Z.eqb_neq in Hp, Hp'.
  assert (forall r, GetTileDimensions sr r = GetTileDimensions sr' r) as Htile.
  { intros r. unfold GetTileDimensions.
    rewrite HC, HC', HCm, HCm', Hp, Hp'. reflexivity. }
  split; [|split; [|split]].
  - unfold GetWorldExtents. rewrite HC, HC', HCm, HCm', Hp, Hp'. reflexivity.
  - exact Htile.
  - intros e r. unfold GetTilesCount. rewrite Htile. reflexivity.
  - intros side r. unfold GetPixelDimensions. rewrite Htile. reflexivity.
Qed.

Lemma forallb_seqZ (f : Z -> bool) (n : Z) :
  forallb f (seqZ 0 n) = true -> forall r, 0 <= r < n -> f r = true.
Proof.
  intros Hall r Hr. rewrite forallb_forall in Hall. apply Hall.
  apply list_elem_of_In, elem_of_seqZ. lia.
Qed.

(** No power of two from [2 ** 1024] on is a double. *)
Lemma b64_pow2_overflow (r : Z) :
  1024 <= r -> f_pow2 (F := spec_float) r = Raise OverflowError.
Proof.
  intros Hr. unfold f_pow2. cbn [a_pow2 b64]. unfold B64.pow2.
  replace (0 <=? r) with true by (symmetry; apply Z.leb_le; lia).
  unfold B64.of_Z, B64.normalize.
  assert (0 < 2 ^ r) as Hpos by (apply Z.pow_pos_nonneg; lia).
  destruct (2 ^ r) as [|M|M] eqn:HM; try lia. cbn [binary_normalize].
  replace 0 with (r - 52 - (r - 52)) by lia.
  assert (1 < B64.prec) as Hprec by (unfold B64.prec; lia).
  rewrite (binary_round_canonical B64.prec B64.emax false
             4503599627370496 M (r - 52) (r - 52)).
  - replace (r - 52 <=? B64.emax - B64.prec) with false; [reflexivity|].
    symmetry. apply Z.leb_gt. unfold B64.emax, B64.prec. lia.
  - lia.
  - rewrite <- HM. change (Z.pos 4503599627370496) with (2 ^ 52).
    rewrite <- Z.pow_add_r by lia. f_equal. lia.
  - apply canonical_mantissa_spec; [assumption|].
    unfold emin, B64.prec, B64.emax.
    change (2 ^ 53) with 9007199254740992.
    change (2 ^ (53 - 1)) with 4503599627370496. lia.
Qed.

(** X5.  On doubles, for a projected reference whose two circumferences
    are that of Web Mercator, 40075016.68557849 m, [GetWorldTmsExtents]
    at a resolution [r] from 0 to 1023 returns the range from (0, 0) to
    (2^r, 2^r), whatever the raster; from resolution 1024 on it raises
    OverflowError, as [2 ** r] is then too large to divide a float
    by. *)
Theorem GetWorldTmsExtents_counts_on_doubles (TILE_SIDE : Z) (fuel : nat)
    (ds : Dataset spec_float)
    (transform : option (CoordinateTransformation spec_float)) (r : Z) :
  let C := S754_finite false 5378777689100435 (-27) in
  IsProjected (target_ref ds transform) <> 0 ->
  GetMajorCircumference (target_ref ds transform) = Ok C ->
  GetMinorCircumference (target_ref ds transform) = Ok C ->
  (0 <= r <= 1023 ->
   GetWorldTmsExtents TILE_SIDE fuel ds (Some r) transform
   = Ok (mkExtents (mkXY 0 0) (mkXY (2 ^ r) (2 ^ r)))) /\
  (1024 <= r ->
   GetWorldTmsExtents TILE_SIDE fuel ds (Some r) transform
   = Raise OverflowError).
Proof.
  intros C Hp HC HCm.
  destruct (same_circumferences (target_ref ds transform)
              Examples.web_mercator C C Hp ltac:(discriminate) HC
              ltac:(vm_compute; reflexivity) HCm
              ltac:(vm_compute; reflexivity))
    as (Hworld & Htile & Hcount & _).
  unfold GetWorldTmsExtents. cbn [mbind outcome_bind].
  rewrite Hworld.
  set (check := fun (world : Extents spec_float) (r : Z) =>
         match GetTilesCount Examples.web_mercator world r with
         | Ok n => (xy_x n =? 2 ^ r) && (xy_y n =? 2 ^ r)
         | _ => false
         end).
  set (edge := S754_finite false 5378777689100435 (-28)).
  set (world := mkExtents (mkXY (fneg edge) (fneg edge)) (mkXY edge edge)).
  assert (GetWorldExtents Examples.web_mercator = Ok world) as ->
    by (vm_compute; reflexivity).
  assert (forallb (check world) (seqZ 0 1024) = true) as Hall
    by (vm_compute; reflexivity).
  cbn [mbind outcome_bind]. rewrite Hcount. split.
  - intros Hr.
    assert (check world r = true) as Hcheck
      by (apply (forallb_seqZ (check world) 1024); [exact Hall | lia]).
    clear Hall. unfold check in Hcheck. clearbody world.
    destruct (GetTilesCount Examples.web_mercator world r) as [[nx ny]| |];
      try discriminate.
    cbn [xy_x xy_y] in Hcheck. apply andb_true_iff in Hcheck as [Hx Hy].
    apply Z.eqb_eq in Hx, Hy. subst nx ny. reflexivity.
  - intros Hr. clear Hall. unfold GetTilesCount, GetTileDimensions.
    assert (GetMajorCircumference Examples.web_mercator = Ok C) as ->
      by (vm_compute; reflexivity).
    cbn [mbind outcome_bind]. rewrite (b64_pow2_overflow r Hr). reflexivity.
Qed.

Lemma GetWorldTmsExtents_counts_on_doubles_witness :
  GetWorldTmsExtents Examples.TILE_SIDE 0 (Examples.mercator_raster [])
    (Some 3) None
  = Ok (mkExtents (mkXY 0 0) (mkXY (2 ^ 3) (2 ^ 3))).
Proof.
  apply (proj1 (GetWorldTmsExtents_counts_on_doubles Examples.TILE_SIDE 0
                  (Examples.mercator_raster []) None 3
                  ltac:(discriminate) ltac:(vm_compute; reflexivity)
                  ltac:(vm_compute; reflexivity))).
  lia.
Defined.

(** X7.  On doubles, for such a reference and tiles of 256 pixels, at a
    resolution [r] from 0 to 1022 a pixel of [GetPixelDimensions] times
    256 is the tile of [GetTileDimensions], without any rounding, and
    one resolution further both dimensions of the pixel are halved. *)
Theorem GetPixelDimensions_pyramid_on_doubles
    (sr : SpatialReference spec_float) (r : Z) :
  let C := S754_finite false 5378777689100435 (-27) in
  IsProjected sr <> 0 ->
  GetMajorCircumference sr = Ok C ->
  GetMinorCircumference sr = Ok C ->
  0 <= r <= 1022 ->
  exists tile px px',
    GetTileDimensions sr r = Ok tile /\
    GetPixelDimensions 256 sr r = Ok px /\
    GetPixelDimensions 256 sr (r + 1) = Ok px' /\
    fmul_Z (xy_x px) 256 = Ok (xy_x tile) /\
    fmul_Z (xy_y px) 256 = Ok (xy_y tile) /\
    fdiv_Z (xy_x px) 2 = Ok (xy_x px') /\
    fdiv_Z (xy_y px) 2 = Ok (xy_y px').
Proof.
  intros C Hp HC HCm Hr.
  destruct (same_circumferences sr Examples.web_mercator C C Hp
              ltac:(discriminate) HC ltac:(vm_compute; reflexivity) HCm
              ltac:(vm_compute; reflexivity))
    as (_ & Htile & _ & Hpixel).
  rewrite Htile, !Hpixel.
  set (same := fun (a : outcome spec_float) (b : spec_float) =>
         match a with Ok x => bool_decide (x = b) | _ => false end).
  assert (Hsame : forall a b, same a b = true -> a = Ok b).
  { intros [x| |] b; cbn; try discriminate.
    intros Hx. apply bool_decide_eq_true in Hx. now subst. }
  set (check := fun r : Z =>
         match GetTileDimensions Examples.web_mercator r,
               GetPixelDimensions 256 Examples.web_mercator r,
               GetPixelDimensions 256 Examples.web_mercator (r + 1) with
         | Ok tile, Ok px, Ok px' =>
             same (fmul_Z (xy_x px) 256) (xy_x tile) &&
             same (fmul_Z (xy_y px) 256) (xy_y tile) &&
             same (fdiv_Z (xy_x px) 2) (xy_x px') &&
             same (fdiv_Z (xy_y px) 2) (xy_y px')
         | _, _, _ => false
         end).
  assert (forallb check (seqZ 0 1023) = true) as Hall
    by (vm_compute; reflexivity).
  assert (check r = true) as Hcheck
    by (apply (forallb_seqZ check 1023); [exact Hall | lia]).
  clear Hall. unfold check in Hcheck.
  destruct (GetTileDimensions Examples.web_mercator r) as [tile| |];
    try discriminate.
  destruct (GetPixelDimensions 256 Examples.web_mercator r) as [px| |];
    try discriminate.
  destruct (GetPixelDimensions 256 Examples.web_mercator (r + 1))
    as [px'| |]; try discriminate.
  rewrite !andb_true_iff in Hcheck.
  destruct Hcheck as [[[H1 H2] H3] H4].
  exists tile, px, px'. repeat split; try reflexivity; now apply Hsame.
Qed.

Lemma GetPixelDimensions_pyramid_on_doubles_witness :
  exists tile px px',
    GetTileDimensions Examples.web_mercator 8 = Ok tile /\
    GetPixelDimensions 256 Examples.web_mercator 8 = Ok px /\
    GetPixelDimensions 256 Examples.web_mercator (8 + 1) = Ok px' /\
    fmul_Z (xy_x px) 256 = Ok (xy_x tile) /\
    fmul_Z (xy_y px) 256 = Ok (xy_y tile) /\
    fdiv_Z (xy_x px) 2 = Ok (xy_x px') /\
    fdiv_Z (xy_y px) 2 = Ok (xy_y px').
Proof.
  apply (GetPixelDimensions_pyramid_on_doubles Examples.web_mercator 8).
  - discriminate.
  - vm_compute. reflexivity.
  - vm_compute. reflexivity.
  - lia.
Defined.

(** ** The range of a band *)

(** X8.  On a band of any supported type, [MaximumValue] is a fixed
    point of [IncrementValue]; [IncrementValue] of [MinimumValue] is the
    minimum plus one on an integer type and the most negative finite
    value on a floating type; and on an integer type the result of
    [IncrementValue] is never below its argument nor outside the range
    from [MinimumValue] to [MaximumValue].  On a band of an unsupported
    type the three of them raise the ValueError of [NumPyDataType]. *)
Theorem IncrementValue_within_the_range (self : Band) :
  (forall t, NumPyDataType self = Ok t ->
     MaximumValue self
     = Ok (if np_is_integer t then PyInt (iinfo_max t)
           else PyFloat (S754_infinity false)) /\
     MinimumValue self
     = Ok (if np_is_integer t then PyInt (iinfo_min t)
           else PyFloat (S754_infinity true)) /\
     (forall m, MaximumValue self = Ok m -> IncrementValue self m = Ok m) /\
     (forall m, MinimumValue self = Ok m ->
        IncrementValue self m
        = Ok (if np_is_integer t then PyInt (iinfo_min t + 1)
              else PyFloat (SFopp (finfo_max t)))) /\
     (forall n v,
        IncrementValue self (PyInt n) = Ok v -> np_is_integer t = true ->
        exists n', v = PyInt n' /\ n <= n' <= n + 1 /\
                   iinfo_min t <= n' <= iinfo_max t)) /\
  (forall e, NumPyDataType self = Raise e ->
     e = ValueError /\
     MaximumValue self = Raise e /\ MinimumValue self = Raise e /\
     forall v, IncrementValue self v = Raise e).
Proof.
  split.
  - intros t Ht. unfold MaximumValue, MinimumValue, IncrementValue.
    rewrite Ht. cbn [mbind outcome_bind].
    split; [now destruct (np_is_integer t)|].
    split; [now destruct (np_is_integer t)|].
    split; [|split].
    + intros m Hm.
      destruct t; cbn in Hm; injection Hm as <-; vm_compute; reflexivity.
    + intros m Hm.
      destruct t; cbn in Hm; injection Hm as <-; vm_compute; reflexivity.
    + intros n v Hrun Hint. rewrite Hint in Hrun.
      destruct (Z.leb_spec (iinfo_min t) n), (Z.leb_spec n (iinfo_max t));
        cbn [andb negb] in Hrun; try discriminate.
      destruct (Z.eqb_spec n (iinfo_max t)); injection Hrun as <-;
        eexists; (split; [reflexivity|]); lia.
  - intros e He. unfold MaximumValue, MinimumValue, IncrementValue.
    rewrite He. cbn [mbind outcome_bind].
    split; [|repeat split; reflexivity].
    revert He. unfold NumPyDataType.
    repeat (match goal with
            | |- context [if ?c then _ else _] => destruct c
            | |- context [match ?x with _ => _ end] => destruct x
            end; try discriminate).
    now intros [= <-].
Qed.

Lemma IncrementValue_within_the_range_witness :
  IncrementValue (Examples.byte_band None) (PyInt 255) = Ok (PyInt 255) /\
  IncrementValue (Examples.byte_band None) (PyInt 0) = Ok (PyInt (0 + 1)).
Proof.
  destruct (proj1 (IncrementValue_within_the_range (Examples.byte_band None))
              np_uint8 eq_refl) as (_ & _ & Hmax & Hmin & _).
  split.
  - apply (Hmax (PyInt 255)). reflexivity.
  - apply (Hmin (PyInt 0)). reflexivity.
Defined.

(** ** The band extraction and the preprocessing *)

Section Preprocess.
Context {F : Type} `{Arith F}.
Variable W : Type.
Variable Popen_communicate : list string -> W -> (Z * string * string) * W.
Variable open_dataset : string -> W -> outcome (Dataset F).
Variable FromEPSG : Z -> outcome (SpatialReference F).
Variable osr_transform :
  SpatialReference F -> SpatialReference F -> F -> F -> option (F * F * F).
Variable os_rename : string -> string -> W -> outcome unit * W.
Variable os_remove : string -> W -> outcome unit * W.
Variable dirname : string -> string.
Variable temp_name : nat -> option string -> string -> string -> string.
Variable float_repr : F -> string.
Variable float_str : spec_float -> string.
Variables (TILE_SIDE EPSG_WEB_MERCATOR : Z).
Variables (GDALTRANSLATE GDALWARP : string).

Lemma extract_color_band_out_of_range (inputfile : string) (band : Z)
    (w : W) (dataset : Dataset F) :
  open_dataset inputfile w = Ok dataset ->
  ~ 1 <= band <= RasterCount dataset ->
  extract_color_band W Popen_communicate open_dataset GDALTRANSLATE
    inputfile band w
  = (Raise ValueError, w).
Proof.
  intros Hopen Hband.
  unfold extract_color_band, w_bind, Dataset_open. rewrite Hopen.
  destruct (Z.leb_spec 1 band), (Z.leb_spec band (RasterCount dataset));
    cbn [andb negb]; try reflexivity.
  lia.
Qed.

(** X9.  [extract_color_band] raises what opening the file raises; on an
    open file it raises ValueError for a band outside 1 to [RasterCount],
    both included, without launching the engine; for a band inside, when
    the engine exits with 0, the VRT is the standard output of
    [gdal_translate -q -of VRT -b band inputfile /dev/stdout]. *)
Theorem extract_color_band_checks_the_band :
  (forall inputfile band w e,
     open_dataset inputfile w = Raise e ->
     extract_color_band W Popen_communicate open_dataset GDALTRANSLATE
       inputfile band w
     = (Raise e, w)) /\
  (forall inputfile band w dataset,
     open_dataset inputfile w = Ok dataset ->
     ~ 1 <= band <= RasterCount dataset ->
     extract_color_band W Popen_communicate open_dataset GDALTRANSLATE
       inputfile band w
     = (Raise ValueError, w)) /\
  (forall inputfile band w dataset out err w',
     open_dataset inputfile w = Ok dataset ->
     1 <= band <= RasterCount dataset ->
     Popen_communicate
       [GDALTRANSLATE; "-q"; "-of"; "VRT"; "-b"; str_of_int band;
        inputfile; "/dev/stdout"]%string w
     = ((0, out, err), w') ->
     extract_color_band W Popen_communicate open_dataset GDALTRANSLATE
       inputfile band w
     = (Ok {| content := out |}, w')).
Proof.
  split; [|split].
  - intros inputfile band w e Hopen.
    unfold extract_color_band, w_bind, Dataset_open. now rewrite Hopen.
  - intros inputfile band w dataset. apply extract_color_band_out_of_range.
  - intros inputfile band w dataset out err w' Hopen Hband Hrun.
    unfold extract_color_band, w_bind, Dataset_open. rewrite Hopen.
    destruct (Z.leb_spec 1 band), (Z.leb_spec band (RasterCount dataset));
      cbn [andb negb]; try lia.
    unfold check_output_gdal. rewrite Hrun. reflexivity.
Qed.

(** X10.  [preprocess] with a band outside 1 to [RasterCount] raises
    ValueError and leaves everything as it was: no temporary file has
    been created and no process launched. *)
Theorem preprocess_rejects_the_band (fuel : nat)
    (inputfile outputfile : string) (band : Z)
    (spatial_ref : option (SpatialReference F))
    (resampling : option resampling_arg) (compress : option string)
    (s : state W) (dataset : Dataset F) :
  open_dataset inputfile (world s) = Ok dataset ->
  ~ 1 <= band <= RasterCount dataset ->
  preprocess W Popen_communicate open_dataset FromEPSG osr_transform
    os_rename os_remove dirname temp_name float_repr float_str TILE_SIDE
    EPSG_WEB_MERCATOR GDALTRANSLATE GDALWARP fuel inputfile outputfile
    (Some band) spatial_ref resampling compress s
  = (Raise ValueError, s).
Proof.
  intros Hopen Hband. unfold preprocess, pipeline. cbn [app].
  cbn [pipeline_loop]. unfold in_world.
  rewrite (extract_color_band_out_of_range _ _ _ _ Hopen Hband).
  cbn. destruct s. reflexivity.
Qed.
End Preprocess.

Lemma extract_color_band_checks_the_band_witness :
  extract_color_band unit Examples.echo_engine
    (Examples.open_as (Examples.mercator_raster [Examples.byte_band None]))
    "gdal_translate" "in.tif" 2 tt
  = (Raise ValueError, tt).
Proof.
  apply (proj1 (proj2 (extract_color_band_checks_the_band unit
                         Examples.echo_engine
                         (Examples.open_as
                            (Examples.mercator_raster
                               [Examples.byte_band None]))
                         "gdal_translate"))
           "in.tif"%string 2 tt
           (Examples.mercator_raster [Examples.byte_band None]) eq_refl).
  intros [_ Hc]. exact (Hc eq_refl).
Defined.

Lemma preprocess_rejects_the_band_witness :
  let s0 : state unit := {| world := tt; tempfiles := [] |} in
  preprocess unit Examples.echo_engine
    (Examples.open_as (Examples.mercator_raster [Examples.byte_band None]))
    Examples.FromEPSG Examples.identity_transform
    (fun _ _ w => (Ok tt, w)) (fun _ w => (Ok tt, w)) (fun f => f)
    Examples.temp_name Examples.float_text Examples.float_text
    Examples.TILE_SIDE 3857 "gdal_translate" "gdalwarp" 9
    "in.tif" "out.tif" (Some 0) None None None s0
  = (Raise ValueError, s0).
Proof.
  intros s0.
  apply (preprocess_rejects_the_band unit Examples.echo_engine
           (Examples.open_as (Examples.mercator_raster [Examples.byte_band None]))
           Examples.FromEPSG Examples.identity_transform
           (fun _ _ w => (Ok tt, w)) (fun _ w => (Ok tt, w)) (fun f => f)
           Examples.temp_name Examples.float_text Examples.float_text
           Examples.TILE_SIDE 3857 "gdal_translate" "gdalwarp" 9
           "in.tif" "out.tif" 0 None None None s0
           (Examples.mercator_raster [Examples.byte_band None]) eq_refl).
  intros [Hc _]. exact (Hc eq_refl).
Defined.

(** ** More on the pipeline driver *)

Section PipelineSteps.
Variable W : Type.
Variable Popen_communicate : list string -> W -> (Z * string * string) * W.
Variable os_rename : string -> string -> W -> outcome unit * W.
Variable os_remove : string -> W -> outcome unit * W.
Variable dirname : string -> string.
Variable temp_name : nat -> option string -> string -> string -> string.
Variable GDALWARP : string.

(** Closing files does nothing to the world and always succeeds. *)
Lemma close_all_world (l : list nat) (s : state W) :
  exists s3 : state W,
    close_all W l s = (Ok tt, s3) /\ world s3 = world s /\
    length (tempfiles s3) = length (tempfiles s).
Proof.
  revert s. induction l as [|h l IH]; intros s.
  - exists s. repeat split; reflexivity.
  - cbn [close_all]. unfold io_bind, close.
    destruct (IH {| world := world s;
                    tempfiles := alter closed h (tempfiles s) |})
      as (s3 & Hrun & Hw & Hlen).
    exists s3. split; [exact Hrun|]. split; [exact Hw|].
    rewrite Hlen. cbn. apply length_alter.
Qed.

(** X11.  [pipeline] raises the exception of the first step that fails,
    as it is, and then renders nothing: no process is launched and no
    temporary file is created after the failure.  When every step
    succeeds, its outcome is the outcome of [render] on the VRT of the
    last step. *)
Theorem pipeline_propagates_the_outcome :
  (forall inputfile outputfile f rest working_memory compress tempdir
          s tmpfiles e s1,
     pipeline_loop W temp_name f rest 0 inputfile [] s
     = ((tmpfiles, Raise e), s1) ->
     exists s',
       pipeline W Popen_communicate os_rename os_remove dirname temp_name
         GDALWARP inputfile outputfile (f :: rest) working_memory compress
         tempdir s
       = (Raise e, s') /\
       world s' = world s1 /\
       length (tempfiles s') = length (tempfiles s1)) /\
  (forall inputfile outputfile f rest working_memory compress tempdir
          s tmpfiles vrt s1,
     pipeline_loop W temp_name f rest 0 inputfile [] s
     = ((tmpfiles, Ok vrt), s1) ->
     fst (pipeline W Popen_communicate os_rename os_remove dirname temp_name
            GDALWARP inputfile outputfile (f :: rest) working_memory
            compress tempdir s)
     = fst (render W Popen_communicate os_rename os_remove dirname temp_name
              vrt outputfile GDALWARP working_memory compress tempdir s1)).
Proof.
  split.
  - intros inputfile outputfile f rest working_memory compress tempdir
      s tmpfiles e s1 Hloop.
    unfold pipeline. rewrite Hloop.
    destruct (close_all_world tmpfiles s1) as (s3 & Hclose & Hw & Hlen).
    rewrite Hclose. exists s3. repeat split; assumption.
  - intros inputfile outputfile f rest working_memory compress tempdir
      s tmpfiles vrt s1 Hloop.
    unfold pipeline. rewrite Hloop.
    destruct (render W Popen_communicate os_rename os_remove dirname
                temp_name vrt outputfile GDALWARP working_memory compress
                tempdir s1) as [r' s2].
    destruct (close_all_world tmpfiles s2) as (s3 & Hclose & _ & _).
    rewrite Hclose. destruct r'; reflexivity.
Qed.

(** X12.  The loop of [pipeline] leaves the temporary files that exist
    alone and adds one per step that succeeds.  When every step
    succeeds there is one per function, and the last one holds the
    content of the VRT that goes on to [render], still open; when a step
    fails there are fewer than functions. *)
Theorem pipeline_loop_one_tempfile_per_step (rest : list (step W)) :
  forall (f : step W) i previous tmpfiles s tmpfiles' r s1,
    pipeline_loop W temp_name f rest i previous tmpfiles s
    = ((tmpfiles', r), s1) ->
    (exists new,
       tempfiles s1 = tempfiles s ++ new /\
       length tmpfiles' = (length tmpfiles + length new)%nat) /\
    (forall vrt,
       r = Ok vrt ->
       length tmpfiles' = (length tmpfiles + S (length rest))%nat /\
       exists h tf,
         last tmpfiles' = Some h /\ tempfiles s1 !! h = Some tf /\
         tf_content tf = content vrt /\ tf_closed tf = false) /\
    (forall e,
       r = Raise e ->
       (length tmpfiles' < length tmpfiles + S (length rest))%nat).
Proof.
  induction rest as [|g rest IH]; intros f i previous tmpfiles s
    tmpfiles' r s1; cbn [pipeline_loop]; unfold in_world;
    destruct (f previous (world s)) as [[vrt|e|] w];
    cbn [get_tempfile NamedTemporaryFile tempfiles world].
  - intros [= <- <- <-]. cbn [tempfiles]. split; [|split].
    + eexists. split; [reflexivity|]. rewrite length_app. reflexivity.
    + intros vrt' [= <-]. split; [rewrite length_app; reflexivity|].
      eexists. eexists. split; [apply last_snoc|].
      split; [apply list_lookup_middle; reflexivity|].
      split; reflexivity.
    + discriminate.
  - intros [= <- <- <-]. cbn [tempfiles]. split; [|split].
    + exists []. rewrite app_nil_r. split; [reflexivity|]. cbn. lia.
    + discriminate.
    + intros _ _. cbn. lia.
  - intros [= <- <- <-]. cbn [tempfiles]. split; [|split].
    + exists []. rewrite app_nil_r. split; [reflexivity|]. cbn. lia.
    + discriminate.
    + discriminate.
  - intros Hloop. apply IH in Hloop as ((new & Hnew & Hlen) & Hok & Hfail).
    cbn [tempfiles] in Hnew. rewrite length_app in Hlen, Hok, Hfail.
    cbn [length] in *. split; [|split].
    + eexists. split; [rewrite Hnew, <- app_assoc; reflexivity|].
      cbn [app length]. lia.
    + intros vrt' Hr. destruct (Hok vrt' Hr) as (Hl & Hlast).
      split; [lia | exact Hlast].
    + intros e Hr. specialize (Hfail e Hr). lia.
  - intros [= <- <- <-]. cbn [tempfiles]. split; [|split].
    + exists []. rewrite app_nil_r. split; [reflexivity|]. cbn. lia.
    + discriminate.
    + intros _ _. cbn. lia.
  - intros [= <- <- <-]. cbn [tempfiles]. split; [|split].
    + exists []. rewrite app_nil_r. split; [reflexivity|]. cbn. lia.
    + discriminate.
    + discriminate.
Qed.
End PipelineSteps.

Lemma pipeline_propagates_the_outcome_witness :
  let s0 : state unit := {| world := tt; tempfiles := [] |} in
  exists s',
    pipeline unit Examples.echo_engine (fun _ _ w => (Ok tt, w))
      (fun _ w => (Ok tt, w)) (fun f => f) Examples.temp_name "gdalwarp"
      "in.tif" "out.tif" [Examples.good_step; Examples.bad_step]
      512 None None s0
    = (Raise GdalError, s') /\
    world s' = tt /\ length (tempfiles s') = 1%nat.
Proof.
  intros s0.
  exact (proj1 (pipeline_propagates_the_outcome unit Examples.echo_engine
                  (fun _ _ w => (Ok tt, w)) (fun _ w => (Ok tt, w))
                  (fun f => f) Examples.temp_name "gdalwarp")
           "in.tif"%string "out.tif"%string Examples.good_step
           [Examples.bad_step] 512 None None s0
           [0%nat] GdalError
           (snd (pipeline_loop unit Examples.temp_name Examples.good_step
                   [Examples.bad_step] 0 "in.tif" [] s0))
           eq_refl).
Defined.

Lemma pipeline_loop_one_tempfile_per_step_witness :
  let s0 : state unit := {| world := tt; tempfiles := [] |} in
  let run :=
    pipeline_loop unit Examples.temp_name Examples.good_step
      [Examples.good_step] 0 "in.tif" [] s0 in
  length (fst (fst run)) = (0 + 2)%nat /\
  exists h tf,
    last (fst (fst run)) = Some h /\ tempfiles (snd run) !! h = Some tf /\
    tf_content tf = "<VRTDataset/>"%string /\ tf_closed tf = false.
Proof.
  intros s0 run.
  exact (proj1 (proj2 (pipeline_loop_one_tempfile_per_step unit
                         Examples.temp_name [Examples.good_step]
                         Examples.good_step 0 "in.tif"%string [] s0
                         (fst (fst run)) (snd (fst run)) (snd run) eq_refl))
           {| content := "<VRTDataset/>" |} eq_refl).
Defined.

(** ** Rendering *)

Section Render.
Variable W : Type.
Variable Popen_communicate : list string -> W -> (Z * string * string) * W.
Variable os_rename : string -> string -> W -> outcome unit * W.
Variable os_remove : string -> W -> outcome unit * W.
Variable dirname : string -> string.
Variable temp_name : nat -> option string -> string -> string -> string.

Variables (self : VRT) (outputfile cmd : string) (working_memory : Z).
Variables (compress tempdir : option string) (s : state W).

(** The two temporary files of [render]: the GeoTIFF being written and
    the VRT being read, with their names and the command line. *)
Let tif_name : string :=
  temp_name (length (tempfiles s)) (Some (dirname outputfile))
    "gdalrender" ".tif".
Let vrt_name : string :=
  temp_name (S (length (tempfiles s))) tempdir "tmp" ".vrt".
Let command : list string :=
  render_command cmd working_memory compress vrt_name tif_name.
Let files_afterwards : list tempfile :=
  tempfiles s ++
  [{| tf_name := tif_name; tf_content := EmptyString; tf_closed := false |};
   {| tf_name := vrt_name; tf_content := content self; tf_closed := true |}].

(** [render] flattened: the engine, the renaming when the engine
    succeeded, the removal in every case. *)
Lemma render_runs (returncode : Z) (out err : string) (w1 w2 w3 : W)
    (moved removed : outcome unit) :
  Popen_communicate command (world s) = ((returncode, out, err), w1) ->
  (if returncode =? 0 then os_rename tif_name outputfile w1
   else (Raise (CalledGdalError returncode command out
                  (Str.rstrip_newlines err)), w1))
  = (moved, w2) ->
  moved <> Unfinished ->
  os_remove tif_name w2 = (removed, w3) ->
  render W Popen_communicate os_rename os_remove dirname temp_name self
    outputfile cmd working_memory compress tempdir s
  = (match removed with
     | Ok _ => moved
     | Raise (OSError errno) =>
         if errno =? ENOENT then moved else Raise (OSError errno)
     | Raise e => Raise e
     | Unfinished => Unfinished
     end,
     {| world := w3; tempfiles := files_afterwards |}).
Proof.
  intros Hrun Hmoved Hfin Hremove.
  set (tif := {| tf_name := tif_name; tf_content := EmptyString;
                 tf_closed := false |}).
  set (vrt := {| tf_name := vrt_name; tf_content := content self;
                 tf_closed := false |}).
  assert ((tempfiles s ++ [tif]) !! length (tempfiles s) = Some tif) as Hn0
    by (apply list_lookup_middle; reflexivity).
  assert (((tempfiles s ++ [tif]) ++ [vrt]) !! S (length (tempfiles s))
          = Some vrt) as Hn1.
  { apply list_lookup_middle. rewrite length_app. cbn. lia. }
  assert (alter closed (S (length (tempfiles s)))
            ((tempfiles s ++ [tif]) ++ [vrt])
          = files_afterwards) as Hclosed.
  { rewrite <- app_assoc. cbn [app].
    replace (S (length (tempfiles s))) with (length (tempfiles s) + 1)%nat
      by lia.
    rewrite alter_app_r. reflexivity. }
  unfold render, get_tempfile, io_bind, NamedTemporaryFile, try_finally,
    in_world, name_of, close, check_output_gdal.
  cbn [tempfiles world]. rewrite !length_app. cbn [length].
  rewrite !Nat.add_1_r. fold tif_name. fold tif. rewrite !Hn0.
  fold vrt_name. fold vrt. rewrite !Hn1.
  cbn [tf_name tif vrt]. fold command. rewrite Hrun.
  destruct (Z.eqb_spec returncode 0) as [->|Hcode]; cbn [negb].
  - cbn [tempfiles world]. rewrite Hmoved.
    destruct moved as [[]|e|]; [| |contradiction];
      cbn [tempfiles world]; rewrite Hclosed, Hremove;
      destruct removed as [[]|e'|]; try reflexivity;
      destruct e'; try reflexivity;
      destruct (errno =? ENOENT); reflexivity.
  - injection Hmoved as <- <-.
    cbn [tempfiles world]; rewrite Hclosed, Hremove.
    destruct removed as [[]|e'|]; try reflexivity;
      destruct e'; try reflexivity;
      destruct (errno =? ENOENT); reflexivity.
Qed.
End Render.

Section RenderOutcomes.
Variable W : Type.
Variable Popen_communicate : list string -> W -> (Z * string * string) * W.
Variable os_rename : string -> string -> W -> outcome unit * W.
Variable os_remove : string -> W -> outcome unit * W.
Variable dirname : string -> string.
Variable temp_name : nat -> option string -> string -> string -> string.

Variables (self : VRT) (outputfile cmd : string) (working_memory : Z).
Variables (compress tempdir : option string) (s : state W).

Let tif_name : string :=
  temp_name (length (tempfiles s)) (Some (dirname outputfile))
    "gdalrender" ".tif".
Let vrt_name : string :=
  temp_name (S (length (tempfiles s))) tempdir "tmp" ".vrt".
Let command : list string :=
  render_command cmd working_memory compress vrt_name tif_name.
Let files_afterwards : list tempfile :=
  tempfiles s ++
  [{| tf_name := tif_name; tf_content := EmptyString; tf_closed := false |};
   {| tf_name := vrt_name; tf_content := content self; tf_closed := true |}].

(** X13.  When the engine fails, [render] raises its CalledGdalError and
    does not rename anything to [outputfile]: after the engine it only
    removes the GeoTIFF it was writing, whether that file is there or
    not (ENOENT), and the temporary file with the VRT has been closed. *)
Theorem render_on_engine_failure (returncode : Z) (out err : string)
    (w1 w3 : W) (removed : outcome unit) :
  Popen_communicate command (world s) = ((returncode, out, err), w1) ->
  returncode <> 0 ->
  os_remove tif_name w1 = (removed, w3) ->
  removed = Ok tt \/ removed = Raise (OSError ENOENT) ->
  render W Popen_communicate os_rename os_remove dirname temp_name self
    outputfile cmd working_memory compress tempdir s
  = (Raise (CalledGdalError returncode command out
              (Str.rstrip_newlines err)),
     {| world := w3; tempfiles := files_afterwards |}).
Proof.
  intros Hrun Hcode Hremove Hremoved.
  rewrite (render_runs W Popen_communicate os_rename os_remove dirname
             temp_name self outputfile cmd working_memory compress tempdir s
             returncode out err w1 w1 w3
             (Raise (CalledGdalError returncode command out
                       (Str.rstrip_newlines err)))
             removed Hrun).
  - destruct Hremoved as [-> | ->]; reflexivity.
  - destruct (Z.eqb_spec returncode 0); [contradiction | reflexivity].
  - discriminate.
  - exact Hremove.
Qed.

(** X14.  When the engine exits with 0, [render] renames the GeoTIFF to
    [outputfile] and then tries to remove it under its old name: it
    returns normally when the renaming succeeds and the removal succeeds
    or fails with ENOENT.  An OSError with another errno from the
    removal is raised in place of whatever happened before, be it a
    success or the failure of the engine. *)
Theorem render_outcome_of_the_cleanup :
  (forall out err w1 w2 w3 removed,
     Popen_communicate command (world s) = ((0, out, err), w1) ->
     os_rename tif_name outputfile w1 = (Ok tt, w2) ->
     os_remove tif_name w2 = (removed, w3) ->
     removed = Ok tt \/ removed = Raise (OSError ENOENT) ->
     render W Popen_communicate os_rename os_remove dirname temp_name self
       outputfile cmd working_memory compress tempdir s
     = (Ok tt, {| world := w3; tempfiles := files_afterwards |})) /\
  (forall returncode out err w1 w2 w3 moved errno,
     Popen_communicate command (world s) = ((returncode, out, err), w1) ->
     (if returncode =? 0 then os_rename tif_name outputfile w1
      else (Raise (CalledGdalError returncode command out
                     (Str.rstrip_newlines err)), w1))
     = (moved, w2) ->
     moved <> Unfinished ->
     os_remove tif_name w2 = (Raise (OSError errno), w3) ->
     errno <> ENOENT ->
     render W Popen_communicate os_rename os_remove dirname temp_name self
       outputfile cmd working_memory compress tempdir s
     = (Raise (OSError errno),
        {| world := w3; tempfiles := files_afterwards |})).
Proof.
  split.
  - intros out err w1 w2 w3 removed Hrun Hmoved Hremove Hremoved.
    rewrite (render_runs W Popen_communicate os_rename os_remove dirname
               temp_name self outputfile cmd working_memory compress tempdir
               s 0 out err w1 w2 w3 (Ok tt) removed Hrun Hmoved
               ltac:(discriminate) Hremove).
    destruct Hremoved as [-> | ->]; reflexivity.
  - intros returncode out err w1 w2 w3 moved errno Hrun Hmoved Hfin Hremove
      Herrno.
    rewrite (render_runs W Popen_communicate os_rename os_remove dirname
               temp_name self outputfile cmd working_memory compress tempdir
               s returncode out err w1 w2 w3 moved _ Hrun Hmoved Hfin
               Hremove).
    destruct (Z.eqb_spec errno ENOENT); [contradiction | reflexivity].
Qed.
End RenderOutcomes.

Lemma render_on_engine_failure_witness :
  let run :=
    render Cases.log (Cases.engine 1) Cases.rename Cases.remove_missing
      Cases.directory Examples.temp_name Cases.a_vrt "out.tif" "gdalwarp"
      512 None None Cases.fresh in
  fst run
  = Raise (CalledGdalError 1
             ["gdalwarp"; "-q"; "-of"; "GTiff"; "-multi"; "-overwrite";
              "-co"; "BIGTIFF=IF_NEEDED"; "-wo"; "NUM_THREADS=ALL_CPUS";
              "-wm"; "512"; "--config"; "GDAL_CACHEMAX"; "512";
              "None/tmp1.vrt"; "./gdalrender0.tif"]%string
             "" "boom") /\
  world (snd run) = ["remove"; "engine"]%string /\
  tf_closed <$> tempfiles (snd run) = [false; true].
Proof.
  intros run.
  pose proof (render_on_engine_failure Cases.log (Cases.engine 1)
                Cases.rename Cases.remove_missing Cases.directory
                Examples.temp_name Cases.a_vrt "out.tif" "gdalwarp" 512
                None None Cases.fresh 1 ""%string
                ("boom" +:+ Examples.nl)%string ["engine"%string]
                ["remove"; "engine"]%string (Raise (OSError ENOENT))
                eq_refl ltac:(discriminate) eq_refl
                (or_intror eq_refl)) as Hrun.
  fold run in Hrun. rewrite Hrun. repeat split; reflexivity.
Defined.

Lemma render_outcome_of_the_cleanup_witness :
  let good :=
    render Cases.log (Cases.engine 0) Cases.rename Cases.remove_missing
      Cases.directory Examples.temp_name Cases.a_vrt "out.tif" "gdalwarp"
      512 None None Cases.fresh in
  let bad :=
    render Cases.log (Cases.engine 0) Cases.rename Cases.remove_denied
      Cases.directory Examples.temp_name Cases.a_vrt "out.tif" "gdalwarp"
      512 None None Cases.fresh in
  (fst good = Ok tt /\
   world (snd good) = ["remove"; "rename"; "engine"]%string) /\
  fst bad = Raise (OSError Cases.EACCES).
Proof.
  intros good bad. split.
  - pose proof (proj1 (render_outcome_of_the_cleanup Cases.log
                         (Cases.engine 0) Cases.rename Cases.remove_missing
                         Cases.directory Examples.temp_name Cases.a_vrt
                         "out.tif" "gdalwarp" 512 None None Cases.fresh)
                  ""%string ("boom" +:+ Examples.nl)%string
                  ["engine"%string] ["rename"; "engine"]%string
                  ["remove"; "rename"; "engine"]%string
                  (Raise (OSError ENOENT)) eq_refl eq_refl eq_refl
                  (or_intror eq_refl)) as Hrun.
    fold good in Hrun. rewrite Hrun. split; reflexivity.
  - pose proof (proj2 (render_outcome_of_the_cleanup Cases.log
                         (Cases.engine 0) Cases.rename Cases.remove_denied
                         Cases.directory Examples.temp_name Cases.a_vrt
                         "out.tif" "gdalwarp" 512 None None Cases.fresh)
                  0 ""%string ("boom" +:+ Examples.nl)%string
                  ["engine"%string] ["rename"; "engine"]%string
                  ["remove"; "rename"; "engine"]%string
                  (Ok tt) Cases.EACCES eq_refl eq_refl
                  ltac:(discriminate) eq_refl ltac:(discriminate)) as Hrun.
    fold bad in Hrun. rewrite Hrun. reflexivity.
Defined.

(** ** The command line of render *)

Lemma upper_char_idem (c : ascii) :
  Str.upper_char (Str.upper_char c) = Str.upper_char c.
Proof.
  destruct c as [[] [] [] [] [] [] [] []]; vm_compute; reflexivity.
Qed.

Lemma upper_idem (t : string) : Str.upper (Str.upper t) = Str.upper t.
Proof.
  induction t as [|c t IH]; [reflexivity|].
  cbn [Str.upper]. now rewrite upper_char_idem, IH.
Qed.

(** X15.  The compression of [render] is named without regard to case:
    a name and its upper-case form give the same command line.  No
    compression at all ([None]), the name NONE in any case and the empty
    name give a command line without a COMPRESS option. *)
Theorem render_command_compress (cmd : string) (working_memory : Z)
    (inputfile_name tmpfile_name : string) :
  (forall name,
     render_command cmd working_memory (Some name) inputfile_name
       tmpfile_name
     = render_command cmd working_memory (Some (Str.upper name))
         inputfile_name tmpfile_name) /\
  (forall compress,
     compress = None \/ compress = Some EmptyString \/
     (exists name, compress = Some name /\ Str.upper name = "NONE"%string) ->
     render_command cmd working_memory compress inputfile_name tmpfile_name
     = [cmd; "-q"; "-of"; "GTiff"; "-multi"; "-overwrite";
        "-co"; "BIGTIFF=IF_NEEDED"; "-wo"; "NUM_THREADS=ALL_CPUS";
        "-wm"; str_of_int working_memory;
        "--config"; "GDAL_CACHEMAX"; str_of_int working_memory;
        inputfile_name; tmpfile_name]%string).
Proof.
  split.
  - intros name. unfold render_command. cbn [str_of_optional].
    now rewrite upper_idem.
  - intros compress [-> | [-> | (name & -> & Hname)]];
      unfold render_command; cbn [str_of_optional];
      rewrite ?Hname; reflexivity.
Qed.

Lemma render_command_compress_witness :
  render_command "gdalwarp" 512 (Some "none"%string) "in.vrt" "out.tif"
  = ["gdalwarp"; "-q"; "-of"; "GTiff"; "-multi"; "-overwrite";
     "-co"; "BIGTIFF=IF_NEEDED"; "-wo"; "NUM_THREADS=ALL_CPUS";
     "-wm"; str_of_int 512; "--config"; "GDAL_CACHEMAX"; str_of_int 512;
     "in.vrt"; "out.tif"]%string.
Proof.
  apply (proj2 (render_command_compress "gdalwarp" 512 "in.vrt" "out.tif")
           (Some "none"%string)).
  right. right. exists "none"%string. split; reflexivity.
Defined.

(** ** The native resolution under a maximum *)

Lemma bind_finishes {A B} (m : outcome A) (k : A -> outcome B) :
  m <> Unfinished -> (forall a, k a <> Unfinished) -> (m ≫= k) <> Unfinished.
Proof.
  intros Hm Hk. destruct m as [a| |]; cbn;
    [apply Hk | discriminate | contradiction].
Qed.

Lemma or_raise_finishes {A} (e : exn) (o : option A) :
  or_raise e o <> Unfinished.
Proof. destruct o; discriminate. Qed.

(** Splits a goal [_ <> Unfinished] along the binds and the tests of a
    function of the geometry. *)
Ltac finishes_step :=
  repeat first
    [ apply or_raise_finishes
    | apply bind_finishes; [|intros]
    | match goal with
      | |- (if ?c then _ else _) <> Unfinished => destruct c
      | |- Ok _ <> Unfinished => discriminate
      | |- Raise _ <> Unfinished => discriminate
      end ].

Lemma GetPixelDimensions_finishes {F : Type} `{Arith F} (TILE_SIDE : Z)
    (sr : SpatialReference F) (r : Z) :
  GetPixelDimensions TILE_SIDE sr r <> Unfinished.
Proof.
  unfold GetPixelDimensions, GetTileDimensions, GetMajorCircumference,
    GetMinorCircumference, fdiv_Z, fdiv, f_pow2, f_of_Z.
  finishes_step.
Qed.

Lemma scan_resolutions_finishes {F : Type} `{Arith F} (TILE_SIDE : Z)
    (dst_ref : SpatialReference F) (dst : F) (m : Z) (fuel : nat) :
  forall r,
    Z.max 0 (m - r) < Z.of_nat fuel ->
    scan_resolutions TILE_SIDE fuel dst_ref dst (Some m) r <> Unfinished.
Proof.
  induction fuel as [|fuel IH]; intros r Hfuel; [lia|].
  cbn [scan_resolutions maximum_reached].
  destruct (Z.leb_spec m r); [discriminate|].
  apply bind_finishes.
  - unfold pixels_fine_enough. apply bind_finishes.
    + apply GetPixelDimensions_finishes.
    + discriminate.
  - intros [|]; [discriminate|]. apply IH. lia.
Qed.

Lemma destination_pixel_size_finishes {F : Type} `{Arith F}
    (self : Dataset F) (transform : option (CoordinateTransformation F)) :
  destination_pixel_size self transform <> Unfinished.
Proof.
  unfold destination_pixel_size.
  destruct (GetGeoTransform self) as [[[[[g0 g1] g2] g3] g4] g5].
  destruct transform as [t|]; [|discriminate].
  unfold f_of_Z, TransformPoint. apply bind_finishes.
  - apply or_raise_finishes.
  - intros zero. apply bind_finishes; [apply or_raise_finishes|].
    intros [[px py] pz]. discriminate.
Qed.

(** X16.  With a maximum, the scan of [GetNativeResolution] needs no
    more than max(0, maximum) + 1 rounds to return or to raise; what it
    returns lies between 0 and max(0, maximum); and when the scan
    without a maximum returns [z0], the scan with the maximum returns
    [z0] capped at the maximum, or 0 for a negative maximum. *)
Theorem GetNativeResolution_capped {F : Type} `{Arith F} (TILE_SIDE : Z)
    (fuel : nat) (self : Dataset F)
    (transform : option (CoordinateTransformation F)) (m : Z) :
  Z.max 0 m < Z.of_nat fuel ->
  GetNativeResolution TILE_SIDE fuel self transform (Some m) <> Unfinished /\
  (forall z,
     GetNativeResolution TILE_SIDE fuel self transform (Some m) = Ok z ->
     0 <= z <= Z.max 0 m) /\
  (forall fuel' z0,
     GetNativeResolution TILE_SIDE fuel' self transform None = Ok z0 ->
     GetNativeResolution TILE_SIDE fuel self transform (Some m)
     = Ok (Z.max 0 (Z.min z0 m))).
Proof.
  intros Hfuel. unfold GetNativeResolution. split; [|split].
  - apply bind_finishes; [apply destination_pixel_size_finishes|].
    intros dst. apply scan_resolutions_finishes. lia.
  - intros z Hrun. apply bind_Ok in Hrun as (dst & _ & Hscan).
    apply scan_resolutions_Ok in Hscan as (Hr & Hk & Hz).
    split; [lia|].
    destruct (Z_le_gt_dec z (Z.max 0 m)) as [Hle|Hgt]; [exact Hle|].
    destruct (Hk (Z.max 0 m)) as [Hc _]; [lia|].
    cbn in Hc. apply Z.leb_gt in Hc. lia.
  - intros fuel' z0 Hrun. apply bind_Ok in Hrun as (dst & Hdst & Hscan).
    rewrite Hdst. cbn [mbind outcome_bind].
    apply scan_resolutions_Ok in Hscan as (Hr & Hk & Hz).
    destruct Hz as [Hz | Hz]; [discriminate|].
    apply scan_resolutions_Ok. split; [lia|]. split.
    + intros k Hkr. split.
      * cbn. apply Z.leb_gt. lia.
      * apply Hk. lia.
    + destruct (Z_le_gt_dec m z0) as [Hle|Hgt].
      * left. cbn. apply Z.leb_le. lia.
      * right. replace (Z.max 0 (Z.min z0 m)) with z0 by lia. exact Hz.
Qed.

Lemma GetNativeResolution_capped_witness :
  GetNativeResolution Examples.TILE_SIDE 6 (Examples.mercator_raster []) None
    (Some 5)
  = Ok (Z.max 0 (Z.min 8 5)).
Proof.
  apply (proj2 (proj2 (GetNativeResolution_capped Examples.TILE_SIDE 6
                         (Examples.mercator_raster []) None 5
                         ltac:(reflexivity))) 9%nat 8).
  vm_compute. reflexivity.
Defined.

(** ** The scan of the resolutions on doubles *)

Lemma b64_pow2_1024 : f_pow2 (F := spec_float) 1024 = Raise OverflowError.
Proof. vm_compute. reflexivity. Qed.

Lemma b64_pixels_at_1024 (TILE_SIDE : Z) (sr : SpatialReference spec_float)
    (dst : spec_float) (b : bool) :
  pixels_fine_enough TILE_SIDE sr dst 1024 <> Ok b.
Proof.
  unfold pixels_fine_enough, GetPixelDimensions, GetTileDimensions.
  destruct (GetMajorCircumference sr) as [c| |]; cbn [mbind outcome_bind];
    rewrite ?b64_pow2_1024; discriminate.
Qed.

Lemma b64_scan_finishes (TILE_SIDE : Z) (sr : SpatialReference spec_float)
    (dst : spec_float) (fuel : nat) :
  forall r,
    0 <= r <= 1024 -> 1024 - r < Z.of_nat fuel ->
    scan_resolutions TILE_SIDE fuel sr dst None r <> Unfinished.
Proof.
  induction fuel as [|fuel IH]; intros r Hr Hfuel; [lia|].
  cbn [scan_resolutions maximum_reached].
  destruct (pixels_fine_enough TILE_SIDE sr dst r) as [[|]| |] eqn:Hfine;
    cbn [mbind outcome_bind]; try discriminate.
  - destruct (Z.eq_dec r 1024) as [->|Hne].
    + now apply b64_pixels_at_1024 in Hfine.
    + apply IH; lia.
  - exfalso. revert Hfine. unfold pixels_fine_enough.
    apply bind_finishes; [apply GetPixelDimensions_finishes | discriminate].
Qed.

(** X22.  On doubles the scan of [GetNativeResolution] is bounded, also
    without a maximum: within 1025 rounds it returns a resolution below
    1024 or raises, since [2 ** 1024] is too large to divide a float
    by. *)
Theorem GetNativeResolution_bounded_on_doubles (TILE_SIDE : Z) (fuel : nat)
    (self : Dataset spec_float)
    (transform : option (CoordinateTransformation spec_float)) :
  (1025 <= fuel)%nat ->
  GetNativeResolution TILE_SIDE fuel self transform None <> Unfinished /\
  (forall z,
     GetNativeResolution TILE_SIDE fuel self transform None = Ok z ->
     0 <= z < 1024).
Proof.
  intros Hfuel. unfold GetNativeResolution. split.
  - apply bind_finishes; [apply destination_pixel_size_finishes|].
    intros dst. apply b64_scan_finishes; lia.
  - intros z Hrun. apply bind_Ok in Hrun as (dst & _ & Hscan).
    apply scan_resolutions_Ok in Hscan as (Hr & Hk & Hz).
    split; [lia|].
    destruct (Z_lt_ge_dec z 1024) as [Hlt|Hge]; [exact Hlt|]. exfalso.
    destruct (Z.eq_dec z 1024) as [->|Hne].
    + destruct Hz as [Hz|Hz]; [discriminate|].
      now apply b64_pixels_at_1024 in Hz.
    + destruct (Hk 1024) as [_ Hc]; [lia|].
      now apply b64_pixels_at_1024 in Hc.
Qed.

Lemma GetNativeResolution_bounded_on_doubles_witness :
  GetNativeResolution Examples.TILE_SIDE 1025 Cases.flat_raster None None
  <> Unfinished.
Proof.
  apply (proj1 (GetNativeResolution_bounded_on_doubles Examples.TILE_SIDE
                  1025 Cases.flat_raster None ltac:(lia))).
Defined.

(** On a raster whose pixels have no extent no resolution is fine
    enough: the scan ends with the OverflowError of resolution 1024. *)
Example GetNativeResolution_of_a_flat_raster :
  GetNativeResolution Examples.TILE_SIDE 1025 Cases.flat_raster None None
  = Raise OverflowError.
Proof. vm_compute. reflexivity. Qed.

(** ** What the engine advertises *)

Lemma scan_help_without_header (lines : list string) :
  "Available resampling methods:"%string ∉ lines ->
  scan_help lines None = Ok None.
Proof.
  induction lines as [|line lines IH]; intros Hnot; [reflexivity|].
  cbn [scan_help]. apply not_elem_of_cons in Hnot as [Hline Hrest].
  destruct (String.eqb_spec line "Available resampling methods:");
    [congruence | now apply IH].
Qed.

(** X17.  [resampling_methods] reads the standard output of
    [cmd --help] when the engine exits with 0 or with 1, and raises the
    CalledProcessError of any other exit code.  Lines before the header
    [Available resampling methods:] are skipped and, without the header,
    the result is [None], not an empty list.  A line after the header
    that ends with a full stop closes the list: what follows it is not
    read.  An empty line after the header raises IndexError. *)
Theorem resampling_methods_reads_the_help (W : Type)
    (Popen_communicate : list string -> W -> (Z * string * string) * W) :
  (forall cmd w returncode out err w',
     Popen_communicate [cmd; "--help"%string] w
     = ((returncode, out, err), w') ->
     resampling_methods W Popen_communicate cmd w
     = (if (returncode =? 0) || (returncode =? 1)
        then scan_help (Str.splitlines out) None
        else Raise (CalledProcessError returncode [cmd; "--help"%string]
                      out),
        w')) /\
  (forall lines,
     "Available resampling methods:"%string ∉ lines ->
     scan_help lines None = Ok None) /\
  (forall before line rest names,
     "Available resampling methods:"%string ∉ before ->
     Str.endswith_char "." line = true ->
     mapM method_name (Str.split_on "," line) = Ok names ->
     scan_help
       (before ++ "Available resampling methods:"%string :: line :: rest)
       None
     = Ok (Some names)) /\
  (forall rest acc,
     scan_help (EmptyString :: rest) (Some acc) = Raise IndexError).
Proof.
  split; [|split; [|split]].
  - intros cmd w returncode out err w' Hrun.
    unfold resampling_methods, check_output. rewrite Hrun.
    destruct (Z.eqb_spec returncode 0) as [->|Hcode]; [reflexivity|].
    cbn [negb orb]. destruct (returncode =? 1); reflexivity.
  - apply scan_help_without_header.
  - intros before line rest names Hbefore Hdot Hnames.
    induction before as [|l before IH].
    + cbn [app scan_help]. rewrite String.eqb_refl. cbn [scan_help].
      rewrite Hnames. cbn [mbind outcome_bind app]. now rewrite Hdot.
    + apply not_elem_of_cons in Hbefore as [Hl Hbefore].
      cbn [app scan_help].
      destruct (String.eqb_spec l "Available resampling methods:");
        [congruence | now apply IH].
  - reflexivity.
Qed.

Lemma resampling_methods_reads_the_help_witness :
  scan_help
    (["Usage: gdalwarp"%string; EmptyString] ++
     "Available resampling methods:"%string ::
     "    near (default), bilinear, cubic."%string :: ["and more"%string])
    None
  = Ok (Some ["near"; "bilinear"; "cubic"]%string).
Proof.
  apply (proj1 (proj2 (proj2 (resampling_methods_reads_the_help unit
                                Examples.echo_engine)))
           ["Usage: gdalwarp"%string; EmptyString]
           "    near (default), bilinear, cubic."%string
           ["and more"%string] ["near"; "bilinear"; "cubic"]%string).
  - intros Hin. repeat (apply elem_of_cons in Hin as [Hin|Hin];
                        [discriminate|]).
    inversion Hin.
  - reflexivity.
  - reflexivity.
Defined.

(** ** The EPSG code of a reference *)

Lemma digit_of_pretty_N_char (k : N) :
  (k < 10)%N -> digit_of (pretty_N_char k) = Some (Z.of_N k).
Proof.
  intros Hk.
  assert (k = 0 \/ k = 1 \/ k = 2 \/ k = 3 \/ k = 4 \/ k = 5 \/ k = 6 \/
          k = 7 \/ k = 8 \/ k = 9)%N as Hcases by lia.
  repeat (destruct Hcases as [-> | Hcases]; [reflexivity|]).
  subst k. reflexivity.
Qed.

(** Reading the digits that [pretty] writes gives the number back. *)
Lemma parse_digits_pretty_N_go (x : N) :
  forall s, (0 < x)%N ->
    parse_digits 0 (pretty_N_go x s) = parse_digits (Z.of_N x) s.
Proof.
  induction (N.lt_wf_0 x) as [x _ IH]. intros s Hx.
  rewrite pretty_N_go_step by exact Hx.
  destruct (N.eq_0_gt_0_cases (x `div` 10)) as [Hq | Hq].
  - rewrite Hq, pretty_N_go_0. cbn [parse_digits].
    rewrite digit_of_pretty_N_char by (apply N.mod_lt; discriminate).
    f_equal. pose proof (N.div_mod x 10 ltac:(discriminate)) as Hdm.
    rewrite Hq in Hdm. lia.
  - rewrite IH; [|apply N.div_lt; [exact Hx | reflexivity] | exact Hq].
    cbn [parse_digits].
    rewrite digit_of_pretty_N_char by (apply N.mod_lt; discriminate).
    f_equal. pose proof (N.div_mod x 10 ltac:(discriminate)) as Hdm. lia.
Qed.

Lemma pretty_N_go_free (p : ascii -> bool) (x : N) :
  (forall k, (k < 10)%N -> p (pretty_N_char k) = false) ->
  forall s, free_of p s = true -> free_of p (pretty_N_go x s) = true.
Proof.
  intros Hp. induction (N.lt_wf_0 x) as [x _ IH]. intros s Hs.
  assert (x = 0 \/ 0 < x)%N as [-> | Hx] by lia.
  - now rewrite pretty_N_go_0.
  - rewrite pretty_N_go_step by exact Hx. apply IH.
    + apply N.div_lt; [exact Hx | reflexivity].
    + cbn [free_of]. rewrite Hp by (apply N.mod_lt; discriminate). exact Hs.
Qed.

Lemma pretty_N_go_nonempty (x : N) :
  forall s, s <> EmptyString -> pretty_N_go x s <> EmptyString.
Proof.
  induction (N.lt_wf_0 x) as [x _ IH]. intros s Hs.
  assert (x = 0 \/ 0 < x)%N as [-> | Hx] by lia.
  - now rewrite pretty_N_go_0.
  - rewrite pretty_N_go_step by exact Hx. apply IH.
    + apply N.div_lt; [exact Hx | reflexivity].
    + discriminate.
Qed.

Lemma pretty_char_free (p : ascii -> bool) :
  p "0"%char = false -> p "1"%char = false -> p "2"%char = false ->
  p "3"%char = false -> p "4"%char = false -> p "5"%char = false ->
  p "6"%char = false -> p "7"%char = false -> p "8"%char = false ->
  p "9"%char = false ->
  forall k, (k < 10)%N -> p (pretty_N_char k) = false.
Proof.
  intros H0 H1 H2 H3 H4 H5 H6 H7 H8 H9 k Hk.
  assert (k = 0 \/ k = 1 \/ k = 2 \/ k = 3 \/ k = 4 \/ k = 5 \/ k = 6 \/
          k = 7 \/ k = 8 \/ k = 9)%N as Hcases by lia.
  repeat (destruct Hcases as [-> | Hcases]; [assumption|]).
  subst k. assumption.
Qed.

(** The text of a positive number: digits, and at least one. *)
Lemma pretty_positive_digits (n : positive) :
  exists c t,
    pretty (Zpos n) = String c t /\
    free_of (fun a => negb (is_digit a)) (String c t) = true /\
    parse_digits 0 (String c t) = Some (Zpos n).
Proof.
  unfold pretty, pretty_Z, pretty, pretty_positive, pretty, pretty_N.
  destruct (decide (N.pos n = 0%N)) as [Hc|_]; [discriminate|].
  destruct (pretty_N_go (N.pos n) EmptyString) as [|c t] eqn:Hs.
  - exfalso. revert Hs.
    rewrite pretty_N_go_step by reflexivity.
    apply pretty_N_go_nonempty. discriminate.
  - exists c, t. split; [reflexivity|]. rewrite <- Hs. split.
    + apply pretty_N_go_free; [|reflexivity].
      apply (pretty_char_free (fun a => negb (is_digit a))); reflexivity.
    + now rewrite parse_digits_pretty_N_go.
Qed.

Lemma strip_free (p : ascii -> bool) (s : string) :
  free_of p s = true -> Str.strip p s = s.
Proof.
  intros Hs. unfold Str.strip.
  assert (Str.lstrip_chars p s = s) as ->.
  { destruct s as [|c s]; [reflexivity|]. cbn in *.
    apply andb_true_iff in Hs as [Hc _]. now destruct (p c). }
  induction s as [|c s IH]; [reflexivity|].
  cbn in Hs. apply andb_true_iff in Hs as [Hc Hs].
  cbn [Str.rstrip_chars]. rewrite (IH Hs).
  destruct s; [|reflexivity]. now destruct (p c).
Qed.

Lemma free_of_weaken (p q : ascii -> bool) (s : string) :
  (forall c, p c = false -> q c = false) ->
  free_of p s = true -> free_of q s = true.
Proof.
  intros Hpq. induction s as [|c s IH]; [reflexivity|]. cbn.
  intros Hs. apply andb_true_iff in Hs as [Hc Hs].
  apply negb_true_iff in Hc. rewrite (Hpq c Hc). now apply IH.
Qed.

Lemma digit_not_whitespace (c : ascii) :
  negb (is_digit c) = false -> Str.is_whitespace c = false.
Proof.
  destruct c as [[] [] [] [] [] [] [] []]; vm_compute; congruence.
Qed.

Lemma digit_not_sign (c : ascii) (t : string) :
  negb (is_digit c) = false ->
  match String c t with
  | String "-"%char t' => (true, t')
  | String "+"%char t' => (false, t')
  | _ => (false, String c t)
  end = (false, String c t).
Proof.
  destruct c as [[] [] [] [] [] [] [] []]; vm_compute; congruence.
Qed.

(** [int(str(n))] is [n]. *)
Lemma py_int_str_of_int (n : Z) : py_int (str_of_int n) = Ok n.
Proof.
  unfold str_of_int. destruct n as [|n|n].
  - reflexivity.
  - destruct (pretty_positive_digits n) as (c & t & -> & Hfree & Hparse).
    unfold py_int. rewrite strip_free
      by (eapply free_of_weaken; [apply digit_not_whitespace | exact Hfree]).
    rewrite digit_not_sign
      by (cbn in Hfree; apply andb_true_iff in Hfree as [Hc _];
          now apply negb_true_iff in Hc).
    now rewrite Hparse.
  - change (pretty (Z.neg n)) with ("-" +:+ pretty (Z.pos n))%string.
    destruct (pretty_positive_digits n) as (c & t & -> & Hfree & Hparse).
    change ("-" +:+ String c t)%string with (String "-" (String c t)).
    unfold py_int. rewrite strip_free.
    + cbv beta iota. rewrite Hparse. reflexivity.
    + assert (free_of Str.is_whitespace (String c t) = true) as Hws
        by (eapply free_of_weaken; [apply digit_not_whitespace | exact Hfree]).
      cbn [free_of] in *. rewrite Hws. reflexivity.
Qed.

Lemma string_of_list_snoc (l : list ascii) (c : ascii) (t : string) :
  (string_of_list_ascii (l ++ [c]) +:+ t
   = string_of_list_ascii l +:+ String c t)%string.
Proof.
  induction l as [|a l IH]; [reflexivity|].
  change (String a (string_of_list_ascii (l ++ [c]) +:+ t)%string
          = String a (string_of_list_ascii l +:+ String c t)%string).
  now rewrite IH.
Qed.

Lemma append_empty_r (t : string) : (t +:+ EmptyString)%string = t.
Proof.
  induction t as [|a t IH]; [reflexivity|].
  change (String a (t +:+ EmptyString)%string = String a t). now rewrite IH.
Qed.

(** [split] cuts at the first separator. *)
Lemma split_on_from_first (sep : ascii) (name : string) :
  free_of (fun c => Ascii.eqb c sep) name = true ->
  forall cur rest,
    Str.split_on_from sep cur (name +:+ String sep rest)%string
    = (string_of_list_ascii (rev cur) +:+ name)%string
      :: Str.split_on_from sep [] rest.
Proof.
  induction name as [|c name IH]; intros Hfree cur rest.
  - change (EmptyString +:+ String sep rest)%string with (String sep rest).
    cbn [Str.split_on_from]. rewrite Ascii.eqb_refl, append_empty_r.
    reflexivity.
  - cbn in Hfree. apply andb_true_iff in Hfree as [Hc Hfree].
    apply negb_true_iff in Hc.
    change ((String c name +:+ String sep rest)%string)
      with (String c (name +:+ String sep rest)%string).
    cbn [Str.split_on_from]. rewrite Hc, (IH Hfree). cbn [rev].
    now rewrite string_of_list_snoc.
Qed.

Lemma split_on_from_whole (sep : ascii) (s : string) :
  free_of (fun c => Ascii.eqb c sep) s = true ->
  forall cur,
    Str.split_on_from sep cur s
    = [(string_of_list_ascii (rev cur) +:+ s)%string].
Proof.
  induction s as [|c s IH]; intros Hfree cur.
  - cbn [Str.split_on_from]. now rewrite append_empty_r.
  - cbn in Hfree. apply andb_true_iff in Hfree as [Hc Hfree].
    apply negb_true_iff in Hc.
    cbn [Str.split_on_from]. rewrite Hc, (IH Hfree). cbn [rev].
    now rewrite string_of_list_snoc.
Qed.

Lemma str_of_int_free (p : ascii -> bool) (n : Z) :
  p "-"%char = false -> (forall c, negb (is_digit c) = false -> p c = false) ->
  free_of p (str_of_int n) = true.
Proof.
  intros Hdash Hdigit. unfold str_of_int. destruct n as [|n|n].
  - cbn. rewrite Hdigit by reflexivity. reflexivity.
  - destruct (pretty_positive_digits n) as (c & t & -> & Hfree & _).
    eapply free_of_weaken; [exact Hdigit | exact Hfree].
  - change (pretty (Z.neg n)) with ("-" +:+ pretty (Z.pos n))%string.
    destruct (pretty_positive_digits n) as (c & t & -> & Hfree & _).
    change ("-" +:+ String c t)%string with (String "-" (String c t)).
    assert (free_of p (String c t) = true) as Hp
      by (eapply free_of_weaken; [exact Hdigit | exact Hfree]).
    cbn [free_of] in *. rewrite Hdash, Hp. reflexivity.
Qed.

Lemma digit_not_colon (c : ascii) :
  negb (is_digit c) = false -> Ascii.eqb c ":" = false.
Proof.
  destruct c as [[] [] [] [] [] [] [] []]; vm_compute; congruence.
Qed.

(** X18.  [GetEPSGString] and [GetEPSGCode] return [None] for a local
    reference.  Otherwise the string is the authority name and code of
    the GEOGCS or PROJCS node joined by a colon, and [GetEPSGCode] reads
    the code back as an int, for a name without a colon.  A reference
    without authority gives the string [None:None], on which
    [GetEPSGCode] raises ValueError. *)
Theorem GetEPSGCode_reads_the_authority {F : Type}
    (self : SpatialReference F) :
  let cstype :=
    if IsGeographic self =? 1 then "GEOGCS"%string else "PROJCS"%string in
  (IsLocal self = 1 ->
   GetEPSGString self = None /\ GetEPSGCode self = Ok None) /\
  (forall name n,
     IsLocal self <> 1 ->
     GetAuthorityName self cstype = Some name ->
     free_of (fun c => Ascii.eqb c ":") name = true ->
     GetAuthorityCode self cstype = Some (str_of_int n) ->
     GetEPSGString self = Some (name +:+ ":" +:+ str_of_int n)%string /\
     GetEPSGCode self = Ok (Some n)) /\
  (IsLocal self <> 1 ->
   GetAuthorityName self cstype = None ->
   GetAuthorityCode self cstype = None ->
   GetEPSGString self = Some "None:None"%string /\
   GetEPSGCode self = Raise ValueError).
Proof.
  intros cstype. split; [|split].
  - intros Hlocal. unfold GetEPSGCode, GetEPSGString. rewrite Hlocal.
    split; reflexivity.
  - intros name n Hlocal Hname Hfree Hcode.
    assert (GetEPSGString self
            = Some (name +:+ ":" +:+ str_of_int n)%string) as Hstring.
    { unfold GetEPSGString.
      destruct (Z.eqb_spec (IsLocal self) 1) as [|_]; [contradiction|].
      fold cstype. now rewrite Hname, Hcode. }
    split; [exact Hstring|]. unfold GetEPSGCode. rewrite Hstring.
    change (name +:+ ":" +:+ str_of_int n)%string
      with (name +:+ String ":" (str_of_int n))%string.
    assert (String.eqb (name +:+ String ":" (str_of_int n)) EmptyString
            = false) as -> by (destruct name; reflexivity).
    unfold Str.split_on. rewrite (split_on_from_first _ _ Hfree).
    rewrite split_on_from_whole
      by (apply str_of_int_free; [reflexivity | apply digit_not_colon]).
    cbn [rev string_of_list_ascii].
    change (EmptyString +:+ str_of_int n)%string with (str_of_int n).
    now rewrite py_int_str_of_int.
  - intros Hlocal Hname Hcode.
    assert (GetEPSGString self = Some "None:None"%string) as Hstring.
    { unfold GetEPSGString.
      destruct (Z.eqb_spec (IsLocal self) 1) as [|_]; [contradiction|].
      fold cstype. now rewrite Hname, Hcode. }
    split; [exact Hstring|]. unfold GetEPSGCode. rewrite Hstring.
    reflexivity.
Qed.

Lemma GetEPSGCode_reads_the_authority_witness :
  GetEPSGString Examples.web_mercator = Some "EPSG:3857"%string /\
  GetEPSGCode Examples.web_mercator = Ok (Some 3857).
Proof.
  apply (proj1 (proj2 (GetEPSGCode_reads_the_authority
                         Examples.web_mercator)) "EPSG"%string 3857);
    first [discriminate | reflexivity].
Defined.

(** ** The number of border tiles *)

Lemma length_bind_const {A B} (f : A -> list B) (k : nat) (l : list A) :
  (forall x, length (f x) = k) -> length (l ≫= f) = (length l * k)%nat.
Proof.
  intros Hf. induction l as [|x l IH]; [reflexivity|].
  rewrite bind_cons, length_app, Hf, IH. cbn [length]. lia.
Qed.

Lemma length_tile_box (a b c d : Z) :
  length (x ← xrange a b; y ← xrange c d; [mkXY x y])
  = (Z.to_nat (b - a) * Z.to_nat (d - c))%nat.
Proof.
  rewrite (length_bind_const _ (Z.to_nat (d - c))).
  - unfold xrange. now rewrite length_seqZ.
  - intros x. rewrite (length_bind_const _ 1%nat) by reflexivity.
    unfold xrange. rewrite length_seqZ. lia.
Qed.

Lemma elem_of_tile_box (a b c d : Z) (p : XY Z) :
  p ∈ (x ← xrange a b; y ← xrange c d; [mkXY x y]) <->
  a <= xy_x p < b /\ c <= xy_y p < d.
Proof.
  rewrite list_elem_of_bind. unfold xrange. split.
  - intros (x & Hp & Hx). apply list_elem_of_bind in Hp as (y & Hp & Hy).
    apply list_elem_of_singleton in Hp as ->. cbn.
    apply elem_of_seqZ in Hx, Hy. lia.
  - intros (Hx & Hy). exists (xy_x p). split.
    + apply list_elem_of_bind. exists (xy_y p). split.
      * destruct p. apply list_elem_of_singleton. reflexivity.
      * apply elem_of_seqZ. lia.
    + apply elem_of_seqZ. lia.
Qed.

Lemma NoDup_tile_box (a b c d : Z) :
  NoDup (x ← xrange a b; y ← xrange c d; [mkXY x y]).
Proof.
  unfold xrange. apply NoDup_bind.
  - intros x1 x2 p _ _ Hp1 Hp2.
    apply list_elem_of_bind in Hp1 as (y1 & Hp1 & _).
    apply list_elem_of_bind in Hp2 as (y2 & Hp2 & _).
    apply list_elem_of_singleton in Hp1, Hp2. congruence.
  - intros x _. apply NoDup_bind.
    + intros y1 y2 p _ _ Hp1 Hp2.
      apply list_elem_of_singleton in Hp1, Hp2. congruence.
    + intros y _. apply NoDup_singleton.
    + apply NoDup_seqZ.
  - apply NoDup_seqZ.
Qed.

(** The tiles of a box that lie outside a smaller box inside it. *)
Lemma length_outside (data : Extents Z) (w h : Z) :
  0 <= xy_x (lower_left data) <= xy_x (upper_right data) ->
  xy_x (upper_right data) <= w ->
  0 <= xy_y (lower_left data) <= xy_y (upper_right data) ->
  xy_y (upper_right data) <= h ->
  Z.of_nat
    (length (filter (fun p => Extents_contains data p = false)
               (x ← xrange 0 w; y ← xrange 0 h; [mkXY x y])))
  = w * h
    - (xy_x (upper_right data) - xy_x (lower_left data))
      * (xy_y (upper_right data) - xy_y (lower_left data)).
Proof.
  intros Hx Hw Hy Hh.
  set (l := x ← xrange 0 w; y ← xrange 0 h; [mkXY x y]).
  set (P := fun p : XY Z => Extents_contains data p = false).
  pose proof (filter_app_complement P l) as Hperm.
  apply Permutation_length in Hperm. rewrite length_app in Hperm.
  assert (filter (fun p => ~ P p) l
          ≡ₚ (x ← xrange (xy_x (lower_left data)) (xy_x (upper_right data));
              y ← xrange (xy_y (lower_left data)) (xy_y (upper_right data));
              [mkXY x y])) as Hin.
  { apply NoDup_Permutation.
    - apply NoDup_filter, NoDup_tile_box.
    - apply NoDup_tile_box.
    - intros p. rewrite list_elem_of_filter, elem_of_tile_box.
      subst l. rewrite elem_of_tile_box. subst P. cbn beta.
      unfold Extents_contains.
      destruct (Z.leb_spec (xy_x (lower_left data)) (xy_x p)),
        (Z.ltb_spec (xy_x p) (xy_x (upper_right data))),
        (Z.leb_spec (xy_y (lower_left data)) (xy_y p)),
        (Z.ltb_spec (xy_y p) (xy_y (upper_right data)));
        cbn [andb]; split; intros; try lia; try (exfalso; tauto);
        try (split; [congruence | lia]). }
  apply Permutation_length in Hin. rewrite length_tile_box in Hin.
  subst l. rewrite length_tile_box in Hperm.
  rewrite !Z.sub_0_r in Hperm. nia.
Qed.

(** X19.  When the tile range of the raster lies within the tile range
    of the world, the generator of [GetWorldTmsBorders] yields as many
    tiles as the world has minus the tiles of the raster. *)
Theorem GetWorldTmsBorders_count (F : Type) (A : Arith F) (TILE_SIDE : Z)
    (almost_equal : Extents F -> Extents F -> Z -> bool) (fuel : nat)
    (ds : Dataset F) (resolution : option Z)
    (transform : option (CoordinateTransformation F))
    (g : border_generator) (world data : Extents Z) :
  GetWorldTmsBorders TILE_SIDE almost_equal fuel ds resolution transform
  = Ok g ->
  GetWorldTmsExtents TILE_SIDE fuel ds resolution transform = Ok world ->
  GetTmsExtents TILE_SIDE almost_equal fuel ds resolution transform
  = Ok data ->
  0 <= xy_x (lower_left data) <= xy_x (upper_right data) ->
  xy_x (upper_right data) <= xy_x (upper_right world) ->
  0 <= xy_y (lower_left data) <= xy_y (upper_right data) ->
  xy_y (upper_right data) <= xy_y (upper_right world) ->
  Z.of_nat (length (fst (py_list g)))
  = xy_x (upper_right world) * xy_y (upper_right world)
    - (xy_x (upper_right data) - xy_x (lower_left data))
      * (xy_y (upper_right data) - xy_y (lower_left data)).
Proof.
  unfold GetWorldTmsBorders. intros Hrun Hworld Hdata Hx Hw Hy Hh.
  rewrite Hworld, Hdata in Hrun. cbn [mbind outcome_bind] in Hrun.
  injection Hrun as <-.
  assert (lower_left world = mkXY 0 0) as Hll.
  { unfold GetWorldTmsExtents in Hworld.
    apply bind_Ok in Hworld as (r & _ & Hworld).
    apply bind_Ok in Hworld as (we & _ & Hworld).
    apply bind_Ok in Hworld as (tiles & _ & Hworld).
    injection Hworld as <-. reflexivity. }
  rewrite py_list_filter. cbn [fst candidates data_extents].
  rewrite Hll. cbn [xy_x xy_y].
  now apply length_outside.
Qed.

Lemma GetWorldTmsBorders_count_witness :
  let g :=
    Examples.value {| candidates := []; data_extents :=
                        mkExtents (mkXY 0 0) (mkXY 0 0) |}
      (GetWorldTmsBorders Examples.TILE_SIDE Examples.almost_equal 3
         Examples.quadrant_raster (Some 1) None) in
  Z.of_nat (length (fst (py_list g))) = 2 * 2 - (1 - 0) * (2 - 1).
Proof.
  intros g.
  apply (GetWorldTmsBorders_count spec_float b64 Examples.TILE_SIDE
           Examples.almost_equal 3 Examples.quadrant_raster (Some 1) None g
           (mkExtents (mkXY 0 0) (mkXY 2 2))
           (mkExtents (mkXY 0 1) (mkXY 1 2)));
    first [vm_compute; reflexivity | cbn; lia].
Defined.
